(** * SARIF ingestion in the BlockSecOps editor integrations

    A shallow embedding of the SARIF handling code of the editor front
    ends:

    - VS Code:  [diagnostics.ts] ([DiagnosticsManager]), [scanService.ts]
      ([ScanService.runScan]) and [extension.ts] ([scanCurrentFile],
      [scanWorkspace]);
    - Neovim:   [lua/blocksecops.lua];
    - IntelliJ: [BlockSecOpsScanFileAction] and
      [BlockSecOpsExternalAnnotator];
    - Vim:      the Vimscript plugin, from [blocksecops#ScanCurrentFile]
      to [blocksecops#ClearSigns];
    - the pre-commit hook of the README.

    The decoded report is modelled as SARIF-shaped records in which every
    field may be absent ([None]): this is what the code tests with
    [?.], [||], [has(..)] and [if x then].  A field that is present has the
    JSON type the SARIF schema gives it, and a number is an integer.  The
    JSON decoders themselves ([JSON.parse], [vim.json.decode],
    [Gson.fromJson], [json_decode]) are library code and are taken as
    parameters; what they decode is a report of this shape, except that
    Vim's [json_decode] may also return a value that is no dictionary, as
    it does for the empty text.

    Numbers are kept as the host keeps them.  JavaScript has doubles: the
    arithmetic of [diagnostics.ts] is rounded to them.  Java reads the
    numbers with [getAsInt()], into 32 bits.  The numbers of the Lua and
    Vimscript code are taken to be of magnitude below [2 ^ 53], which Lua
    and Vim keep exactly.

    Of the editor libraries the model has what decides how the code under
    study goes on: the argument checks of [new vscode.Position],
    [new vscode.Range] and [new vscode.Diagnostic], the order in which a
    [Range] keeps its ends, [vscode.Uri.file] as a parameter, the events
    of a spawned process in Node, and the cases in which Vim's
    [:sign place] fails. *)

From Stdlib Require Import ZArith.
From Equations Require Import Equations.
From Equations.Prop Require Import Logic.
From stdpp Require Import base strings list gmap pretty.

Local Open Scope Z_scope.

(** ** Strings, as the host languages use them *)

Module Str.

(** The double quote character, as a string. *)
Definition quote : string := String (Ascii.ascii_of_nat 34) "".

(** Java [s.endsWith(suffix)]. *)
Fixpoint endsWith (s suffix : string) : bool :=
  String.eqb s suffix ||
  match s with
  | EmptyString => false
  | String _ s' => endsWith s' suffix
  end.

(** [s] with its first [n] characters removed. *)
Fixpoint skip (n : nat) (s : string) : string :=
  match n, s with
  | O, _ => s
  | S _, EmptyString => EmptyString
  | S n', String _ s' => skip n' s'
  end.

(** JavaScript [s.replace(pat, '')] with a string pattern: only the
    first occurrence of [pat], wherever it is, is removed. *)
Fixpoint removeFirst (pat s : string) : string :=
  if String.prefix pat s then skip (String.length pat) s
  else match s with
       | EmptyString => EmptyString
       | String c s' => String c (removeFirst pat s')
       end.

(** Java [s.replace(pat, "")]: every occurrence of [pat], scanned from
    the left without overlap, is removed.  [pending] counts the
    characters of the current match that are still to be dropped. *)
Fixpoint removeAllFrom (pat : string) (pending : nat) (s : string) : string :=
  match s with
  | EmptyString => EmptyString
  | String c s' =>
      match pending with
      | S k => removeAllFrom pat k s'
      | O =>
          if String.prefix pat s
          then removeAllFrom pat (Nat.pred (String.length pat)) s'
          else String c (removeAllFrom pat O s')
      end
  end.

Definition removeAll (pat s : string) : string := removeAllFrom pat O s.

(** Lua [s:gsub("^" .. pat, "")] for a pattern without magic
    characters: [pat] is removed only at the very start of [s]. *)
Definition removeAnchored (pat s : string) : string :=
  if String.prefix pat s then skip (String.length pat) s else s.

(** Java [s.indexOf(pat, from)]; [None] stands for [-1]. *)
Definition indexOf (pat s : string) (from : nat) : option nat :=
  String.index from pat s.

(** A match found from [from] lies at or after it and inside [s]; the
    counting loop of the scan action terminates by this bound. *)
Lemma indexOf_bounds pat s : forall from i,
  indexOf pat s from = Some i -> (from <= i <= String.length s)%nat.
Proof.
  unfold indexOf.
  induction s as [|c s IH]; intros from i; cbn [String.index String.length].
  - destruct from; [destruct pat|]; intros E; simplify_eq; simpl; lia.
  - destruct from.
    + destruct (String.prefix pat (String c s)).
      * intros E; simplify_eq. lia.
      * destruct (String.index 0 pat s) eqn:E; [|discriminate].
        intros E'; simplify_eq. apply IH in E. lia.
    + destruct (String.index from pat s) eqn:E; [|discriminate].
      intros E'; simplify_eq. apply IH in E. lia.
Qed.

(** Number of positions of [s] at which [pat] starts. *)
Fixpoint occurrences (pat s : string) : nat :=
  match s with
  | EmptyString => O
  | String _ s' =>
      ((if String.prefix pat s then 1 else 0) + occurrences pat s')%nat
  end.

End Str.

(** ** The decoded SARIF report *)

Module Sarif.

Record Region := {
  startLine : option Z;
  startColumn : option Z;
  endLine : option Z;
  endColumn : option Z
}.

Record ArtifactLocation := { uri : option string }.

Record PhysicalLocation := {
  artifactLocation : option ArtifactLocation;
  region : option Region
}.

Record SarifLocation := { physicalLocation : option PhysicalLocation }.

(** [{ text: string }], used for [message] and for rule descriptions. *)
Record Text := { text : option string }.

Record SarifResultItem := {
  ruleId : option string;
  level : option string;
  message : option Text;
  locations : option (list SarifLocation)
}.

Record SarifRule := {
  rule_id : option string;
  shortDescription : option Text;
  fullDescription : option Text
}.

Record Driver := { rules : option (list SarifRule) }.

Record Tool := { driver : option Driver }.

Record SarifRun := {
  tool : option Tool;
  results : option (list SarifResultItem)
}.

Record SarifResult := { runs : option (list SarifRun) }.

End Sarif.
Import Sarif.

(** ** VS Code: [diagnostics.ts], [scanService.ts], [extension.ts] *)

Module VSCode.

(** A JavaScript computation either returns or throws; [e] is the text
    that [`${error}`] prints for what was thrown. *)
Inductive completion (A : Type) :=
| Returned (a : A)
| Threw (e : string).
Arguments Returned {A} a.
Arguments Threw {A} e.

#[global] Instance completion_eq_dec {A} `{EqDecision A} :
  EqDecision (completion A).
Proof. solve_decision. Defined.

Inductive DiagnosticSeverity := Error | Warning | Information | Hint.

(** *** Numbers, positions and ranges *)

(** JavaScript numbers are doubles.  [toDouble z] is the double nearest
    to the integer [z], ties going to the even significand, for [z] of
    magnitude below [2 ^ 1024]; an integer of magnitude at most [2 ^ 53]
    is a double itself.  A number [n] of the report stands for the double
    that [JSON.parse] made of it, [toDouble n]. *)
Definition toDouble (z : Z) : Z :=
  let m := Z.abs z in
  if m <=? 2 ^ 53 then z
  else
    let unit := 2 ^ (Z.log2 m - 52) in
    let q := m / unit in
    let r := m mod unit in
    let q := if (unit <? 2 * r) || ((unit =? 2 * r) && Z.odd q)
             then q + 1 else q in
    Z.sgn z * (q * unit).

(** [n - 1] on doubles. *)
Definition minus1 (n : Z) : Z := toDouble (toDouble n - 1).

(** [vscode.Position]: its constructor refuses a negative line or
    character. *)
Record Position := { line : Z; character : Z }.

Definition newPosition (line character : Z) : completion Position :=
  if line <? 0 then
    Threw "Error: Illegal argument: line must be non-negative"
  else if character <? 0 then
    Threw "Error: Illegal argument: character must be non-negative"
  else Returned {| line := line; character := character |}.

(** [a.isBefore(b)] *)
Definition isBefore (a b : Position) : bool :=
  if line a <? line b then true
  else if line b <? line a then false
  else character a <? character b.

(** [vscode.Range]: [new vscode.Range(startLine, startCharacter, endLine,
    endCharacter)] makes the two positions, start first, and keeps them in
    order: when the start is not before the end, the two are swapped. *)
Record Range := { range_start : Position; range_end : Position }.

(** The four arguments handed to [new vscode.Range(..)]. *)
Record RangeArguments := {
  arg_startLine : Z;
  arg_startCharacter : Z;
  arg_endLine : Z;
  arg_endCharacter : Z
}.

Definition newRange (a : RangeArguments) : completion Range :=
  match newPosition (arg_startLine a) (arg_startCharacter a) with
  | Threw e => Threw e
  | Returned start =>
      match newPosition (arg_endLine a) (arg_endCharacter a) with
      | Threw e => Threw e
      | Returned end_ =>
          Returned
            (if isBefore start end_
             then {| range_start := start; range_end := end_ |}
             else {| range_start := end_; range_end := start |})
      end
  end.

Record Diagnostic := {
  range : Range;
  message : option string;
  severity : DiagnosticSeverity;
  source : string;
  code : option string
}.

(** [n || d] on an optional number: [undefined] and [0] are falsy. *)
Definition num_or (n : option Z) (d : Z) : Z :=
  match n with
  | Some v => if v =? 0 then d else v
  | None => d
  end.

(** [s || d] on optional strings: [undefined] and [''] are falsy. *)
Definition str_or (s d : option string) : option string :=
  match s with
  | Some v => if String.eqb v "" then d else Some v
  | None => d
  end.

Definition mapSeverity (level : option string) : DiagnosticSeverity :=
  match level with
  | Some l =>
      if String.eqb l "error" then Error
      else if String.eqb l "warning" then Warning
      else if String.eqb l "note" then Information
      else Hint
  | None => Hint
  end.

(** [new Map(rules.map((r) => [r.id, r]))]: entries are set in order,
    so a later rule with the same id replaces an earlier one. *)
Definition rulesMap (rs : list SarifRule) : gmap (option string) SarifRule :=
  foldl (fun m r => <[rule_id r := r]> m) ∅ rs.

(** The arguments of [new vscode.Range(..)] in
    [createDiagnosticsForResult]. *)
Definition rangeArguments (region : option Region) : RangeArguments :=
  {| arg_startLine := minus1 (num_or (region ≫= startLine) 1);
     arg_startCharacter := minus1 (num_or (region ≫= startColumn) 1);
     arg_endLine :=
       minus1 (num_or (region ≫= endLine) (num_or (region ≫= startLine) 1));
     arg_endCharacter := minus1 (num_or (region ≫= endColumn) 999) |}.

(** The range of a region. *)
Definition regionRange (region : option Region) : completion Range :=
  newRange (rangeArguments region).

(** [item.message.text || rule?.shortDescription?.text || item.ruleId];
    reading [.text] of an absent [message] is a [TypeError]. *)
Definition resolveMessage (item : SarifResultItem)
    (rules : gmap (option string) SarifRule) : completion (option string) :=
  match Sarif.message item with
  | None =>
      Threw "TypeError: Cannot read properties of undefined (reading 'text')"
  | Some m =>
      Returned
        (str_or (text m)
           (str_or (((rules !! ruleId item) ≫= shortDescription) ≫= text)
              (ruleId item)))
  end.

(** [new vscode.Diagnostic(range, message, severity)] with [source] and
    [code] set afterwards; the constructor refuses a message that is
    [undefined] or empty. *)
Definition newDiagnostic (range : Range) (message : option string)
    (severity : DiagnosticSeverity) (code : option string)
    : completion Diagnostic :=
  match str_or message None with
  | None => Threw "TypeError: message must be set"
  | Some _ =>
      Returned {| range := range; message := message; severity := severity;
                  source := "blocksecops"; code := code |}
  end.

(** One pass of the [for (const location of ..)] loop body:
    [None] is [continue]. *)
Definition diagnosticForLocation (item : SarifResultItem)
    (rules : gmap (option string) SarifRule) (location : SarifLocation)
    : completion (option (string * Diagnostic)) :=
  let physLoc := physicalLocation location in
  match str_or ((physLoc ≫= artifactLocation) ≫= uri) None with
  | None => Returned None
  | Some u =>
      let uri := Str.removeFirst "file://" u in
      match regionRange (physLoc ≫= region) with
      | Threw e => Threw e
      | Returned range =>
          let severity := mapSeverity (level item) in
          match resolveMessage item rules with
          | Threw e => Threw e
          | Returned message =>
              match newDiagnostic range message severity (ruleId item) with
              | Threw e => Threw e
              | Returned diagnostic => Returned (Some (uri, diagnostic))
              end
          end
      end
  end.

Fixpoint forLocations (item : SarifResultItem)
    (rules : gmap (option string) SarifRule) (ls : list SarifLocation)
    (results : list (string * Diagnostic))
    : completion (list (string * Diagnostic)) :=
  match ls with
  | [] => Returned results
  | location :: ls' =>
      match diagnosticForLocation item rules location with
      | Threw e => Threw e
      | Returned None => forLocations item rules ls' results
      | Returned (Some d) => forLocations item rules ls' (results ++ [d])
      end
  end.

Definition createDiagnosticsForResult (item : SarifResultItem)
    (rules : gmap (option string) SarifRule)
    : completion (list (string * Diagnostic)) :=
  forLocations item rules (default [] (locations item)) [].

(** [diagnosticsByUri] is a JavaScript [Map]: it keeps its keys in the
    order in which they were first set.
    [existing = byUri.get(uri) || []; existing.push(d);
     byUri.set(uri, existing)]. *)
Fixpoint pushDiagnostic (byUri : list (string * list Diagnostic))
    (entry : string * Diagnostic) : list (string * list Diagnostic) :=
  match byUri with
  | [] => [(entry.1, [entry.2])]
  | (uri, existing) :: rest =>
      if String.eqb uri entry.1
      then (uri, existing ++ [entry.2]) :: rest
      else (uri, existing) :: pushDiagnostic rest entry
  end.

Fixpoint forResults (rules : gmap (option string) SarifRule)
    (items : list SarifResultItem) (byUri : list (string * list Diagnostic))
    : completion (list (string * list Diagnostic)) :=
  match items with
  | [] => Returned byUri
  | item :: items' =>
      match createDiagnosticsForResult item rules with
      | Threw e => Threw e
      | Returned diagnostics =>
          forResults rules items' (foldl pushDiagnostic byUri diagnostics)
      end
  end.

Fixpoint forRuns (rs : list SarifRun) (byUri : list (string * list Diagnostic))
    : completion (list (string * list Diagnostic)) :=
  match rs with
  | [] => Returned byUri
  | run :: rs' =>
      let rules := rulesMap (default [] ((tool run ≫= driver) ≫= rules)) in
      match forResults rules (default [] (results run)) byUri with
      | Threw e => Threw e
      | Returned byUri' => forRuns rs' byUri'
      end
  end.

Section Collection.

(** [vscode.Uri.file(uriString)], as the resource under which the
    diagnostic collection keeps what is set for it.  It is library code:
    different paths may name one resource, and a path may be refused. *)
Variable Uri_file : string -> completion string.

(** The [for (const [uriString, diagnostics] of diagnosticsByUri)] loop:
    [set] replaces what the collection held for the resource. *)
Fixpoint setAll (byUri : list (string * list Diagnostic))
    (collection : gmap string (list Diagnostic))
    : completion unit * gmap string (list Diagnostic) :=
  match byUri with
  | [] => (Returned tt, collection)
  | (uriString, diagnostics) :: rest =>
      match Uri_file uriString with
      | Threw e => (Threw e, collection)
      | Returned uri => setAll rest (<[uri := diagnostics]> collection)
      end
  end.

(** [updateDiagnostics]: the collection is cleared first; the new entries
    are set only after both loops over the report have finished, so a
    throw in them leaves the collection empty. *)
Definition updateDiagnostics (result : SarifResult)
    (diagnosticCollection : gmap string (list Diagnostic))
    : completion unit * gmap string (list Diagnostic) :=
  let cleared : gmap string (list Diagnostic) := ∅ in
  match forRuns (default [] (runs result)) [] with
  | Threw e => (Threw e, cleared)
  | Returned diagnosticsByUri => setAll diagnosticsByUri cleared
  end.

End Collection.

(** *** [scanService.ts] and [extension.ts] *)

(** What the extension shows: the diagnostic collection (by resource),
    the lines of the output channel, the status bar text and the error
    pop-ups. *)
Record Editor := {
  diagnosticCollection : gmap string (list Diagnostic);
  outputChannel : list string;
  statusBarText : string;
  errorMessages : list string
}.

Definition appendLine (line : string) (ed : Editor) : Editor :=
  {| diagnosticCollection := diagnosticCollection ed;
     outputChannel := outputChannel ed ++ [line];
     statusBarText := statusBarText ed;
     errorMessages := errorMessages ed |}.

Definition setStatusBar (t : string) (ed : Editor) : Editor :=
  {| diagnosticCollection := diagnosticCollection ed;
     outputChannel := outputChannel ed;
     statusBarText := t;
     errorMessages := errorMessages ed |}.

Definition showErrorMessage (m : string) (ed : Editor) : Editor :=
  {| diagnosticCollection := diagnosticCollection ed;
     outputChannel := outputChannel ed;
     statusBarText := statusBarText ed;
     errorMessages := errorMessages ed ++ [m] |}.

Definition setCollection (c : gmap string (list Diagnostic)) (ed : Editor)
    : Editor :=
  {| diagnosticCollection := c;
     outputChannel := outputChannel ed;
     statusBarText := statusBarText ed;
     errorMessages := errorMessages ed |}.

(** How the spawned process ends: the ['close'] event with its exit
    code ([None] when a signal ended it) and the captured streams; or,
    when it could not be started, the ['error'] event, after which Node
    emits ['close'] as well, with the negative error number as [code] and
    nothing captured. *)
Inductive ProcessEvent :=
| Close (code : option Z) (stdout stderr : string)
| SpawnError (message : string) (code : option Z).

(** [result.runs?.[0]?.results?.length || 0]. *)
Definition firstRunCount (result : SarifResult) : nat :=
  match runs result with
  | Some (run :: _) => length (default [] (results run))
  | _ => O
  end.

Definition prettyCode (code : option Z) : string :=
  match code with Some c => pretty c | None => "null" end.

(** [count !== 1 ? 's' : ''] *)
Definition plural (count : nat) : string :=
  if Nat.eqb count 1 then "" else "s".

Section ScanService.

(** [JSON.parse(stdout) as SarifResult] *)
Variable JSON_parse : string -> completion SarifResult.

Variable Uri_file : string -> completion string.

(** The handler of ['close'] in [runScan]: the value it resolves the
    promise with ([None] is [null]). *)
Definition onClose (code : option Z) (stdout stderr : string) (ed : Editor)
    : option SarifResult * Editor :=
  let ed :=
    if String.eqb stderr "" then ed
    else appendLine ("stderr: " +:+ stderr) ed in
  if bool_decide (code = Some 0) || bool_decide (code = Some 1) then
    match JSON_parse stdout with
    | Returned result =>
        (Some result,
         appendLine ("Scan completed: " +:+ pretty (firstRunCount result)
                     +:+ " findings") ed)
    | Threw e =>
        (None, appendLine ("Failed to parse scan results: " +:+ e) ed)
    end
  else
    (None,
     appendLine ("Scan failed with exit code: " +:+ prettyCode code) ed).

(** [runScan]: the value the promise resolves to.  After ['error'] the
    promise is resolved with [null]; the handler of ['close'] still runs
    and writes its line, but its [resolve] has no effect. *)
Definition runScan (cliPath target : string) (ev : ProcessEvent)
    (ed : Editor) : option SarifResult * Editor :=
  let ed :=
    appendLine ("Running: " +:+ cliPath +:+ " scan run " +:+ target
                +:+ " --output sarif") ed in
  match ev with
  | Close code stdout stderr => onClose code stdout stderr ed
  | SpawnError message code =>
      let ed :=
        showErrorMessage
          "Failed to run blocksecops-cli. Make sure it is installed and in your PATH."
          (appendLine ("Failed to run blocksecops: " +:+ message) ed) in
      (None, (onClose code "" "" ed).2)
  end.

(** [scanCurrentFile] of [extension.ts], for a Solidity document. *)
Definition scanCurrentFile (cliPath fsPath : string) (ev : ProcessEvent)
    (ed : Editor) : Editor :=
  let ed := setStatusBar "$(sync~spin) Scanning..." ed in
  match runScan cliPath fsPath ev ed with
  | (Some result, ed) =>
      match updateDiagnostics Uri_file result (diagnosticCollection ed) with
      | (Returned _, c) =>
          let count := firstRunCount result in
          setStatusBar
            (if Nat.ltb 0 count
             then "$(warning) BlockSecOps: " +:+ pretty count +:+ " issue"
                  +:+ plural count
             else "$(check) BlockSecOps")
            (setCollection c ed)
      | (Threw error, c) =>
          appendLine ("Scan error: " +:+ error)
            (setStatusBar "$(error) BlockSecOps" (setCollection c ed))
      end
  | (None, ed) => setStatusBar "$(error) BlockSecOps" ed
  end.

(** *** More of [extension.ts] *)

(** [scanWorkspace(workspacePath)]: the editor afterwards and the texts
    given to [showInformationMessage]. *)
Definition scanWorkspace (cliPath workspacePath : string) (ev : ProcessEvent)
    (ed : Editor) : Editor * list string :=
  let ed := setStatusBar "$(sync~spin) Scanning workspace..." ed in
  match runScan cliPath workspacePath ev ed with
  | (Some result, ed) =>
      match updateDiagnostics Uri_file result (diagnosticCollection ed) with
      | (Returned _, c) =>
          let count := firstRunCount result in
          (setStatusBar
             (if Nat.ltb 0 count
              then "$(warning) BlockSecOps: " +:+ pretty count +:+ " issue"
                   +:+ plural count
              else "$(check) BlockSecOps")
             (setCollection c ed),
           ["BlockSecOps scan complete: " +:+ pretty count +:+ " issue"
            +:+ plural count +:+ " found"])
      | (Threw error, c) =>
          (appendLine ("Workspace scan error: " +:+ error)
             (setStatusBar "$(error) BlockSecOps" (setCollection c ed)),
           [])
      end
  | (None, ed) => (setStatusBar "$(error) BlockSecOps" ed, [])
  end.

End ScanService.

(** [isSolidityFile(document)] *)
Definition isSolidityFile (languageId fileName : string) : bool :=
  String.eqb languageId "solidity" || Str.endsWith fileName ".sol".

End VSCode.

(** ** Neovim: [lua/blocksecops.lua] *)

Module Neovim.

(** The table returned by [parse_finding]. *)
Record Finding := {
  filename : string;
  lnum : Z;
  col : Z;
  end_lnum : option Z;
  level : string;
  message : string;
  rule_id : string
}.

(** [M.parse_finding(result, filter_file)]; [None] is [nil].  In Lua
    only [nil] and [false] are falsy, so [x or d] keeps a present [0]
    or [""]. *)
Definition parse_finding (result : SarifResultItem)
    (filter_file : option string) : option Finding :=
  match locations result with
  | None | Some [] => None
  | Some (location :: _) =>
      match physicalLocation location with
      | None => None
      | Some phys =>
          let file :=
            match artifactLocation phys ≫= uri with
            | Some u => Str.removeAnchored "file://" u
            | None => ""
            end in
          if match filter_file with
             | Some f => negb (String.eqb file f)
             | None => false
             end
          then None
          else
            let '(lnum, col, end_lnum) :=
              match region phys with
              | Some r =>
                  (default 1 (startLine r), default 1 (startColumn r),
                   endLine r)
              | None => (1, 1, None)
              end in
            let level := default "warning" (Sarif.level result) in
            let message :=
              match Sarif.message result ≫= text with
              | Some t => t
              | None => ""
              end in
            Some {| filename := file; lnum := lnum; col := col;
                    end_lnum := end_lnum; level := level;
                    message := message;
                    rule_id := default "unknown" (ruleId result) |}
      end
  end.

Inductive Severity := ERROR | WARN | INFO | HINT.

(** [M.get_severity(level)]: [severity_map[level] or HINT]. *)
Definition get_severity (level : option string) : Severity :=
  match level with
  | Some l =>
      if String.eqb l "error" then ERROR
      else if String.eqb l "warning" then WARN
      else if String.eqb l "note" then INFO
      else HINT
  | None => HINT
  end.

(** An entry handed to [vim.diagnostic.set]. *)
Record Diagnostic := {
  d_bufnr : nat;
  d_lnum : Z;
  d_col : Z;
  d_end_lnum : option Z;
  d_severity : Severity;
  d_source : string;
  d_message : string;
  d_code : string
}.

Inductive LogLevel := LvlInfo | LvlWarn | LvlError.

(** The editor as the plugin sees and changes it: buffer names, the
    diagnostics of the plugin's namespace per buffer, and the messages
    shown with [vim.notify]. *)
Record Editor := {
  current_buf : nat;
  buf_get_name : nat -> string;
  diagnostics : gmap nat (list Diagnostic);
  notifications : list (string * LogLevel)
}.

Definition notify (msg : string) (lvl : LogLevel) (ed : Editor) : Editor :=
  {| current_buf := current_buf ed; buf_get_name := buf_get_name ed;
     diagnostics := diagnostics ed;
     notifications := notifications ed ++ [(msg, lvl)] |}.

(** [M.clear_diagnostics()]: [vim.diagnostic.reset(ns_id)]. *)
Definition clear_diagnostics (ed : Editor) : Editor :=
  {| current_buf := current_buf ed; buf_get_name := buf_get_name ed;
     diagnostics := ∅; notifications := notifications ed |}.

(** [vim.diagnostic.set(ns_id, bufnr, diagnostics)] *)
Definition diagnostic_set (bufnr : nat) (ds : list Diagnostic)
    (ed : Editor) : Editor :=
  {| current_buf := current_buf ed; buf_get_name := buf_get_name ed;
     diagnostics := <[bufnr := ds]> (diagnostics ed);
     notifications := notifications ed |}.

Definition to_diagnostic (bufnr : nat) (finding : Finding) : Diagnostic :=
  {| d_bufnr := bufnr;
     d_lnum := lnum finding - 1;
     d_col := col finding - 1;
     d_end_lnum := (fun e => e - 1) <$> end_lnum finding;
     d_severity := get_severity (Some (level finding));
     d_source := "blocksecops";
     d_message := message finding;
     d_code := rule_id finding |}.

(** [table.concat(data, "\n")] *)
Fixpoint concat_lines (data : list string) : string :=
  match data with
  | [] => ""
  | [l] => l
  | l :: rest => l +:+ String (Ascii.ascii_of_nat 10) "" +:+ concat_lines rest
  end.

Section Plugin.

(** [pcall(vim.json.decode, s)]; [None] when the call fails. *)
Variable json_decode : string -> option SarifResult.

(** [M.parse_sarif(sarif_json, filter_bufnr)], given the buffer names. *)
Definition parse_sarif (names : nat -> string) (sarif_json : string)
    (filter_bufnr : option nat) : list Finding :=
  match json_decode sarif_json ≫= runs with
  | None => []
  | Some rs =>
      let filter_file := names <$> filter_bufnr in
      flat_map
        (fun run =>
           match results run with
           | Some items =>
               omap (fun result => parse_finding result filter_file) items
           | None => []
           end)
        rs
  end.

(** [M.process_results(sarif_json, bufnr)] *)
Definition process_results (sarif_json : string) (bufnr : nat)
    (ed : Editor) : Editor :=
  let ed := clear_diagnostics ed in
  let findings := parse_sarif (buf_get_name ed) sarif_json (Some bufnr) in
  if Nat.eqb (length findings) 0 then
    notify "BlockSecOps: No issues found" LvlInfo ed
  else
    notify ("BlockSecOps: " +:+ pretty (length findings)
            +:+ " issue(s) found") LvlWarn
      (diagnostic_set bufnr (to_diagnostic bufnr <$> findings) ed).

(** The two callbacks given to [vim.fn.jobstart] in
    [M.scan_current_file]. *)
Definition on_stdout (bufnr : nat) (data : list string) (ed : Editor)
    : Editor :=
  if Nat.ltb 0 (length data)
  then process_results (concat_lines data) bufnr ed
  else ed.

Definition on_exit (exit_code : Z) (ed : Editor) : Editor :=
  if negb (exit_code =? 0) && negb (exit_code =? 1)
  then notify ("BlockSecOps: Scan failed with exit code "
               +:+ pretty exit_code) LvlError ed
  else ed.

(** [M.scan_current_file()], with the job's buffered standard output
    and its exit code: the callbacks run in the order in which the
    job delivers them, output first. *)
Definition scan_current_file (data : list string) (exit_code : Z)
    (ed : Editor) : Editor :=
  let bufnr := current_buf ed in
  let file_path := buf_get_name ed bufnr in
  if String.eqb file_path "" || negb (Str.endsWith file_path ".sol")
  then notify "BlockSecOps: Not a Solidity file" LvlWarn ed
  else
    let ed := notify "BlockSecOps: Scanning..." LvlInfo ed in
    on_exit exit_code (on_stdout bufnr data ed).

End Plugin.

(** *** Workspace scans *)

(** An entry handed to [vim.fn.setqflist]. *)
Record QfItem := {
  qf_filename : string;
  qf_lnum : Z;
  qf_col : Z;
  qf_type : string;
  qf_text : string
}.

(** The editor together with its quickfix list and whether the quickfix
    window has been opened with [:copen]. *)
Record Workspace := {
  editor : Editor;
  qflist : list QfItem;
  qf_open : bool
}.

Definition to_qf_item (finding : Finding) : QfItem :=
  {| qf_filename := filename finding;
     qf_lnum := lnum finding;
     qf_col := col finding;
     qf_type :=
       if String.eqb (level finding) "error" then "E"
       else if String.eqb (level finding) "warning" then "W" else "I";
     qf_text := "[" +:+ rule_id finding +:+ "] " +:+ message finding |}.

Section WorkspacePlugin.

Variable json_decode : string -> option SarifResult.

(** [M.process_workspace_results(sarif_json)] *)
Definition process_workspace_results (sarif_json : string) (w : Workspace)
    : Workspace :=
  let findings :=
    parse_sarif json_decode (buf_get_name (editor w)) sarif_json None in
  if Nat.eqb (length findings) 0 then
    {| editor := notify "BlockSecOps: No issues found" LvlInfo (editor w);
       qflist := qflist w; qf_open := qf_open w |}
  else
    {| editor :=
         notify ("BlockSecOps: " +:+ pretty (length findings)
                 +:+ " issue(s) found. Use :copen to view.") LvlWarn
           (editor w);
       qflist := to_qf_item <$> findings;
       qf_open := true |}.

(** [M.scan_workspace()], with the job's buffered standard output and its
    exit code. *)
Definition scan_workspace (data : list string) (exit_code : Z)
    (w : Workspace) : Workspace :=
  let w :=
    {| editor := notify "BlockSecOps: Scanning workspace..." LvlInfo (editor w);
       qflist := qflist w; qf_open := qf_open w |} in
  let w :=
    if Nat.ltb 0 (length data)
    then process_workspace_results (concat_lines data) w
    else w in
  if negb (exit_code =? 0) && negb (exit_code =? 1)
  then {| editor :=
            notify ("BlockSecOps: Workspace scan failed with exit code "
                    +:+ pretty exit_code) LvlError (editor w);
          qflist := qflist w; qf_open := qf_open w |}
  else w.

End WorkspacePlugin.

End Neovim.

(** ** IntelliJ: [BlockSecOpsScanFileAction], [BlockSecOpsExternalAnnotator] *)

Module IntelliJ.

(** A Java call either completes normally or throws; every exception
    raised in [parseFinding] ends in the same [catch (Exception e)]. *)
Inductive outcome (A : Type) :=
| Normal (a : A)
| Exception.
Arguments Normal {A} a.
Arguments Exception {A}.

(** A Java [int]: the value of [z] after 32-bit two's complement
    wrap-around. *)
Definition int (z : Z) : Z := (z + 2 ^ 31) mod 2 ^ 32 - 2 ^ 31.

(** [static class Finding]; the three numbers are [int] fields. *)
Record Finding := {
  ruleId : string;
  level : string;
  message : string;
  startLine : Z;
  endLine : Z;
  startColumn : Z
}.

(** [parseFinding(result, expectedFilePath)]; [Normal None] is
    [return null].  [artifactLocation.get("uri")] is [null] when the
    member is absent, and [.getAsString()] on it throws.  [getAsInt()]
    gives the low 32 bits of an integer that is no [int]. *)
Definition parseFinding (result : SarifResultItem)
    (expectedFilePath : string) : outcome (option Finding) :=
  let ruleId := default "unknown" (Sarif.ruleId result) in
  let level := default "warning" (Sarif.level result) in
  let message := default "" (Sarif.message result ≫= text) in
  match locations result with
  | None | Some [] => Normal None
  | Some (location :: _) =>
      match physicalLocation location with
      | None => Normal None
      | Some physicalLocation =>
          (* Check if this finding is for the current file *)
          let otherFile : outcome bool :=
            match artifactLocation physicalLocation with
            | Some a =>
                match Sarif.uri a with
                | None => Exception
                | Some uri =>
                    let uri := Str.removeAll "file://" uri in
                    Normal (negb (String.eqb uri expectedFilePath)
                            && negb (Str.endsWith expectedFilePath uri))
                end
            | None => Normal false
            end in
          match otherFile with
          | Exception => Exception
          | Normal true => Normal None
          | Normal false =>
              let '(startLine, endLine, startColumn) :=
                match region physicalLocation with
                | Some region =>
                    let startLine :=
                      default 1 (int <$> Sarif.startLine region) in
                    (startLine,
                     default startLine (int <$> Sarif.endLine region),
                     default 0 (int <$> Sarif.startColumn region))
                | None => (1, 1, 0)
                end in
              Normal (Some {| ruleId := ruleId; level := level;
                              message := message; startLine := startLine;
                              endLine := endLine;
                              startColumn := startColumn |})
          end
      end
  end.

(** The [for (JsonElement resultElement : results)] loop of
    [parseFindings] inside its [try]: an exception leaves the loop and
    the findings added so far are returned. *)
Fixpoint forResults (results : list SarifResultItem) (filePath : string)
    (findings : list Finding) : list Finding :=
  match results with
  | [] => findings
  | result :: results' =>
      match parseFinding result filePath with
      | Exception => findings
      | Normal None => forResults results' filePath findings
      | Normal (Some finding) =>
          forResults results' filePath (findings ++ [finding])
      end
  end.

Section Annotator.

(** [GSON.fromJson(sarifJson, JsonObject.class)]; [None] when it
    throws or yields [null], both of which end in the [catch]. *)
Variable fromJson : string -> option SarifResult.

Definition parseFindings (sarifJson filePath : string) : list Finding :=
  match fromJson sarifJson with
  | None => []
  | Some sarif =>
      match runs sarif with
      | None | Some [] => []
      | Some (run :: _) =>
          match results run with
          | None => []
          | Some results => forResults results filePath []
          end
      end
  end.

(** [doAnnotate(file)] once the process has ended; [None] is [null]. *)
Definition doAnnotate (filePath : string) (exitCode : Z) (stdout : string)
    : option (list Finding) :=
  if (exitCode =? 0) || (exitCode =? 1)
  then Some (parseFindings stdout filePath)
  else None.

End Annotator.

(** *** The scan action *)

(** The Java literal for the seven characters of [ruleId] between
    two double quotes. *)
Definition ruleIdKey : string := Str.quote +:+ "ruleId" +:+ Str.quote.

(** The [while ((index = sarifOutput.indexOf(.., index)) != -1)
    { count++; index++; }] loop of [countFindings]. *)
Equations? countLoop (sarifOutput : string) (index count : nat) : nat
  by wf (S (String.length sarifOutput) - index)%nat lt :=
  countLoop sarifOutput index count
    with inspect (Str.indexOf ruleIdKey sarifOutput index) := {
    | exist _ (Some found) H => countLoop sarifOutput (S found) (S count)
    | exist _ None _ => count }.
Proof.
  apply Str.indexOf_bounds in H. lia.
Qed.

Definition countFindings (sarifOutput : string) : nat :=
  countLoop sarifOutput 0 0.

Inductive NotificationType := INFORMATION | WARNING | ERROR.

(** The project as the action changes it: balloons shown, and the texts
    handed to [BlockSecOpsResultsService.updateResults] ([None] when the
    project has no such service). *)
Record Project := {
  notifications : list (string * NotificationType);
  resultsService : option (list string)
}.

Definition showNotification (message : string) (type : NotificationType)
    (project : Project) : Project :=
  {| notifications := notifications project ++ [(message, type)];
     resultsService := resultsService project |}.

Definition updateResults (output : string) (project : Project) : Project :=
  {| notifications := notifications project;
     resultsService := (fun seen => seen ++ [output]) <$> resultsService project |}.

Definition handleScanResult (project : Project) (output : string)
    (exitCode : Z) : Project :=
  if exitCode =? 0 then
    showNotification "Scan complete: No issues found" INFORMATION project
  else if exitCode =? 1 then
    let count := countFindings output in
    updateResults output
      (showNotification
         ("Scan complete: " +:+ pretty count +:+ " issue"
          +:+ (if Nat.eqb count 1 then "" else "s") +:+ " found")
         WARNING project)
  else
    showNotification ("Scan failed with exit code: " +:+ pretty exitCode)
      ERROR project.

(** *** Annotations: [apply] *)

(** What [apply] asks of [com.intellij.openapi.editor.Document]. *)
Record Document := {
  getLineCount : Z;
  getLineStartOffset : Z -> Z;
  getLineEndOffset : Z -> Z;
  getTextLength : Z
}.

Module HighlightSeverity.
Inductive t := ERROR | WARNING | WEAK_WARNING | INFORMATION.
End HighlightSeverity.

(** What is handed to [holder.newAnnotation(..)]: the severity, the
    message, the two offsets of [new TextRange(..)] and the tooltip. *)
Record Annotation := {
  a_severity : HighlightSeverity.t;
  a_message : string;
  a_startOffset : Z;
  a_endOffset : Z;
  a_tooltip : string
}.

Section Apply.

(** [String.toLowerCase()] and [String.toUpperCase()], which follow the
    default locale of the JVM. *)
Variable toLowerCase toUpperCase : string -> string.

Definition mapSeverity (level : string) : HighlightSeverity.t :=
  let l := toLowerCase level in
  if String.eqb l "error" then HighlightSeverity.ERROR
  else if String.eqb l "warning" then HighlightSeverity.WARNING
  else if String.eqb l "note" then HighlightSeverity.WEAK_WARNING
  else HighlightSeverity.INFORMATION.

Definition formatTooltip (finding : Finding) : string :=
  "<b>" +:+ toUpperCase (level finding) +:+ "</b><br>" +:+ message finding
  +:+ "<br><i>Rule: " +:+ ruleId finding +:+ "</i>".

(** The body of the [for (Finding finding : findings)] loop of [apply];
    [None] is [continue]. *)
Definition annotate (document : Document) (finding : Finding)
    : option Annotation :=
  let startLine := Z.max 0 (int (startLine finding - 1)) in
  let endLine := Z.max startLine (int (endLine finding - 1)) in
  if getLineCount document <=? startLine then None
  else
    let startOffset := getLineStartOffset document startLine in
    let endOffset :=
      if endLine <? getLineCount document
      then getLineEndOffset document endLine
      else getTextLength document in
    let startOffset :=
      if 0 <? startColumn finding
      then Z.min (int (int (startOffset + startColumn finding) - 1)) endOffset
      else startOffset in
    Some {| a_severity := mapSeverity (level finding);
            a_message := message finding;
            a_startOffset := startOffset;
            a_endOffset := endOffset;
            a_tooltip := formatTooltip finding |}.

(** [apply(file, findings, holder)]: the annotations created, in order.
    [findings] and the document may be [null]. *)
Definition apply (document : option Document)
    (findings : option (list Finding)) : list Annotation :=
  match findings with
  | None | Some [] => []
  | Some findings =>
      match document with
      | None => []
      | Some document => omap (annotate document) findings
      end
  end.

End Apply.

End IntelliJ.

(** ** Vim: the Vimscript plugin *)

(** Strings are compared as Vim does with its default ['noignorecase']. *)
Module Vim.

(** The dictionary returned by [blocksecops#ParseFinding]. *)
Record Finding := {
  filename : string;
  lnum : Z;
  col : Z;
  type : string;
  text : string;
  level : string
}.

(** [stridx(haystack, needle)]: the index of the first occurrence, [-1]
    when there is none. *)
Definition stridx (haystack needle : string) : Z :=
  match String.index 0 needle haystack with
  | Some i => Z.of_nat i
  | None => -1
  end.

(** [!n] on a number: 1 for zero, 0 for everything else. *)
Definition not_ (n : Z) : bool := n =? 0.

(** [blocksecops#ParseFinding(result, filter_file)]; [None] is the empty
    dictionary. *)
Definition ParseFinding (result : SarifResultItem) (filter_file : string)
    : option Finding :=
  match locations result with
  | None | Some [] => None
  | Some (location :: _) =>
      match physicalLocation location with
      | None => None
      | Some phys =>
          let file :=
            match artifactLocation phys ≫= uri with
            | Some u => Str.removeAnchored "file://" u
            | None => ""
            end in
          (* Filter by file if specified *)
          if negb (String.eqb filter_file "")
             && negb (String.eqb file filter_file)
             && not_ (stridx filter_file file)
          then None
          else
            let '(lnum, col) :=
              match region phys with
              | Some r => (default 1 (startLine r), default 1 (startColumn r))
              | None => (1, 1)
              end in
            let level := default "warning" (Sarif.level result) in
            let type :=
              if String.eqb level "error" then "E"
              else if String.eqb level "warning" then "W" else "I" in
            let message := default "" (Sarif.message result ≫= Sarif.text) in
            let rule_id := default "unknown" (ruleId result) in
            Some {| filename := file; lnum := lnum; col := col; type := type;
                    text := "[" +:+ rule_id +:+ "] " +:+ message;
                    level :=
                      if String.eqb level "error" then "Error"
                      else if String.eqb level "warning" then "Warning"
                           else "Info" |}
      end
  end.

(** What [json_decode(s)] does inside the [try] of [ParseSarif]: it
    throws; or it returns a dictionary; or it returns a value that is no
    dictionary, as it does for an empty text, which it decodes to
    [v:none] without an error. *)
Inductive Decoded :=
| DecodeError
| NoDictionary
| Dictionary (sarif : SarifResult).

(** How a call of a function defined with [abort] ends: it returns, or
    an error stops it where it occurs. *)
Inductive ended (A : Type) :=
| Returns (a : A)
| Aborts (error : string).
Arguments Returns {A} a.
Arguments Aborts {A} error.

Section Script.

Variable json_decode : string -> Decoded.

(** [blocksecops#ParseSarif(sarif_json, filter_file)].  Only the call of
    [json_decode] stands inside [try]; [has_key] on a value that is no
    dictionary is error E715. *)
Definition ParseSarif (sarif_json filter_file : string)
    : ended (list Finding) :=
  match json_decode sarif_json with
  | DecodeError => Returns []
  | NoDictionary => Aborts "E715: Dictionary required"
  | Dictionary sarif =>
      match runs sarif with
      | None => Returns []
      | Some rs =>
          Returns
            (flat_map
               (fun run =>
                  match results run with
                  | Some items =>
                      omap (fun result => ParseFinding result filter_file)
                        items
                  | None => []
                  end)
               rs)
      end
  end.

End Script.

(** *** Showing the findings *)

(** The [:sign] commands the plugin executes. *)
Inductive ExCommand :=
| SignUnplaceAll (group : string)
| SignPlace (id : nat) (line : Z) (name : string) (buffer : nat).

(** The names given to [sign define] when the plugin is loaded. *)
Definition defined_signs : list string :=
  ["BlockSecOpsError"; "BlockSecOpsWarning"; "BlockSecOpsInfo"].

Inductive Highlight := HlNone | WarningMsg | ErrorMsg.

(** Vim as the plugin changes it: the [:sign] commands executed, the
    signs placed in the global sign group (identifier and buffer), the
    quickfix list, the messages echoed, whether [:copen] was run, and the
    errors raised. *)
Record State := {
  executed : list ExCommand;
  signs : list (nat * nat);
  qflist : list Finding;
  echoed : list (string * Highlight);
  copened : bool;
  errors : list string
}.

Definition echo (msg : string) (hl : Highlight) (st : State) : State :=
  {| executed := executed st; signs := signs st; qflist := qflist st;
     echoed := echoed st ++ [(msg, hl)]; copened := copened st;
     errors := errors st |}.

Definition setqflist (findings : list Finding) (st : State) : State :=
  {| executed := executed st; signs := signs st; qflist := findings;
     echoed := echoed st; copened := copened st; errors := errors st |}.

Definition copen (st : State) : State :=
  {| executed := executed st; signs := signs st; qflist := qflist st;
     echoed := echoed st; copened := true; errors := errors st |}.

(** An error that stops the function: Vim shows it. *)
Definition raise (error : string) (st : State) : State :=
  {| executed := executed st; signs := signs st; qflist := qflist st;
     echoed := echoed st; copened := copened st;
     errors := errors st ++ [error] |}.

Section Signs.

(** C's [atoi] on the decimal text of a number, with which Vim reads the
    [line=] argument; it is the number itself when that is an [int]. *)
Variable atoi : Z -> Z.

(** [:execute] of one [:sign] command; [true] when the command fails.

    [sign unplace * group=BlockSecOps] removes the signs of the group
    [BlockSecOps]; the signs of the global group stay.

    [sign place {id} line={lnum} name={name} buffer={nr}] names no group,
    so it is about the global group.  With a line above 0 it places the
    sign.  Otherwise Vim takes it as a change of the sign [id] of the
    buffer, and fails with error E885 when the buffer has no such sign. *)
Definition execute (cmd : ExCommand) (st : State) : State * bool :=
  let st :=
    {| executed := executed st ++ [cmd]; signs := signs st;
       qflist := qflist st; echoed := echoed st; copened := copened st;
       errors := errors st |} in
  match cmd with
  | SignUnplaceAll _ => (st, false)
  | SignPlace id line name buffer =>
      if 0 <? atoi line then
        ({| executed := executed st;
            signs := if bool_decide ((id, buffer) ∈ signs st)
                     then signs st else signs st ++ [(id, buffer)];
            qflist := qflist st; echoed := echoed st;
            copened := copened st; errors := errors st |},
         false)
      else if bool_decide ((id, buffer) ∈ signs st) then (st, false)
      else (raise ("E885: Not possible to change sign " +:+ name) st, true)
  end.

(** [blocksecops#ClearSigns()] *)
Definition ClearSigns (st : State) : State :=
  (execute (SignUnplaceAll "BlockSecOps") st).1.

(** The [for l:finding in l:findings] loop of [ProcessResults], with the
    running [l:sign_id]; [true] when a command failed and stopped the
    function. *)
Fixpoint placeSigns (findings : list Finding) (sign_id buffer : nat)
    (st : State) : State * bool :=
  match findings with
  | [] => (st, false)
  | finding :: rest =>
      match execute
              (SignPlace sign_id (lnum finding)
                 ("BlockSecOps" +:+ level finding) buffer)
              st with
      | (st, true) => (st, true)
      | (st, false) => placeSigns rest (S sign_id) buffer st
      end
  end.

Variable json_decode : string -> Decoded.

(** [blocksecops#ProcessResults(sarif_json, current_file)]; [buffer] is
    [bufnr('%')]. *)
Definition ProcessResults (sarif_json current_file : string) (buffer : nat)
    (st : State) : State :=
  let st := ClearSigns st in
  match ParseSarif json_decode sarif_json current_file with
  | Aborts error => raise error st
  | Returns [] => echo "BlockSecOps: No issues found" HlNone st
  | Returns findings =>
      match placeSigns findings 1 buffer st with
      | (st, true) => st
      | (st, false) =>
          echo ("BlockSecOps: " +:+ pretty (length findings)
                +:+ " issue(s) found. Use :copen to view.") HlNone
            (setqflist findings st)
      end
  end.

(** [blocksecops#ScanCurrentFile()]: [file] is [expand('%:p')],
    [extension] is [fnamemodify(file, ':e')], [output] and [exit_code] are
    what [system(..)] returned and [v:shell_error].  Strings are compared
    as with ['ignorecase'] off, which is Vim's default. *)
Definition ScanCurrentFile (file extension : string) (buffer : nat)
    (output : string) (exit_code : Z) (st : State) : State :=
  if String.eqb file "" || negb (String.eqb extension "sol")
  then echo "BlockSecOps: Not a Solidity file" WarningMsg st
  else
    let st := echo "BlockSecOps: Scanning..." HlNone st in
    if (exit_code =? 0) || (exit_code =? 1)
    then ProcessResults output file buffer st
    else echo ("BlockSecOps: Scan failed with exit code "
               +:+ pretty exit_code) ErrorMsg st.

End Signs.

Section Display.

Variable json_decode : string -> Decoded.

(** [blocksecops#ProcessWorkspaceResults(sarif_json)] *)
Definition ProcessWorkspaceResults (sarif_json : string) (st : State)
    : State :=
  match ParseSarif json_decode sarif_json "" with
  | Aborts error => raise error st
  | Returns [] => echo "BlockSecOps: No issues found" HlNone st
  | Returns findings =>
      copen
        (echo ("BlockSecOps: " +:+ pretty (length findings)
               +:+ " issue(s) found. Use :copen to view.") HlNone
           (setqflist findings st))
  end.

(** [blocksecops#ScanWorkspace()] *)
Definition ScanWorkspace (output : string) (exit_code : Z) (st : State)
    : State :=
  let st := echo "BlockSecOps: Scanning workspace..." HlNone st in
  if (exit_code =? 0) || (exit_code =? 1)
  then ProcessWorkspaceResults output st
  else echo ("BlockSecOps: Workspace scan failed with exit code "
             +:+ pretty exit_code) ErrorMsg st.

End Display.

End Vim.

(** ** The pre-commit hook *)

Module Hook.

(** One staged contract file: whether it still exists in the work tree
    ([-f "$FILE"]) and the exit code of its scan. *)
Record Staged := { is_file : bool; scan_exit : Z }.

(** What the hook prints about a file, and how it ends. *)
Inductive Line :=
| Clean
| Vulnerable
| ScanError (exit_code : Z).

(** The [for FILE in $STAGED_FILES] loop: the lines printed and the final
    [SCAN_FAILED]. *)
Fixpoint scanAll (files : list Staged) (scan_failed : bool)
    : list Line * bool :=
  match files with
  | [] => ([], scan_failed)
  | file :: rest =>
      if is_file file then
        if scan_exit file =? 0 then
          let '(lines, failed) := scanAll rest scan_failed in
          (Clean :: lines, failed)
        else if scan_exit file =? 1 then
          let '(lines, failed) := scanAll rest true in
          (Vulnerable :: lines, failed)
        else
          let '(lines, failed) := scanAll rest scan_failed in
          (ScanError (scan_exit file) :: lines, failed)
      else scanAll rest scan_failed
  end.

(** The exit status of the hook. [installed] is [command -v blocksecops],
    [authenticated] is [blocksecops auth status], [files] are the staged
    files that match the contract extensions. *)
Definition preCommit (installed authenticated : bool) (files : list Staged)
    : Z :=
  if negb installed then 1
  else if negb authenticated then 0
  else match files with
       | [] => 0
       | _ => if (scanAll files false).2 then 1 else 0
       end.

End Hook.

(** ** The JSON text of a report *)

(** The scanner prints its report as JSON text; the scan action of the
    IntelliJ plugin counts on that text, while the parsers work on what a
    JSON library decodes from it.  [Json.render] writes a report as
    compact JSON, so that both can be stated of one report. *)
Module Json.

Definition escapeChar (c : Ascii.ascii) : string :=
  if Ascii.eqb c (Ascii.ascii_of_nat 34) then String (Ascii.ascii_of_nat 92) Str.quote
  else if Ascii.eqb c (Ascii.ascii_of_nat 92)
       then String (Ascii.ascii_of_nat 92) (String (Ascii.ascii_of_nat 92) "")
       else String c "".

Fixpoint escape (s : string) : string :=
  match s with
  | EmptyString => ""
  | String c s' => escapeChar c +:+ escape s'
  end.

Definition str (s : string) : string := Str.quote +:+ escape s +:+ Str.quote.

Definition num (n : Z) : string := pretty n.

Definition object (members : list string) : string :=
  "{" +:+ String.concat "," members +:+ "}".

Definition array (items : list string) : string :=
  "[" +:+ String.concat "," items +:+ "]".

(** A member of an object, left out when the field is absent. *)
Definition member {A} (key : string) (value : A -> string) (field : option A)
    : list string :=
  match field with
  | Some a => [str key +:+ ":" +:+ value a]
  | None => []
  end.

Definition renderText (t : Text) : string :=
  object (member "text" str (text t)).

Definition renderRegion (r : Region) : string :=
  object (member "startLine" num (startLine r)
          ++ member "startColumn" num (startColumn r)
          ++ member "endLine" num (endLine r)
          ++ member "endColumn" num (endColumn r)).

Definition renderLocation (l : SarifLocation) : string :=
  object
    (member "physicalLocation"
       (fun p =>
          object
            (member "artifactLocation"
               (fun a => object (member "uri" str (uri a)))
               (artifactLocation p)
             ++ member "region" renderRegion (region p)))
       (physicalLocation l)).

Definition renderResult (r : SarifResultItem) : string :=
  object (member "ruleId" str (ruleId r)
          ++ member "level" str (level r)
          ++ member "message" renderText (message r)
          ++ member "locations" (fun ls => array (renderLocation <$> ls))
               (locations r)).

Definition renderRule (r : SarifRule) : string :=
  object (member "id" str (rule_id r)
          ++ member "shortDescription" renderText (shortDescription r)
          ++ member "fullDescription" renderText (fullDescription r)).

Definition renderRun (r : SarifRun) : string :=
  object
    (member "tool"
       (fun t =>
          object
            (member "driver"
               (fun d =>
                  object
                    (member "rules" (fun rs => array (renderRule <$> rs))
                       (rules d)))
               (driver t)))
       (tool r)
     ++ member "results" (fun rs => array (renderResult <$> rs)) (results r)).

Definition render (sarif : SarifResult) : string :=
  object (member "runs" (fun rs => array (renderRun <$> rs)) (runs sarif)).

(** A decoder that knows the text of one report and rejects all else. *)
Definition decodeOnly (sarif : SarifResult) (s : string) : option SarifResult :=
  if String.eqb s (render sarif) then Some sarif else None.

(** The same as Vim's [json_decode] behaves: the empty text gives
    [v:none]. *)
Definition vimDecodeOnly (sarif : SarifResult) (s : string) : Vim.Decoded :=
  if String.eqb s (render sarif) then Vim.Dictionary sarif
  else if String.eqb s "" then Vim.NoDictionary
  else Vim.DecodeError.

End Json.

(** ** Vocabulary of the statements *)


(** What JavaScript's [s || d] takes for missing: no string, or [''].  *)
Definition blank (s : option string) : Prop := s = None \/ s = Some "".

(** The location a first-location-only parser reads. *)
Definition firstLocation (result : SarifResultItem) : option SarifLocation :=
  locations result ≫= head.

(** [physicalLocation.artifactLocation.uri] of a location, when all three
    are present. *)
Definition locationUri (location : SarifLocation) : option string :=
  (physicalLocation location ≫= artifactLocation) ≫= uri.

(** [physicalLocation.region] of a location. *)
Definition locationRegion (location : SarifLocation) : option Region :=
  physicalLocation location ≫= region.

(** The diagnostic that VS Code makes for a location of a finding: its
    range is the range of the region, its code the rule id, its severity
    that of the level. *)
Definition diagnosticAt (item : SarifResultItem) (location : SarifLocation)
    (d : VSCode.Diagnostic) : Prop :=
  VSCode.regionRange (locationRegion location)
  = VSCode.Returned (VSCode.range d)
  /\ VSCode.code d = ruleId item
  /\ VSCode.severity d = VSCode.mapSeverity (level item).

(** The locations of a finding that VS Code does not skip, those with a
    non-empty artifact URI, and the paths it makes of them. *)
Definition shownUris (item : SarifResultItem) : list string :=
  omap (fun l => VSCode.str_or (locationUri l) None)
    (default [] (locations item)).

Definition shownPaths (item : SarifResultItem) : list string :=
  Str.removeFirst "file://" <$> shownUris item.

(** All of them over a report, in its order. *)
Definition reportPaths (sarif : SarifResult) : list string :=
  flat_map (fun run => flat_map shownPaths (default [] (results run)))
    (default [] (runs sarif)).

(** A finding cut down to its first location, and a report cut down to
    its first run. *)
Definition firstLocationOnly (result : SarifResultItem) : SarifResultItem :=
  {| ruleId := ruleId result; level := level result;
     message := message result;
     locations := take 1 <$> locations result |}.

Definition firstRunOnly (sarif : SarifResult) : SarifResult :=
  {| runs := take 1 <$> runs sarif |}.

(** A finding is located when its [locations] array is present and not
    empty. *)
Definition located (result : SarifResultItem) : bool :=
  match locations result with
  | Some (_ :: _) => true
  | _ => false
  end.

(** The report without its unlocated findings. *)
Definition dropUnlocated (sarif : SarifResult) : SarifResult :=
  {| runs :=
       fmap (M := list)
         (fun run =>
            {| tool := tool run;
               results := filter (fun r => located r) <$> results run |})
       <$> runs sarif |}.

(** The number of located findings of a report, over all runs. *)
Definition locatedCount (sarif : SarifResult) : nat :=
  sum_list
    ((fun run => length (filter (fun r => located r) (default [] (results run))))
     <$> default [] (runs sarif)).

(** ** Sample reports *)

Module Samples.

Definition lineOnly (line : Z) : Region :=
  {| startLine := Some line; startColumn := None;
     endLine := None; endColumn := None |}.

Definition at_ (path : string) (r : option Region) : SarifLocation :=
  {| physicalLocation :=
       Some {| artifactLocation := Some {| uri := Some path |};
               region := r |} |}.

Definition finding (rule lvl msg : string) (ls : option (list SarifLocation))
    : SarifResultItem :=
  {| ruleId := Some rule; level := Some lvl;
     message := Some {| text := Some msg |}; locations := ls |}.

Definition report (rs : list SarifRule) (items : list SarifResultItem)
    : SarifResult :=
  {| runs :=
       Some [ {| tool := Some {| driver := Some {| rules := Some rs |} |};
                 results := Some items |} ] |}.

(** Scenario A of the specification. *)
Definition reentrancyRule : SarifRule :=
  {| rule_id := Some "REENTRANCY-001";
     shortDescription := Some {| text := Some "Reentrancy risk" |};
     fullDescription := None |}.

Definition reentrancy : SarifResultItem :=
  finding "REENTRANCY-001" "error" ""
    (Some [at_ "file:///c.sol" (Some (lineOnly 10))]).

Definition scenarioA : SarifResult := report [reentrancyRule] [reentrancy].

(** What IntelliJ's [parseFinding] makes of it for the file [/c.sol]. *)
Definition reentrancyAnnotation : IntelliJ.Finding :=
  {| IntelliJ.ruleId := "REENTRANCY-001"; IntelliJ.level := "error";
     IntelliJ.message := ""; IntelliJ.startLine := 10;
     IntelliJ.endLine := 10; IntelliJ.startColumn := 0 |}.

Definition contractLocation : SarifLocation :=
  at_ "file:///a/b/contract.sol" (Some (lineOnly 3)).

Definition contractFinding : SarifResultItem :=
  finding "TX-ORIGIN" "warning" "tx.origin used" (Some [contractLocation]).

(** What Neovim's [parse_finding] makes of it. *)
Definition reentrancyEntry : Neovim.Finding :=
  {| Neovim.filename := "/c.sol"; Neovim.lnum := 10; Neovim.col := 1;
     Neovim.end_lnum := None; Neovim.level := "error";
     Neovim.message := ""; Neovim.rule_id := "REENTRANCY-001" |}.

(** Scenario C of the specification: one report, two files. *)
Definition inFileA : SarifResultItem :=
  finding "REENTRANCY-001" "error" "state change after call"
    (Some [at_ "file:///w/a.sol" (Some (lineOnly 7))]).

Definition inFileB : SarifResultItem :=
  finding "TX-ORIGIN" "warning" "tx.origin used"
    (Some [at_ "file:///w/b.sol" (Some (lineOnly 2))]).

Definition scenarioC : SarifResult := report [] [inFileA; inFileB].

Definition entryA : Neovim.Finding :=
  {| Neovim.filename := "/w/a.sol"; Neovim.lnum := 7; Neovim.col := 1;
     Neovim.end_lnum := None; Neovim.level := "error";
     Neovim.message := "state change after call";
     Neovim.rule_id := "REENTRANCY-001" |}.

Definition annotationA : IntelliJ.Finding :=
  {| IntelliJ.ruleId := "REENTRANCY-001"; IntelliJ.level := "error";
     IntelliJ.message := "state change after call"; IntelliJ.startLine := 7;
     IntelliJ.endLine := 7; IntelliJ.startColumn := 0 |}.

(** What Vim's [ParseFinding] makes of the two findings. *)
Definition quickfixA : Vim.Finding :=
  {| Vim.filename := "/w/a.sol"; Vim.lnum := 7; Vim.col := 1;
     Vim.type := "E";
     Vim.text := "[REENTRANCY-001] state change after call";
     Vim.level := "Error" |}.

Definition quickfixB : Vim.Finding :=
  {| Vim.filename := "/w/b.sol"; Vim.lnum := 2; Vim.col := 1;
     Vim.type := "W"; Vim.text := "[TX-ORIGIN] tx.origin used";
     Vim.level := "Warning" |}.

(** A finding that states no level. *)
Definition noLevel : SarifResultItem :=
  {| ruleId := Some "PRAGMA"; level := None;
     message := Some {| text := Some "floating pragma" |};
     locations := Some [at_ "file:///c.sol" (Some (lineOnly 1))] |}.

Definition noLevelEntry : Neovim.Finding :=
  {| Neovim.filename := "/c.sol"; Neovim.lnum := 1; Neovim.col := 1;
     Neovim.end_lnum := None; Neovim.level := "warning";
     Neovim.message := "floating pragma"; Neovim.rule_id := "PRAGMA" |}.


(** A finding that names no place, and one with an empty array. *)
Definition nowhere : SarifResultItem :=
  finding "PRAGMA" "note" "floating pragma" None.

Definition emptyLocations : SarifResultItem :=
  finding "PRAGMA" "note" "floating pragma" (Some []).

(** One finding with two locations, and a report of two runs. *)
Definition twoPlaces : SarifResultItem :=
  finding "REENTRANCY-001" "error" "state change after call"
    (Some [at_ "file:///c.sol" (Some (lineOnly 10));
           at_ "file:///c.sol" (Some (lineOnly 20))]).

Definition twoPlacesReport : SarifResult := report [] [twoPlaces].

Definition twoPlacesEntry : Neovim.Finding :=
  {| Neovim.filename := "/c.sol"; Neovim.lnum := 10; Neovim.col := 1;
     Neovim.end_lnum := None; Neovim.level := "error";
     Neovim.message := "state change after call";
     Neovim.rule_id := "REENTRANCY-001" |}.

Definition twoRuns : SarifResult :=
  {| runs :=
       Some [ {| tool := None; results := Some [reentrancy] |};
              {| tool := None; results := Some [twoPlaces] |} ] |}.

(** Buffer 1 is [/w/a.sol], buffer 2 is [/w/b.sol]. *)
Definition workspaceNames (bufnr : nat) : string :=
  if Nat.eqb bufnr 1 then "/w/a.sol"
  else if Nat.eqb bufnr 2 then "/w/b.sol" else "".

(** A report with no run. *)
Definition emptyRuns : SarifResult := {| runs := Some [] |}.

(** A report whose only finding names no place. *)
Definition unlocatedReport : SarifResult := report [] [nowhere].

(** Buffer 1 is [/c.sol]; every other buffer has no name. *)
Definition names (bufnr : nat) : string :=
  if Nat.eqb bufnr 1 then "/c.sol" else "".

(** Neovim with [/c.sol] in buffer 1, showing the diagnostic of an
    earlier, successful scan. *)
Definition staleDiagnostic : Neovim.Diagnostic :=
  Neovim.to_diagnostic 1 reentrancyEntry.

Definition afterGoodScan : Neovim.Editor :=
  {| Neovim.current_buf := 1; Neovim.buf_get_name := names;
     Neovim.diagnostics := {[ 1%nat := [staleDiagnostic] ]};
     Neovim.notifications := [] |}.

(** A [vscode.Uri.file] that refuses no path: the resource of a path is
    its [file:] URI, and a path that does not start with a slash is given
    one. *)
Definition fileUri (path : string) : VSCode.completion string :=
  VSCode.Returned
    ("file://" +:+ (if String.prefix "/" path then path else "/" +:+ path)).

(** [JSON.parse] on the usage line of the scanner. *)
Definition notJson (s : string) : VSCode.completion SarifResult :=
  VSCode.Threw "SyntaxError: Unexpected token U in JSON at position 0".

(** VS Code showing the diagnostic of an earlier, successful scan. *)
Definition staleCollection : gmap string (list VSCode.Diagnostic) :=
  (VSCode.updateDiagnostics fileUri scenarioA ∅).2.

Definition vscodeAfterGoodScan : VSCode.Editor :=
  {| VSCode.diagnosticCollection := staleCollection;
     VSCode.outputChannel := [];
     VSCode.statusBarText := "$(warning) BlockSecOps: 1 issue";
     VSCode.errorMessages := [] |}.

End Samples.

(** ** Vocabulary of the further statements *)

(** The path and diagnostic pairs that [createDiagnosticsForResult] makes
    of the findings of a run, one finding after the other; it throws where
    the first of them throws. *)
Fixpoint entriesOfItems (rules : gmap (option string) SarifRule)
    (items : list SarifResultItem)
    : VSCode.completion (list (string * VSCode.Diagnostic)) :=
  match items with
  | [] => VSCode.Returned []
  | item :: rest =>
      match VSCode.createDiagnosticsForResult item rules with
      | VSCode.Threw e => VSCode.Threw e
      | VSCode.Returned ds =>
          match entriesOfItems rules rest with
          | VSCode.Threw e => VSCode.Threw e
          | VSCode.Returned es => VSCode.Returned (ds ++ es)
          end
      end
  end.

(** The same over the runs of a report, each with its own rule table. *)
Fixpoint entriesOfRuns (rs : list SarifRun)
    : VSCode.completion (list (string * VSCode.Diagnostic)) :=
  match rs with
  | [] => VSCode.Returned []
  | run :: rest =>
      match entriesOfItems
              (VSCode.rulesMap (default [] ((tool run ≫= driver) ≫= rules)))
              (default [] (results run)) with
      | VSCode.Threw e => VSCode.Threw e
      | VSCode.Returned ds =>
          match entriesOfRuns rest with
          | VSCode.Threw e => VSCode.Threw e
          | VSCode.Returned es => VSCode.Returned (ds ++ es)
          end
      end
  end.

(** The number of locations that VS Code does not skip, over a whole
    report. *)
Definition shownLocations (sarif : SarifResult) : nat :=
  sum_list
    ((fun run =>
        sum_list ((fun item => length (shownUris item))
                  <$> default [] (results run)))
     <$> default [] (runs sarif)).

(** The keys of a JavaScript [Map] after the keys of [l] have been set in
    order: each key once, at the place of its first occurrence. *)
Definition firsts (l : list string) : list string :=
  foldl (fun seen k => if decide (k ∈ seen) then seen else seen ++ [k]) [] l.

(** The diagnostics of the entries [es] that stand under the path [p], and
    the entries grouped by path, the paths in the order in which they
    first occur. *)
Definition diagnosticsOf (p : string) (es : list (string * VSCode.Diagnostic))
    : list VSCode.Diagnostic :=
  (filter (fun e => e.1 = p) es).*2.

Definition byPath (es : list (string * VSCode.Diagnostic))
    : list (string * list VSCode.Diagnostic) :=
  (fun p => (p, diagnosticsOf p es)) <$> firsts es.*1.

(** The rule table of a run. *)
Definition runRules (run : SarifRun) : gmap (option string) SarifRule :=
  VSCode.rulesMap (default [] ((tool run ≫= driver) ≫= rules)).

(** A region of which [new vscode.Range] refuses an argument. *)
Definition negativeRange (region : option Region) : Prop :=
  let a := VSCode.rangeArguments region in
  VSCode.arg_startLine a < 0 \/ VSCode.arg_startCharacter a < 0
  \/ VSCode.arg_endLine a < 0 \/ VSCode.arg_endCharacter a < 0.

(** A finding for which no message can be shown: it has no message
    object, or its text, the short description of its rule and its rule
    id are all absent or empty. *)
Definition messageless (rules : gmap (option string) SarifRule)
    (item : SarifResultItem) : Prop :=
  match Sarif.message item with
  | None => True
  | Some m =>
      blank (text m)
      /\ blank (((rules !! ruleId item) ≫= shortDescription) ≫= text)
      /\ blank (ruleId item)
  end.

(** A finding on which [createDiagnosticsForResult] throws, given the
    rule table of its run: it has a location that is not skipped, and
    either one of these has a region with a negative range or no message
    can be shown for the finding. *)
Definition unreadable (rules : gmap (option string) SarifRule)
    (item : SarifResultItem) : Prop :=
  exists l u,
    l ∈ default [] (locations item)
    /\ locationUri l = Some u /\ u <> ""
    /\ (negativeRange (locationRegion l) \/ messageless rules item).

(** A finding on which [parseFinding] of the IntelliJ plugin throws: the
    [physicalLocation] of its first location has an [artifactLocation]
    without [uri]. *)
Definition uriMissing (result : SarifResultItem) : Prop :=
  exists location phys a,
    firstLocation result = Some location
    /\ physicalLocation location = Some phys
    /\ artifactLocation phys = Some a
    /\ uri a = None.

(** What [parseFinding] gives for a finding when it does not throw. *)
Definition javaFinding (filePath : string) (result : SarifResultItem)
    : option IntelliJ.Finding :=
  match IntelliJ.parseFinding result filePath with
  | IntelliJ.Normal o => o
  | IntelliJ.Exception => None
  end.

(** A document as the editor keeps it: its length is an [int], every line
    starts inside the text and ends at or after its start, and a later
    line does not start before an earlier one. *)
Definition wellFormed (d : IntelliJ.Document) : Prop :=
  IntelliJ.getTextLength d < 2 ^ 31
  /\ (forall i, 0 <= i < IntelliJ.getLineCount d ->
        0 <= IntelliJ.getLineStartOffset d i
        /\ IntelliJ.getLineStartOffset d i <= IntelliJ.getLineEndOffset d i
        /\ IntelliJ.getLineEndOffset d i <= IntelliJ.getTextLength d)
  /\ (forall i j, 0 <= i -> i <= j -> j < IntelliJ.getLineCount d ->
        IntelliJ.getLineStartOffset d i <= IntelliJ.getLineStartOffset d j).

(** The line on which [apply] starts the annotation of a finding. *)
Definition annotatedLine (f : IntelliJ.Finding) : Z :=
  Z.max 0 (IntelliJ.int (IntelliJ.startLine f - 1)).

(** The [sign place] commands that [ProcessResults] executes for its
    findings: identifiers from 1, in the order of the findings. *)
Definition signsFor (buffer : nat) (findings : list Vim.Finding)
    : list Vim.ExCommand :=
  imap (fun i f =>
          Vim.SignPlace (S i) (Vim.lnum f)
            ("BlockSecOps" +:+ Vim.level f) buffer)
       findings.

(** Vim refuses the [sign place] of the finding at index [i]: the line
    it reads is not above 0, and the buffer has no sign [i + 1] that the
    command could change. *)
Definition refused (atoi : Z -> Z) (st : Vim.State) (buffer : nat) (i : nat)
    (f : Vim.Finding) : Prop :=
  atoi (Vim.lnum f) <= 0 /\ (S i, buffer) ∉ Vim.signs st.

(** What the decoder of the Neovim plugin and the decoder of the Vim
    plugin make of one text: the same report, or no report. *)
Definition sameDecoding (lua : option SarifResult) (vim : Vim.Decoded)
    : Prop :=
  match lua, vim with
  | Some a, Vim.Dictionary b => a = b
  | None, Vim.DecodeError | None, Vim.NoDictionary => True
  | _, _ => False
  end.

(** A quickfix entry of the Neovim plugin and one of the Vim plugin that
    show the same: file, position, type letter and text. *)
Definition sameEntry (q : Neovim.QfItem) (f : Vim.Finding) : Prop :=
  Neovim.qf_filename q = Vim.filename f
  /\ Neovim.qf_lnum q = Vim.lnum f
  /\ Neovim.qf_col q = Vim.col f
  /\ Neovim.qf_type q = Vim.type f
  /\ Neovim.qf_text q = Vim.text f.

(** ** Further samples *)

Module MoreSamples.

(** A located finding without a message object, after a readable one. *)
Definition noMessage : SarifResultItem :=
  {| ruleId := Some "TX-ORIGIN"; level := Some "warning"; message := None;
     locations :=
       Some [Samples.at_ "file:///c.sol" (Some (Samples.lineOnly 4))] |}.

Definition mixedReport : SarifResult :=
  Samples.report [] [Samples.reentrancy; noMessage].

(** Two findings of one file, the path written without and with the
    leading slash. *)
Definition twoSpellings : SarifResult :=
  Samples.report []
    [Samples.finding "REENTRANCY-001" "error" "state change after call"
       (Some [Samples.at_ "a.sol" (Some (Samples.lineOnly 7))]);
     Samples.finding "TX-ORIGIN" "warning" "tx.origin used"
       (Some [Samples.at_ "/a.sol" (Some (Samples.lineOnly 2))])].

(** A finding whose artifact location has no [uri]. *)
Definition noUri : SarifResultItem :=
  {| ruleId := Some "TX-ORIGIN"; level := Some "warning";
     message := Some {| text := Some "tx.origin used" |};
     locations :=
       Some [{| physicalLocation :=
                  Some {| artifactLocation := Some {| uri := None |};
                          region := Some (Samples.lineOnly 4) |} |}] |}.

Definition brokenReport : SarifResult :=
  Samples.report [] [Samples.reentrancy; noUri; Samples.reentrancy].

(** A document of two lines of ten characters each. *)
Definition twoLines : IntelliJ.Document :=
  {| IntelliJ.getLineCount := 2;
     IntelliJ.getLineStartOffset := fun i => if i =? 0 then 0 else 11;
     IntelliJ.getLineEndOffset := fun i => if i =? 0 then 10 else 21;
     IntelliJ.getTextLength := 21 |}.

(** A finding on the second line whose column is the largest [int]. *)
Definition farColumn : IntelliJ.Finding :=
  {| IntelliJ.ruleId := "R"; IntelliJ.level := "error";
     IntelliJ.message := "m"; IntelliJ.startLine := 2;
     IntelliJ.endLine := 2; IntelliJ.startColumn := 2 ^ 31 - 1 |}.

(** What [apply] makes of it in [twoLines], with case conversions that
    leave a string as it is: the column overflows. *)
Definition farColumnAnnotation : IntelliJ.Annotation :=
  {| IntelliJ.a_severity := IntelliJ.HighlightSeverity.ERROR;
     IntelliJ.a_message := "m";
     IntelliJ.a_startOffset := 9 - 2 ^ 31;
     IntelliJ.a_endOffset := 21;
     IntelliJ.a_tooltip := "<b>error</b><br>m<br><i>Rule: R</i>" |}.

(** Neovim and Vim before any workspace scan. *)
Definition freshWorkspace : Neovim.Workspace :=
  {| Neovim.editor :=
       {| Neovim.current_buf := 1; Neovim.buf_get_name := Samples.names;
          Neovim.diagnostics := ∅; Neovim.notifications := [] |};
     Neovim.qflist := []; Neovim.qf_open := false |}.

Definition freshVim : Vim.State :=
  {| Vim.executed := []; Vim.signs := []; Vim.qflist := [];
     Vim.echoed := []; Vim.copened := false; Vim.errors := [] |}.

End MoreSamples.

(** * Properties *)

(** ** Strings *)

Lemma endsWith_unfold (s suffix : string) :
  Str.endsWith s suffix =
  String.eqb s suffix ||
  match s with
  | EmptyString => false
  | String _ s' => Str.endsWith s' suffix
  end.
Proof. by destruct s. Qed.

Lemma endsWith_iff (s suffix : string) :
  Str.endsWith s suffix = true <-> exists before, s = before +:+ suffix.
Proof.
  split.
  - induction s as [|c s IH]; cbn [Str.endsWith]; intros H.
    + apply orb_true_iff in H as [H|H]; [|discriminate].
      apply String.eqb_eq in H. exists "". by subst.
    + apply orb_true_iff in H as [H|H].
      * apply String.eqb_eq in H. exists "". by subst.
      * destruct (IH H) as [before ->]. by exists (String c before).
  - intros [before ->].
    induction before as [|c before IH].
    + by rewrite endsWith_unfold, String.eqb_refl.
    + change (String c before +:+ suffix) with (String c (before +:+ suffix)).
      rewrite endsWith_unfold, IH. apply orb_true_r.
Qed.

Lemma removeFirst_scheme (rest : string) :
  Str.removeFirst "file://" ("file://" +:+ rest) = rest.
Proof. by destruct rest. Qed.

Lemma removeAnchored_scheme (rest : string) :
  Str.removeAnchored "file://" ("file://" +:+ rest) = rest.
Proof. by destruct rest. Qed.

Lemma scheme_not_empty (rest : string) :
  VSCode.str_or (Some ("file://" +:+ rest)) None = Some ("file://" +:+ rest).
Proof. reflexivity. Qed.

(** ** VS Code: one location of a finding *)

Lemma str_or_None_Some (s : option string) (u : string) :
  VSCode.str_or s None = Some u <-> s = Some u /\ u <> "".
Proof.
  unfold VSCode.str_or. destruct s as [v|]; [|split; [done|by intros []]].
  destruct (String.eqb_spec v "") as [->|Hne].
  - split; [done|]. by intros [[= <-] ?].
  - split; [by intros [= <-]|]. by intros [[= <-] _].
Qed.

Lemma str_or_None_None (s : option string) :
  VSCode.str_or s None = None <-> blank s.
Proof.
  unfold VSCode.str_or, blank. destruct s as [v|]; [|by split; auto].
  destruct (String.eqb_spec v "") as [->|Hne].
  - split; auto.
  - split; [done|]. by intros [|[= ->]].
Qed.

(** What [diagnosticForLocation] returns for a location that is not
    skipped. *)
Lemma diagnosticForLocation_Some item rules l p d :
  VSCode.diagnosticForLocation item rules l = VSCode.Returned (Some (p, d)) ->
  exists u,
    locationUri l = Some u /\ u <> ""
    /\ p = Str.removeFirst "file://" u
    /\ VSCode.regionRange (locationRegion l) = VSCode.Returned (VSCode.range d)
    /\ VSCode.resolveMessage item rules = VSCode.Returned (VSCode.message d)
    /\ ~ blank (VSCode.message d)
    /\ VSCode.severity d = VSCode.mapSeverity (Sarif.level item)
    /\ VSCode.code d = Sarif.ruleId item
    /\ VSCode.source d = "blocksecops".
Proof.
  unfold VSCode.diagnosticForLocation, locationUri, locationRegion.
  destruct (VSCode.str_or _ None) as [u|] eqn:Hu; [|done].
  apply str_or_None_Some in Hu as [Hu Hne].
  destruct (VSCode.regionRange _) as [r|] eqn:Hr; [|done].
  destruct (VSCode.resolveMessage item rules) as [m|] eqn:Hm; [|done].
  unfold VSCode.newDiagnostic.
  destruct (VSCode.str_or m None) as [t|] eqn:Ht; [|done].
  intros [= <- <-]. exists u. simpl. repeat split; try done.
  intros Hblank. apply str_or_None_None in Hblank. congruence.
Qed.

(** It skips exactly the locations without a non-empty artifact URI. *)
Lemma diagnosticForLocation_None item rules l :
  VSCode.diagnosticForLocation item rules l = VSCode.Returned None
  <-> VSCode.str_or (locationUri l) None = None.
Proof.
  unfold VSCode.diagnosticForLocation, locationUri, VSCode.newDiagnostic.
  destruct (VSCode.str_or _ None) as [u|]; [|done].
  split; [|done].
  destruct (VSCode.regionRange _); [|done].
  destruct (VSCode.resolveMessage item rules) as [m|]; [|done].
  by destruct (VSCode.str_or m None).
Qed.

(** [new vscode.Range] throws exactly on a negative argument. *)
Lemma regionRange_throws (region : option Region) :
  (exists e, VSCode.regionRange region = VSCode.Threw e)
  <-> negativeRange region.
Proof.
  unfold VSCode.regionRange, VSCode.newRange, VSCode.newPosition,
    negativeRange.
  set (a := VSCode.rangeArguments region).
  destruct (Z.ltb_spec (VSCode.arg_startLine a) 0);
    [split; [auto|eauto]|].
  destruct (Z.ltb_spec (VSCode.arg_startCharacter a) 0);
    [split; [auto|eauto]|].
  destruct (Z.ltb_spec (VSCode.arg_endLine a) 0);
    [split; [auto|eauto]|].
  destruct (Z.ltb_spec (VSCode.arg_endCharacter a) 0);
    [split; [auto|eauto]|].
  split; [by intros [e ?]|]. lia.
Qed.

Lemma blank_str_or (s d : option string) :
  blank (VSCode.str_or s d) <-> blank s /\ blank d.
Proof.
  unfold VSCode.str_or, blank. destruct s as [v|].
  - destruct (String.eqb_spec v "") as [->|Hne].
    + split; [auto|by intros [_ ?]].
    + split; [intros [|[= ->]]; done|]. intros [[|[= ->]] _]; done.
  - split; [auto|by intros [_ ?]].
Qed.

(** No message can be shown exactly when reading the message throws or
    resolves to nothing. *)
Lemma messageless_iff rules item :
  messageless rules item
  <-> match VSCode.resolveMessage item rules with
      | VSCode.Threw _ => True
      | VSCode.Returned m => blank m
      end.
Proof.
  unfold messageless, VSCode.resolveMessage.
  destruct (Sarif.message item) as [m|]; [|done].
  by rewrite !blank_str_or.
Qed.

(** When [diagnosticForLocation] throws. *)
Lemma diagnosticForLocation_throws item rules l :
  (exists e, VSCode.diagnosticForLocation item rules l = VSCode.Threw e)
  <-> exists u,
        locationUri l = Some u /\ u <> ""
        /\ (negativeRange (locationRegion l) \/ messageless rules item).
Proof.
  pose proof (messageless_iff rules item) as Hmsg.
  pose proof (regionRange_throws (locationRegion l)) as Hrange.
  unfold VSCode.diagnosticForLocation, VSCode.newDiagnostic.
  fold (locationUri l). fold (locationRegion l).
  destruct (VSCode.str_or (locationUri l) None) as [u|] eqn:Hu.
  - apply str_or_None_Some in Hu as [Hu Hne].
    destruct (VSCode.regionRange _) as [r|e] eqn:Hr.
    + destruct (VSCode.resolveMessage item rules) as [m|e] eqn:Hm.
      * destruct (VSCode.str_or m None) as [t|] eqn:Ht.
        -- split; [by intros [e ?]|].
           intros (u' & _ & _ & [Hneg|Hblank]).
           ++ apply Hrange in Hneg as [e ?]. done.
           ++ apply Hmsg, str_or_None_None in Hblank. congruence.
        -- split; [|eauto]. intros _. exists u. split; [done|].
           split; [done|]. right. by apply Hmsg, str_or_None_None.
      * split; [|eauto]. intros _. exists u. split; [done|].
        split; [done|]. right. by apply Hmsg.
    + split; [|eauto]. intros _. exists u. split; [done|]. split; [done|].
      left. apply Hrange. eauto.
  - split; [by intros [e ?]|].
    intros (u & Hsome & Hne & _).
    assert (VSCode.str_or (locationUri l) None = Some u) as Habs
      by (by apply str_or_None_Some).
    congruence.
Qed.

(** ** Severity *)

(** C3, as the code has it.  [mapSeverity] (VS Code) and [get_severity]
    (Neovim) are total functions of the level, which may be absent:
    [error], [warning] and [note] map to the three named severities, every
    other level (the empty string, an unknown word, no level at all) maps
    to the hint severity, and nothing but [error] maps to the error
    severity.  VS Code hands the level of the finding to [mapSeverity] as
    it is, so a finding without a level is a hint.  Neovim's
    [parse_finding] puts [warning] in the place of an absent level before
    [get_severity] sees it, so a finding without a level is a warning. *)
Theorem severity_mapping_total :
  (forall level : option string,
     (level = Some "error" ->
        VSCode.mapSeverity level = VSCode.Error
        /\ Neovim.get_severity level = Neovim.ERROR)
     /\ (level = Some "warning" ->
        VSCode.mapSeverity level = VSCode.Warning
        /\ Neovim.get_severity level = Neovim.WARN)
     /\ (level = Some "note" ->
        VSCode.mapSeverity level = VSCode.Information
        /\ Neovim.get_severity level = Neovim.INFO)
     /\ (level <> Some "error" -> level <> Some "warning" ->
         level <> Some "note" ->
        VSCode.mapSeverity level = VSCode.Hint
        /\ Neovim.get_severity level = Neovim.HINT)
     /\ (VSCode.mapSeverity level = VSCode.Error -> level = Some "error")
     /\ (Neovim.get_severity level = Neovim.ERROR -> level = Some "error"))
  /\ (forall item rules location u d,
        VSCode.diagnosticForLocation item rules location
        = VSCode.Returned (Some (u, d)) ->
        VSCode.severity d = VSCode.mapSeverity (Sarif.level item))
  /\ (forall result filter_file f bufnr,
        Neovim.parse_finding result filter_file = Some f ->
        Neovim.d_severity (Neovim.to_diagnostic bufnr f)
        = Neovim.get_severity (Some (default "warning" (Sarif.level result)))).
Proof.
  split; [|split].
  - intros level.
    destruct level as [l|]; cbn [VSCode.mapSeverity Neovim.get_severity].
    + destruct (String.eqb_spec l "error") as [->|Herror];
        [repeat split; intros; done|].
      destruct (String.eqb_spec l "warning") as [->|Hwarning];
        [repeat split; intros; done|].
      destruct (String.eqb_spec l "note") as [->|Hnote];
        [repeat split; intros; done|].
      repeat split; intros; congruence.
    + repeat split; intros; done.
  - intros item rules location u d Hd.
    by apply diagnosticForLocation_Some in Hd
      as (? & _ & _ & _ & _ & _ & _ & ? & _).
  - intros result filter_file f bufnr. unfold Neovim.parse_finding.
    repeat case_match; intros; simplify_eq/=; done.
Qed.

(** The inputs named by the specification, each mapped to one severity. *)
Lemma severity_mapping_total_witness :
  VSCode.mapSeverity (Some "error") = VSCode.Error
  /\ Neovim.get_severity (Some "warning") = Neovim.WARN
  /\ VSCode.mapSeverity (Some "note") = VSCode.Information
  /\ VSCode.mapSeverity (Some "") = VSCode.Hint
  /\ Neovim.get_severity (Some "unexpected-value") = Neovim.HINT
  /\ VSCode.mapSeverity None = VSCode.Hint.
Proof.
  pose proof (proj1 severity_mapping_total) as H.
  split; [apply (H (Some "error")); reflexivity|].
  split; [apply (H (Some "warning")); reflexivity|].
  split; [apply (H (Some "note")); reflexivity|].
  split; [apply (H (Some "")); discriminate|].
  split; [apply (H (Some "unexpected-value")); discriminate|].
  apply (H None); discriminate.
Defined.

(** C3 as stated fails in Neovim for a finding without a level: it is
    parsed with the level [warning] and shown with the severity [WARN],
    not with the hint severity. *)
Lemma severity_mapping_total_counterexample :
  Sarif.level Samples.noLevel = None
  /\ Neovim.parse_finding Samples.noLevel None = Some Samples.noLevelEntry
  /\ Neovim.d_severity (Neovim.to_diagnostic 1 Samples.noLevelEntry)
     = Neovim.WARN.
Proof. repeat split. Qed.

(** ** The [file://] scheme *)

(** C9.  An artifact URI that carries the [file://] prefix is emitted
    without it.  VS Code: whatever [diagnosticForLocation] returns for
    such a location is a diagnostic under the stripped path, and it
    returns one unless the range of the region is negative or no message
    can be shown for the finding.  Neovim: the finding carries the
    stripped path as its file name, and the file filter is compared with
    the stripped path, so the finding is kept exactly for the filter that
    equals it. *)
Theorem file_scheme_stripped (rest : string) :
  let u := "file://" +:+ rest in
  (forall item rules location,
     locationUri location = Some u ->
     (forall out,
        VSCode.diagnosticForLocation item rules location
        = VSCode.Returned out ->
        exists d, out = Some (rest, d))
     /\ (~ negativeRange (locationRegion location) ->
         ~ messageless rules item ->
         exists d,
           VSCode.diagnosticForLocation item rules location
           = VSCode.Returned (Some (rest, d))))
  /\ (forall result location filter_file f,
     firstLocation result = Some location ->
     locationUri location = Some u ->
     Neovim.parse_finding result filter_file = Some f ->
     Neovim.filename f = rest
     /\ forall x, filter_file = Some x -> x = rest)
  /\ (forall result location,
     firstLocation result = Some location ->
     locationUri location = Some u ->
     is_Some (Neovim.parse_finding result (Some rest))
     /\ is_Some (Neovim.parse_finding result None)).
Proof.
  intros u. split; [|split].
  - intros item rules location Huri.
    assert (forall out,
              VSCode.diagnosticForLocation item rules location
              = VSCode.Returned out ->
              exists d, out = Some (rest, d)) as Hout.
    { intros [[p d]|] Hd.
      - apply diagnosticForLocation_Some in Hd as (u' & Hu' & _ & -> & _).
        rewrite Huri in Hu'. injection Hu' as <-. subst u.
        rewrite removeFirst_scheme. eauto.
      - apply diagnosticForLocation_None in Hd.
        rewrite Huri in Hd. subst u. by rewrite scheme_not_empty in Hd. }
    split; [done|]. intros Hrange Hmessage.
    destruct (VSCode.diagnosticForLocation item rules location)
      as [out|e] eqn:Hd.
    + destruct (Hout out eq_refl) as [d ->]. eauto.
    + assert (exists e, VSCode.diagnosticForLocation item rules location
                        = VSCode.Threw e) as Hthrows by eauto.
      apply diagnosticForLocation_throws in Hthrows
        as (? & _ & _ & [?|?]); done.
  - intros result location filter_file f Hfirst Huri.
    unfold firstLocation in Hfirst. unfold locationUri in Huri.
    unfold Neovim.parse_finding.
    destruct (locations result) as [[|l ls]|]; simplify_eq/=.
    destruct (physicalLocation location) as [phys|]; simplify_eq/=.
    rewrite Huri. subst u. rewrite removeAnchored_scheme.
    destruct filter_file as [x|].
    + destruct (String.eqb_spec rest x) as [->|]; simpl; [|done].
      destruct (region phys); intros; simplify_eq/=; (split; [done|congruence]).
    + destruct (region phys); intros; simplify_eq/=; done.
  - intros result location Hfirst Huri.
    unfold firstLocation in Hfirst. unfold locationUri in Huri.
    unfold Neovim.parse_finding.
    destruct (locations result) as [[|l ls]|]; simplify_eq/=.
    destruct (physicalLocation location) as [phys|]; simplify_eq/=.
    rewrite Huri. subst u. rewrite removeAnchored_scheme, String.eqb_refl.
    destruct (region phys); simpl; eauto.
Qed.

Lemma file_scheme_stripped_witness :
  (exists d,
     VSCode.diagnosticForLocation Samples.contractFinding ∅
       Samples.contractLocation
     = VSCode.Returned (Some ("/a/b/contract.sol", d)))
  /\ is_Some (Neovim.parse_finding Samples.contractFinding
               (Some "/a/b/contract.sol")).
Proof.
  split.
  - apply (proj2 (proj1 (file_scheme_stripped "/a/b/contract.sol")
                    Samples.contractFinding ∅ Samples.contractLocation
                    eq_refl)).
    + intros [H|[H|[H|H]]]; by vm_compute in H.
    + intros (H & _). by destruct H.
  - exact (proj1 (proj2 (proj2 (file_scheme_stripped "/a/b/contract.sol"))
                    Samples.contractFinding Samples.contractLocation
                    eq_refl eq_refl)).
Defined.

(** ** Findings without a location *)

Lemma omap_cons {A B} (f : A -> option B) (x : A) (l : list A) :
  omap f (x :: l)
  = match f x with Some y => y :: omap f l | None => omap f l end.
Proof. done. Qed.

Lemma omap_filter_None {A B} (f : A -> option B) (P : A -> Prop)
    `{!forall x, Decision (P x)} (l : list A) :
  (forall x, ~ P x -> f x = None) ->
  omap f (filter P l) = omap f l.
Proof.
  intros Hf. induction l as [|x l IH]; [done|].
  rewrite filter_cons. case_decide as HP; rewrite !omap_cons.
  - by rewrite IH.
  - by rewrite (Hf x HP).
Qed.

Lemma length_omap_le {A B} (f : A -> option B) (l : list A) :
  (length (omap f l) <= length l)%nat.
Proof.
  induction l as [|x l IH]; [done|].
  rewrite omap_cons. destruct (f x); simpl; lia.
Qed.

Lemma located_false (result : SarifResultItem) :
  located result = false ->
  locations result = None \/ locations result = Some [].
Proof.
  unfold located. destruct (locations result) as [[|]|]; auto; discriminate.
Qed.

Lemma lua_unlocated (result : SarifResultItem) filter_file :
  ~ located result -> Neovim.parse_finding result filter_file = None.
Proof.
  intros H. apply Is_true_false_1, located_false in H.
  unfold Neovim.parse_finding. by destruct H as [-> | ->].
Qed.

Lemma java_unlocated (result : SarifResultItem) path :
  ~ located result ->
  IntelliJ.parseFinding result path = IntelliJ.Normal None.
Proof.
  intros H. apply Is_true_false_1, located_false in H.
  unfold IntelliJ.parseFinding. by destruct H as [-> | ->].
Qed.

Lemma java_forResults_located results path findings :
  IntelliJ.forResults (filter (fun r => located r) results) path findings
  = IntelliJ.forResults results path findings.
Proof.
  revert findings. induction results as [|r results IH]; intros findings; [done|].
  rewrite filter_cons. case_decide as HP; simpl.
  - destruct (IntelliJ.parseFinding r path) as [[f|]|]; by rewrite ?IH.
  - by rewrite (java_unlocated r path HP).
Qed.

Lemma java_forResults_length results path findings :
  (length (IntelliJ.forResults results path findings)
   <= length findings + length results)%nat.
Proof.
  revert findings. induction results as [|r results IH]; intros findings; simpl.
  - lia.
  - destruct (IntelliJ.parseFinding r path) as [[f|]|].
    + specialize (IH (findings ++ [f])). rewrite length_app in IH. simpl in IH. lia.
    + specialize (IH findings). lia.
    + lia.
Qed.

Section LuaRuns.

Context (filter_file : option string).

(** The body of the outer loop of [parse_sarif]. *)
Let perRun (run : SarifRun) : list Neovim.Finding :=
  match results run with
  | Some items =>
      omap (fun result => Neovim.parse_finding result filter_file) items
  | None => []
  end.

Lemma lua_runs_located (rs : list SarifRun) :
  flat_map perRun
    ((fun run =>
        {| tool := tool run;
           results := filter (fun r => located r) <$> results run |}) <$> rs)
  = flat_map perRun rs.
Proof.
  induction rs as [|run rs IH]; [done|].
  rewrite fmap_cons. simpl. rewrite IH. f_equal.
  unfold perRun. simpl. destruct (results run) as [items|]; [|done]. simpl.
  apply omap_filter_None. intros x Hx. by apply lua_unlocated.
Qed.

Lemma lua_runs_length (rs : list SarifRun) :
  (length (flat_map perRun rs)
   <= sum_list
        ((fun run =>
            length (filter (fun r => located r) (default [] (results run))))
         <$> rs))%nat.
Proof.
  induction rs as [|run rs IH]; [done|].
  rewrite fmap_cons. simpl. rewrite length_app.
  enough (length (perRun run)
          <= length (filter (fun r => located r) (default [] (results run))))%nat
    by lia.
  unfold perRun. destruct (results run) as [items|]; simpl; [|lia].
  rewrite <- (omap_filter_None _ (fun r => located r) items)
    by (intros x Hx; by apply lua_unlocated).
  apply length_omap_le.
Qed.

End LuaRuns.

(** C7.  A finding whose [locations] array is absent or empty yields
    nothing: the Neovim and IntelliJ parsers return no finding for it, and
    VS Code creates no diagnostic.  Over a whole report the output is the
    output for the report with these findings removed, and it is never
    longer than the number of located findings, so the findings left out
    are counted by the report alone. *)
Theorem unlocated_findings_dropped :
  (forall result,
     located result = false ->
     (forall filter_file, Neovim.parse_finding result filter_file = None)
     /\ (forall path,
           IntelliJ.parseFinding result path = IntelliJ.Normal None)
     /\ (forall rules,
           VSCode.createDiagnosticsForResult result rules
           = VSCode.Returned []))
  /\ (forall json_decode names sarif_json filter_bufnr,
        Neovim.parse_sarif json_decode names sarif_json filter_bufnr
        = Neovim.parse_sarif (fun s => dropUnlocated <$> json_decode s)
            names sarif_json filter_bufnr
        /\ forall sarif,
             json_decode sarif_json = Some sarif ->
             (length (Neovim.parse_sarif json_decode names sarif_json
                        filter_bufnr)
              <= locatedCount sarif)%nat)
  /\ (forall fromJson sarifJson filePath,
        IntelliJ.parseFindings fromJson sarifJson filePath
        = IntelliJ.parseFindings (fun s => dropUnlocated <$> fromJson s)
            sarifJson filePath
        /\ forall sarif,
             fromJson sarifJson = Some sarif ->
             (length (IntelliJ.parseFindings fromJson sarifJson filePath)
              <= locatedCount sarif)%nat).
Proof.
  split; [|split].
  - intros result H. apply Is_true_false_2 in H.
    split; [|split]; intros.
    + by apply lua_unlocated.
    + by apply java_unlocated.
    + apply Is_true_false_1, located_false in H.
      unfold VSCode.createDiagnosticsForResult. by destruct H as [-> | ->].
  - intros json_decode names sarif_json filter_bufnr.
    unfold Neovim.parse_sarif, locatedCount. split.
    + destruct (json_decode sarif_json) as [sarif|]; [|done]. simpl.
      destruct (runs sarif) as [rs|]; [|done]. simpl.
      symmetry. apply lua_runs_located.
    + intros sarif ->. simpl.
      destruct (runs sarif) as [rs|]; simpl; [|lia].
      apply lua_runs_length.
  - intros fromJson sarifJson filePath.
    unfold IntelliJ.parseFindings, locatedCount. split.
    + destruct (fromJson sarifJson) as [sarif|]; [|done]. simpl.
      destruct (runs sarif) as [[|run rs]|]; [done| |done]. simpl.
      destruct (results run) as [items|]; [|done]. simpl.
      symmetry. apply java_forResults_located.
    + intros sarif ->.
      destruct (runs sarif) as [[|run rs]|]; simpl; [lia| |lia].
      destruct (results run) as [items|]; simpl; [|lia].
      rewrite <- java_forResults_located.
      pose proof (java_forResults_length
                    (filter (fun r => located r) items) filePath []).
      simpl in *. lia.
Qed.

Lemma unlocated_findings_dropped_witness :
  Neovim.parse_finding Samples.nowhere None = None
  /\ IntelliJ.parseFinding Samples.emptyLocations "/c.sol"
     = IntelliJ.Normal None
  /\ VSCode.createDiagnosticsForResult Samples.emptyLocations ∅
     = VSCode.Returned [].
Proof.
  split; [|split].
  - exact (proj1 (proj1 unlocated_findings_dropped Samples.nowhere eq_refl) None).
  - exact (proj1 (proj2 (proj1 unlocated_findings_dropped
                           Samples.emptyLocations eq_refl)) "/c.sol").
  - exact (proj2 (proj2 (proj1 unlocated_findings_dropped
                           Samples.emptyLocations eq_refl)) ∅).
Defined.

(** ** Region defaults *)


Lemma toDouble_small (z : Z) :
  Z.abs z <= 2 ^ 53 -> VSCode.toDouble z = z.
Proof.
  intros Hz. unfold VSCode.toDouble.
  by destruct (Z.leb_spec (Z.abs z) (2 ^ 53)); [|lia].
Qed.

Lemma minus1_small (n : Z) :
  - 2 ^ 53 < n <= 2 ^ 53 -> VSCode.minus1 n = n - 1.
Proof.
  intros Hn. unfold VSCode.minus1.
  rewrite (toDouble_small n) by lia. apply toDouble_small. lia.
Qed.






(** ** The message of a finding *)


Lemma str_or_text (t : string) (d : option string) :
  t <> "" -> VSCode.str_or (Some t) d = Some t.
Proof.
  intros H. unfold VSCode.str_or.
  by destruct (String.eqb_spec t "").
Qed.




(** Scenario A in VS Code: one diagnostic for [/c.sol], an error on line 10
    from column 1 to the end-of-line constant, with the short description
    of the rule as its message. *)
Example scenarioA_in_vscode :
  VSCode.updateDiagnostics Samples.fileUri Samples.scenarioA ∅
  = (VSCode.Returned tt,
     {[ "file:///c.sol" :=
          [ {| VSCode.range :=
                 {| VSCode.range_start :=
                      {| VSCode.line := 9; VSCode.character := 0 |};
                    VSCode.range_end :=
                      {| VSCode.line := 9; VSCode.character := 998 |} |};
               VSCode.message := Some "Reentrancy risk";
               VSCode.severity := VSCode.Error;
               VSCode.source := "blocksecops";
               VSCode.code := Some "REENTRANCY-001" |} ] ]}).
Proof. by vm_compute. Qed.


(** ** Malformed and empty reports *)

(** C8, as the code has it.  Text on which the JSON decoder throws is
    handled where it is read.  Neovim's [parse_sarif], IntelliJ's
    [parseFindings] and Vim's [ParseSarif] return no finding.  VS Code's
    [runScan] writes the failure to the output channel and resolves to
    [null], which is no result: [scanCurrentFile] then shows the error
    mark and leaves the diagnostics as they were.  A report whose [runs]
    array is empty is decoded as any other: the three parsers return no
    finding, [runScan] resolves to the report, [updateDiagnostics] leaves
    an empty collection and [scanCurrentFile] shows the check mark. *)
Theorem malformed_and_empty_reports :
  (forall json_decode names sarif_json filter_bufnr,
     (json_decode sarif_json = None ->
      Neovim.parse_sarif json_decode names sarif_json filter_bufnr = [])
     /\ (json_decode sarif_json = Some {| runs := Some [] |} ->
         Neovim.parse_sarif json_decode names sarif_json filter_bufnr = []))
  /\ (forall JSON_parse Uri_file cliPath target code stdout stderr ed,
        code = Some 0 \/ code = Some 1 ->
        let scan :=
          VSCode.runScan JSON_parse cliPath target
            (VSCode.Close code stdout stderr) ed in
        let after :=
          VSCode.scanCurrentFile JSON_parse Uri_file cliPath target
            (VSCode.Close code stdout stderr) ed in
        (forall e,
           JSON_parse stdout = VSCode.Threw e ->
           scan.1 = None
           /\ last (VSCode.outputChannel scan.2)
              = Some ("Failed to parse scan results: " +:+ e)
           /\ VSCode.diagnosticCollection after
              = VSCode.diagnosticCollection ed
           /\ VSCode.statusBarText after = "$(error) BlockSecOps"
           /\ VSCode.errorMessages after = VSCode.errorMessages ed)
        /\ (forall result,
              JSON_parse stdout = VSCode.Returned result ->
              runs result = Some [] ->
              scan.1 = Some result
              /\ (forall shown,
                    VSCode.updateDiagnostics Uri_file result shown
                    = (VSCode.Returned tt, ∅))
              /\ VSCode.diagnosticCollection after = ∅
              /\ VSCode.statusBarText after = "$(check) BlockSecOps"))
  /\ (forall fromJson sarifJson filePath,
        (fromJson sarifJson = None ->
         IntelliJ.parseFindings fromJson sarifJson filePath = [])
        /\ (fromJson sarifJson = Some {| runs := Some [] |} ->
            IntelliJ.parseFindings fromJson sarifJson filePath = []))
  /\ (forall json_decode sarif_json filter_file,
        (json_decode sarif_json = Vim.DecodeError ->
         Vim.ParseSarif json_decode sarif_json filter_file = Vim.Returns [])
        /\ (json_decode sarif_json = Vim.Dictionary {| runs := Some [] |} ->
            Vim.ParseSarif json_decode sarif_json filter_file
            = Vim.Returns [])).
Proof.
  split; [|split; [|split]].
  - intros json_decode names sarif_json filter_bufnr.
    unfold Neovim.parse_sarif. split; by intros ->.
  - intros JSON_parse Uri_file cliPath target code stdout stderr ed Hcode
      scan after.
    subst scan after.
    unfold VSCode.scanCurrentFile, VSCode.runScan, VSCode.onClose.
    assert (bool_decide (code = Some 0) || bool_decide (code = Some 1) = true)
      as -> by (destruct Hcode as [-> | ->]; done).
    split.
    + intros e ->. simpl. split; [done|].
      split; [by rewrite last_snoc|].
      repeat split; by destruct (String.eqb stderr "").
    + intros result -> Hruns.
      assert (forall shown,
                VSCode.updateDiagnostics Uri_file result shown
                = (VSCode.Returned tt, ∅)) as Hupdate
        by (intros shown; unfold VSCode.updateDiagnostics; by rewrite Hruns).
      split; [done|]. split; [done|].
      cbn [fst snd]. rewrite Hupdate.
      unfold VSCode.firstRunCount. rewrite Hruns. by split.
  - intros fromJson sarifJson filePath.
    unfold IntelliJ.parseFindings. split; by intros ->.
  - intros json_decode sarif_json filter_file.
    unfold Vim.ParseSarif. split; by intros ->.
Qed.

Lemma malformed_and_empty_reports_witness :
  Neovim.parse_sarif (Json.decodeOnly Samples.emptyRuns) Samples.names
    "Usage: blocksecops scan run" None
  = []
  /\ Neovim.parse_sarif (Json.decodeOnly Samples.emptyRuns) Samples.names
       (Json.render Samples.emptyRuns) (Some 1%nat)
     = []
  /\ (VSCode.runScan Samples.notJson "blocksecops"
        "/c.sol" (VSCode.Close (Some 1) "Usage: blocksecops scan run" "")
        Samples.vscodeAfterGoodScan).1
     = None.
Proof.
  split; [|split].
  - apply (proj1 (proj1 malformed_and_empty_reports
             (Json.decodeOnly Samples.emptyRuns) Samples.names
             "Usage: blocksecops scan run" None)).
    by vm_compute.
  - apply (proj2 (proj1 malformed_and_empty_reports
             (Json.decodeOnly Samples.emptyRuns) Samples.names
             (Json.render Samples.emptyRuns) (Some 1%nat))).
    by vm_compute.
  - exact (proj1 (proj1 (proj1 (proj2 malformed_and_empty_reports)
             Samples.notJson Samples.fileUri
             "blocksecops" "/c.sol"
             (Some 1) "Usage: blocksecops scan run" ""
             Samples.vscodeAfterGoodScan (or_intror eq_refl))
             "SyntaxError: Unexpected token U in JSON at position 0"
             eq_refl)).
Defined.

(** C8 as stated fails in VS Code.  After a scan that showed a
    diagnostic, the scanner prints a usage line, which is no JSON:
    [runScan] resolves to [null] and not to an empty result, and the
    editor goes on to show the diagnostic of the earlier scan next to the
    error mark. *)
Lemma malformed_and_empty_reports_counterexample :
  (VSCode.runScan Samples.notJson "blocksecops"
     "/c.sol" (VSCode.Close (Some 1) "Usage: blocksecops scan run" "")
     Samples.vscodeAfterGoodScan).1
  = None
  /\ VSCode.diagnosticCollection
       (VSCode.scanCurrentFile Samples.notJson
          Samples.fileUri "blocksecops" "/c.sol"
          (VSCode.Close (Some 1) "Usage: blocksecops scan run" "")
          Samples.vscodeAfterGoodScan)
     = Samples.staleCollection
  /\ Samples.staleCollection !! "file:///c.sol" <> None
  /\ VSCode.statusBarText
       (VSCode.scanCurrentFile Samples.notJson
          Samples.fileUri "blocksecops" "/c.sol"
          (VSCode.Close (Some 1) "Usage: blocksecops scan run" "")
          Samples.vscodeAfterGoodScan)
     = "$(error) BlockSecOps".
Proof. repeat split. by vm_compute. Qed.

(** ** The count shown by the scan action *)

Lemma skip_empty (n : nat) : Str.skip n "" = "".
Proof. by destruct n. Qed.

Lemma occurrences_cons pat c s :
  Str.occurrences pat (String c s)
  = ((if String.prefix pat (String c s) then 1 else 0)
     + Str.occurrences pat s)%nat.
Proof. done. Qed.

Lemma index_None_occurrences pat s : forall from,
  pat <> "" ->
  String.index from pat s = None ->
  Str.occurrences pat (Str.skip from s) = O.
Proof.
  induction s as [|c s IH]; intros from Hpat.
  - by rewrite skip_empty.
  - destruct from as [|from]; cbn [String.index Str.skip].
    + rewrite occurrences_cons.
      destruct (String.prefix pat (String c s)); [done|].
      destruct (String.index 0 pat s) eqn:E; [done|]. intros _.
      exact (IH O Hpat E).
    + destruct (String.index from pat s) eqn:E; [done|]. intros _.
      by apply IH.
Qed.

Lemma index_Some_occurrences pat s : forall from found,
  pat <> "" ->
  String.index from pat s = Some found ->
  Str.occurrences pat (Str.skip from s)
  = S (Str.occurrences pat (Str.skip (S found) s)).
Proof.
  induction s as [|c s IH]; intros from found Hpat.
  - destruct from; cbn [String.index]; [by destruct pat|done].
  - destruct from as [|from]; cbn [String.index Str.skip].
    + rewrite occurrences_cons.
      destruct (String.prefix pat (String c s)).
      * intros [= <-]. done.
      * destruct (String.index 0 pat s) eqn:E; [|done]. intros [= <-].
        exact (IH O n Hpat E).
    + destruct (String.index from pat s) eqn:E; [|done]. intros [= <-].
      by apply IH.
Qed.

Lemma countLoop_occurrences (sarifOutput : string) (index count : nat) :
  IntelliJ.countLoop sarifOutput index count
  = (count + Str.occurrences IntelliJ.ruleIdKey (Str.skip index sarifOutput))%nat.
Proof.
  funelim (IntelliJ.countLoop sarifOutput index count).
  - rewrite H0.
    rewrite (index_Some_occurrences IntelliJ.ruleIdKey sarifOutput index found);
      [lia|done|done].
  - rewrite (index_None_occurrences IntelliJ.ruleIdKey sarifOutput index);
      [lia|done|done].
Qed.

(** C10, as the code has it.  [countFindings] returns the number of
    places of the raw text at which the key [ruleId], written between
    double quotes, starts; with exit code 1 the scan action adds one
    balloon, a warning that names that number.  The number is not always
    the number of findings parsed from the text: for the report whose one
    finding has no location the text holds the key once and nothing is
    parsed. *)
Theorem count_is_ruleId_occurrences :
  (forall sarifOutput,
     IntelliJ.countFindings sarifOutput
     = Str.occurrences IntelliJ.ruleIdKey sarifOutput)
  /\ (forall project output,
        let count := Str.occurrences IntelliJ.ruleIdKey output in
        IntelliJ.notifications (IntelliJ.handleScanResult project output 1)
        = IntelliJ.notifications project
          ++ [("Scan complete: " +:+ pretty count +:+ " issue"
               +:+ (if Nat.eqb count 1 then "" else "s") +:+ " found",
               IntelliJ.WARNING)])
  /\ (exists report filePath,
        forall fromJson,
          fromJson (Json.render report) = Some report ->
          IntelliJ.countFindings (Json.render report)
          <> length (IntelliJ.parseFindings fromJson (Json.render report)
                       filePath)).
Proof.
  assert (forall sarifOutput,
            IntelliJ.countFindings sarifOutput
            = Str.occurrences IntelliJ.ruleIdKey sarifOutput) as Hcount.
  { intros sarifOutput. unfold IntelliJ.countFindings.
    by rewrite countLoop_occurrences. }
  split; [done|]. split.
  - intros project output count. subst count.
    unfold IntelliJ.handleScanResult. simpl. by rewrite Hcount.
  - exists Samples.unlocatedReport, "/c.sol". intros fromJson Hdecode.
    unfold IntelliJ.parseFindings. rewrite Hdecode, Hcount. by vm_compute.
Qed.

Lemma count_is_ruleId_occurrences_witness :
  IntelliJ.countFindings (Json.render Samples.unlocatedReport) = 1%nat
  /\ IntelliJ.parseFindings (Json.decodeOnly Samples.unlocatedReport)
       (Json.render Samples.unlocatedReport) "/c.sol" = [].
Proof.
  split.
  - rewrite (proj1 count_is_ruleId_occurrences). by vm_compute.
  - by vm_compute.
Defined.

(** C10 as stated names every report whose rules table defines rules as
    one where the count differs from the number of findings.  Scenario A
    is such a report: its rules table defines one rule, which the text
    holds under the key [id]; the count is 1, and one finding is parsed. *)
Lemma count_is_ruleId_occurrences_counterexample :
  tool <$> default [] (runs Samples.scenarioA)
  = [Some {| driver := Some {| rules := Some [Samples.reentrancyRule] |} |}]
  /\ IntelliJ.countFindings (Json.render Samples.scenarioA) = 1%nat
  /\ IntelliJ.parseFindings (Json.decodeOnly Samples.scenarioA)
       (Json.render Samples.scenarioA) "/c.sol"
     = [Samples.reentrancyAnnotation].
Proof. split; [done|]. split; by vm_compute. Qed.

(** ** The file filter *)

Lemma java_filter (result : SarifResultItem) (location : SarifLocation)
    (u path : string) :
  firstLocation result = Some location ->
  locationUri location = Some u ->
  let p := Str.removeAll "file://" u in
  IntelliJ.parseFinding result path
  = if negb (String.eqb p path) && negb (Str.endsWith path p)
    then IntelliJ.Normal None
    else IntelliJ.parseFinding
           {| ruleId := ruleId result; level := level result;
              message := message result;
              locations :=
                Some [ {| physicalLocation :=
                            Some {| artifactLocation := None;
                                    region := locationRegion location |} |} ] |}
           path.
Proof.
  intros Hfirst Huri p. subst p.
  unfold firstLocation in Hfirst. unfold locationUri in Huri.
  unfold IntelliJ.parseFinding, locationRegion.
  destruct (locations result) as [[|l ls]|]; simplify_eq/=.
  destruct (physicalLocation location) as [phys|]; simplify_eq/=.
  destruct (artifactLocation phys) as [a|]; simplify_eq/=.
  rewrite Huri.
  by destruct (negb _ && negb _).
Qed.

Lemma java_retained_without_artifact result path r :
  exists f,
    IntelliJ.parseFinding
      {| ruleId := ruleId result; level := level result;
         message := message result;
         locations :=
           Some [ {| physicalLocation :=
                       Some {| artifactLocation := None; region := r |} |} ] |}
      path
    = IntelliJ.Normal (Some f).
Proof. unfold IntelliJ.parseFinding. simpl. destruct r; eauto. Qed.

(** What C2 asks holds in IntelliJ and Neovim.  With a file filter,
    IntelliJ's [parseFinding] keeps a finding
    whose first location has an artifact URI exactly when the path (the
    URI without [file://]) equals the filter path or the filter path ends
    with it, and otherwise returns [null] without throwing; Neovim's
    [parse_finding] keeps a finding only when its path equals the filter
    path and otherwise returns [nil].  So for a report with one finding
    in each of two files, filtered by the path of the first file, both
    parsers return the finding of the first file alone. *)
Theorem file_filter :
  (forall result location u path,
     firstLocation result = Some location ->
     locationUri location = Some u ->
     let p := Str.removeAll "file://" u in
     ((exists f, IntelliJ.parseFinding result path = IntelliJ.Normal (Some f))
      <-> p = path \/ exists before, path = before +:+ p)
     /\ (p <> path -> ~ (exists before, path = before +:+ p) ->
         IntelliJ.parseFinding result path = IntelliJ.Normal None))
  /\ (forall result path,
        (forall f,
           Neovim.parse_finding result (Some path) = Some f ->
           Neovim.filename f = path
           /\ Neovim.parse_finding result None = Some f)
        /\ (forall f,
              Neovim.parse_finding result None = Some f ->
              Neovim.filename f <> path ->
              Neovim.parse_finding result (Some path) = None)
        /\ (forall f,
              Neovim.parse_finding result None = Some f ->
              Neovim.filename f = path ->
              Neovim.parse_finding result (Some path) = Some f))
  /\ (forall fromJson sarifJson path tool a b la ua lb ub,
        fromJson sarifJson
        = Some {| runs := Some [ {| tool := tool; results := Some [a; b] |} ] |} ->
        firstLocation a = Some la -> locationUri la = Some ua ->
        firstLocation b = Some lb -> locationUri lb = Some ub ->
        Str.removeAll "file://" ua = path ->
        Str.removeAll "file://" ub <> path ->
        ~ (exists before, path = before +:+ Str.removeAll "file://" ub) ->
        exists f,
          IntelliJ.parseFinding a path = IntelliJ.Normal (Some f)
          /\ IntelliJ.parseFindings fromJson sarifJson path = [f])
  /\ (forall json_decode names sarif_json bufnr tool a b fa fb,
        json_decode sarif_json
        = Some {| runs := Some [ {| tool := tool; results := Some [a; b] |} ] |} ->
        Neovim.parse_finding a None = Some fa ->
        Neovim.parse_finding b None = Some fb ->
        Neovim.filename fa = names bufnr ->
        Neovim.filename fb <> names bufnr ->
        Neovim.parse_sarif json_decode names sarif_json (Some bufnr) = [fa]).
Proof.
  assert (forall result path f,
            Neovim.parse_finding result None = Some f ->
            Neovim.parse_finding result (Some path)
            = if String.eqb (Neovim.filename f) path then Some f else None)
    as Hlua.
  { intros result path f. unfold Neovim.parse_finding.
    destruct (locations result) as [[|l ls]|]; try done.
    destruct (physicalLocation l) as [phys|]; [|done]. simpl.
    destruct (region phys); intros; simplify_eq/=;
      by destruct (String.eqb _ path). }
  assert (forall result path f,
            Neovim.parse_finding result (Some path) = Some f ->
            Neovim.parse_finding result None = Some f) as Hlua'.
  { intros result path f. unfold Neovim.parse_finding.
    destruct (locations result) as [[|l ls]|]; try done.
    destruct (physicalLocation l) as [phys|]; [|done]. simpl.
    by destruct (negb _). }
  assert (forall result location u path,
     firstLocation result = Some location ->
     locationUri location = Some u ->
     let p := Str.removeAll "file://" u in
     ((exists f, IntelliJ.parseFinding result path = IntelliJ.Normal (Some f))
      <-> p = path \/ exists before, path = before +:+ p)
     /\ (p <> path -> ~ (exists before, path = before +:+ p) ->
         IntelliJ.parseFinding result path = IntelliJ.Normal None)) as Hjava.
  { intros result location u path Hfirst Huri p.
    rewrite (java_filter result location u path Hfirst Huri).
    fold p. rewrite <- endsWith_iff.
    destruct (String.eqb_spec p path) as [Heq|Hne]; simpl.
    - split; [|done]. split; [auto|]. intros _.
      apply java_retained_without_artifact.
    - destruct (Str.endsWith path p); simpl.
      + split; [|by intros _ []]. split; [auto|]. intros _.
        apply java_retained_without_artifact.
      + split; [|done]. split; [by intros [f ?]|]. by intros [?|?]. }
  split; [exact Hjava|]. split; [|split].
  - intros result path. split; [|split].
    + intros f H. pose proof (Hlua' _ _ _ H) as Hnone.
      rewrite (Hlua _ path _ Hnone) in H.
      destruct (String.eqb_spec (Neovim.filename f) path); by simplify_eq.
    + intros f H Hne. rewrite (Hlua _ path _ H).
      by destruct (String.eqb_spec (Neovim.filename f) path).
    + intros f H Heq. rewrite (Hlua _ path _ H).
      by destruct (String.eqb_spec (Neovim.filename f) path).
  - intros fromJson sarifJson path tool a b la ua lb ub Hdecode
      Hla Hua Hlb Hub Ha Hb Hb'.
    destruct (Hjava a la ua path Hla Hua) as [[_ Hkeep] _].
    destruct (Hkeep (or_introl Ha)) as [f Hf].
    destruct (Hjava b lb ub path Hlb Hub) as [_ Hdrop].
    exists f. split; [done|].
    unfold IntelliJ.parseFindings. rewrite Hdecode. simpl.
    by rewrite Hf, (Hdrop Hb Hb').
  - intros json_decode names sarif_json bufnr tool a b fa fb Hdecode
      Ha Hb Hfa Hfb.
    unfold Neovim.parse_sarif. rewrite Hdecode. simpl.
    rewrite (Hlua _ (names bufnr) _ Ha), (Hlua _ (names bufnr) _ Hb).
    destruct (String.eqb_spec (Neovim.filename fa) (names bufnr)); [|done].
    by destruct (String.eqb_spec (Neovim.filename fb) (names bufnr)).
Qed.

Lemma file_filter_witness :
  IntelliJ.parseFindings (Json.decodeOnly Samples.scenarioC)
    (Json.render Samples.scenarioC) "/w/a.sol"
  = [Samples.annotationA]
  /\ Neovim.parse_sarif (Json.decodeOnly Samples.scenarioC)
       Samples.workspaceNames (Json.render Samples.scenarioC) (Some 1%nat)
     = [Samples.entryA].
Proof.
  split.
  - destruct (proj1 (proj2 (proj2 file_filter))
                (Json.decodeOnly Samples.scenarioC)
                (Json.render Samples.scenarioC) "/w/a.sol"
                (Some {| driver := Some {| rules := Some [] |} |})
                Samples.inFileA Samples.inFileB
                (Samples.at_ "file:///w/a.sol" (Some (Samples.lineOnly 7)))
                "file:///w/a.sol"
                (Samples.at_ "file:///w/b.sol" (Some (Samples.lineOnly 2)))
                "file:///w/b.sol")
      as (f & Hf & ->);
      [by vm_compute | done | done | done | done | done | by vm_compute | |].
    + intros H. apply endsWith_iff in H. by vm_compute in H.
    + vm_compute in Hf. by simplify_eq.
  - apply (proj2 (proj2 (proj2 file_filter))
             (Json.decodeOnly Samples.scenarioC) Samples.workspaceNames
             (Json.render Samples.scenarioC) 1%nat
             (Some {| driver := Some {| rules := Some [] |} |})
             Samples.inFileA Samples.inFileB Samples.entryA
             {| Neovim.filename := "/w/b.sol"; Neovim.lnum := 2;
                Neovim.col := 1; Neovim.end_lnum := None;
                Neovim.level := "warning";
                Neovim.message := "tx.origin used";
                Neovim.rule_id := "TX-ORIGIN" |});
      by vm_compute.
Defined.

(** Vim's filter: [!stridx(filter, file)] is true exactly when the filter
    path starts with the path of the finding, so under a filter a finding
    is dropped exactly when its path is another one and a prefix of the
    filter path; a finding of any other file is kept. *)
Lemma vim_filter_keeps_other_files (result : SarifResultItem)
    (filter_file : string) (f : Vim.Finding) :
  Vim.ParseFinding result "" = Some f ->
  Vim.ParseFinding result filter_file
  = if negb (String.eqb filter_file "")
       && negb (String.eqb (Vim.filename f) filter_file)
       && String.prefix (Vim.filename f) filter_file
    then None else Some f.
Proof.
  assert (forall file, Vim.not_ (Vim.stridx filter_file file)
                       = String.prefix file filter_file) as Hprefix.
  { intros file. unfold Vim.not_, Vim.stridx.
    destruct filter_file as [|c rest]; cbn [String.index].
    - by destruct file.
    - destruct (String.prefix file (String c rest)); [done|].
      by destruct (String.index 0 file rest). }
  unfold Vim.ParseFinding.
  destruct (locations result) as [[|l ls]|]; try done.
  destruct (physicalLocation l) as [phys|]; [|done].
  rewrite !Hprefix. simpl.
  destruct (region phys); intros; simplify_eq/=;
    by destruct (negb _ && negb _ && _).
Qed.

Lemma vim_filter_keeps_other_files_witness :
  Vim.ParseFinding Samples.inFileB "/w/a.sol" = Some Samples.quickfixB.
Proof.
  exact (vim_filter_keeps_other_files Samples.inFileB "/w/a.sol"
           Samples.quickfixB eq_refl).
Defined.

(** C2 fails in Vim.  Scenario C, one report with a finding in each of
    two files, filtered by the path of the first file: both findings are
    returned. *)
Lemma vim_filter_returns_both_files :
  Vim.ParseSarif (Json.vimDecodeOnly Samples.scenarioC)
    (Json.render Samples.scenarioC) "/w/a.sol"
  = Vim.Returns [Samples.quickfixA; Samples.quickfixB].
Proof. by vm_compute. Qed.

(** ** Which runs, findings and locations are read *)

Lemma forLocations_paths item rules ls : forall acc out,
  VSCode.forLocations item rules ls acc = VSCode.Returned out ->
  out.*1
  = acc.*1
    ++ (Str.removeFirst "file://"
        <$> omap (fun l => VSCode.str_or (locationUri l) None) ls).
Proof.
  induction ls as [|l ls IH]; intros acc out; cbn [VSCode.forLocations].
  - intros [= <-]. simpl. by rewrite app_nil_r.
  - rewrite omap_cons.
    destruct (VSCode.diagnosticForLocation item rules l) as [[[p d]|]|e]
      eqn:Hl; [| |done].
    + apply diagnosticForLocation_Some in Hl as (u & Hu & Hne & -> & _).
      rewrite Hu, (str_or_text u None Hne).
      intros Hout. rewrite (IH _ _ Hout), fmap_app, fmap_cons.
      by rewrite <- (assoc_L (++)).
    + apply diagnosticForLocation_None in Hl. rewrite Hl. by apply IH.
Qed.

Lemma forLocations_all item rules ls : forall acc out,
  VSCode.forLocations item rules ls acc = VSCode.Returned out ->
  (forall e, e ∈ acc -> e ∈ out)
  /\ (forall location u,
        location ∈ ls -> locationUri location = Some u -> u <> "" ->
        exists d,
          (Str.removeFirst "file://" u, d) ∈ out
          /\ diagnosticAt item location d).
Proof.
  induction ls as [|l ls IH]; intros acc out; cbn [VSCode.forLocations].
  - intros [= <-]. split; [done|]. intros location u Hin. by apply elem_of_nil in Hin.
  - destruct (VSCode.diagnosticForLocation item rules l) as [[[p d]|]|err]
      eqn:Hl; [| |done]; intros Hout; destruct (IH _ _ Hout) as [Hacc Hrest].
    + split.
      * intros e' He'. apply Hacc, elem_of_app. by left.
      * intros location u Hin Huri Hu.
        apply elem_of_cons in Hin as [->|Hin]; [|by eapply Hrest].
        apply diagnosticForLocation_Some in Hl
          as (u' & Hu' & _ & -> & Hrange & _ & _ & Hsev & Hcode & _).
        rewrite Huri in Hu'. injection Hu' as <-.
        exists d. split; [|done].
        apply Hacc, elem_of_app. right. by apply list_elem_of_singleton.
    + split; [done|].
      intros location u Hin Huri Hu.
      apply elem_of_cons in Hin as [->|Hin]; [|by eapply Hrest].
      apply diagnosticForLocation_None in Hl.
      by rewrite Huri, (str_or_text u None Hu) in Hl.
Qed.

Lemma entriesOfItems_all rules items : forall es,
  entriesOfItems rules items = VSCode.Returned es ->
  forall item location u,
    item ∈ items -> location ∈ default [] (locations item) ->
    locationUri location = Some u -> u <> "" ->
    exists d,
      (Str.removeFirst "file://" u, d) ∈ es /\ diagnosticAt item location d.
Proof.
  induction items as [|i items IH]; intros es; cbn [entriesOfItems].
  - intros _ item location u Hin. by apply elem_of_nil in Hin.
  - destruct (VSCode.createDiagnosticsForResult i rules) as [ds|] eqn:Hi;
      [|done].
    destruct (entriesOfItems rules items) as [es'|]; [|done].
    intros [= <-] item location u Hin Hloc Huri Hu.
    apply elem_of_cons in Hin as [->|Hin].
    + destruct (forLocations_all _ _ _ _ _ Hi) as [_ Hall].
      destruct (Hall location u Hloc Huri Hu) as (d & Hd & Hat).
      exists d. split; [|done]. apply elem_of_app. by left.
    + destruct (IH es' eq_refl item location u Hin Hloc Huri Hu)
        as (d & Hd & Hat).
      exists d. split; [|done]. apply elem_of_app. by right.
Qed.

Lemma entriesOfRuns_all rs : forall es,
  entriesOfRuns rs = VSCode.Returned es ->
  forall run item location u,
    run ∈ rs -> item ∈ default [] (results run) ->
    location ∈ default [] (locations item) ->
    locationUri location = Some u -> u <> "" ->
    exists d,
      (Str.removeFirst "file://" u, d) ∈ es /\ diagnosticAt item location d.
Proof.
  induction rs as [|r rs IH]; intros es; cbn [entriesOfRuns].
  - intros _ run item location u Hin. by apply elem_of_nil in Hin.
  - destruct (entriesOfItems _ _) as [ds|] eqn:Hr; [|done].
    destruct (entriesOfRuns rs) as [es'|]; [|done].
    intros [= <-] run item location u Hin Hitem Hloc Huri Hu.
    apply elem_of_cons in Hin as [->|Hin].
    + destruct (entriesOfItems_all _ _ _ Hr item location u Hitem Hloc Huri Hu)
        as (d & Hd & Hat).
      exists d. split; [|done]. apply elem_of_app. by left.
    + destruct (IH es' eq_refl run item location u Hin Hitem Hloc Huri Hu)
        as (d & Hd & Hat).
      exists d. split; [|done]. apply elem_of_app. by right.
Qed.

(** The paths of the entries are the paths of the report. *)
Lemma entriesOfItems_paths rules items : forall es,
  entriesOfItems rules items = VSCode.Returned es ->
  es.*1 = flat_map shownPaths items.
Proof.
  induction items as [|i items IH]; intros es; cbn [entriesOfItems].
  - by intros [= <-].
  - destruct (VSCode.createDiagnosticsForResult i rules) as [ds|] eqn:Hi;
      [|done].
    destruct (entriesOfItems rules items) as [es'|]; [|done].
    intros [= <-]. rewrite fmap_app, (IH es' eq_refl). simpl. f_equal.
    unfold VSCode.createDiagnosticsForResult in Hi.
    by rewrite (forLocations_paths _ _ _ _ _ Hi).
Qed.

Lemma entriesOfRuns_paths rs : forall es,
  entriesOfRuns rs = VSCode.Returned es ->
  es.*1
  = flat_map (fun run => flat_map shownPaths (default [] (results run))) rs.
Proof.
  induction rs as [|r rs IH]; intros es; cbn [entriesOfRuns].
  - by intros [= <-].
  - destruct (entriesOfItems _ _) as [ds|] eqn:Hr; [|done].
    destruct (entriesOfRuns rs) as [es'|]; [|done].
    intros [= <-]. rewrite fmap_app, (IH es' eq_refl). simpl. f_equal.
    by apply entriesOfItems_paths in Hr.
Qed.

(** The two loops of [updateDiagnostics] push the entries of the report,
    in its order. *)
Lemma forResults_entries rules items : forall byUri,
  VSCode.forResults rules items byUri
  = match entriesOfItems rules items with
    | VSCode.Returned es =>
        VSCode.Returned (foldl VSCode.pushDiagnostic byUri es)
    | VSCode.Threw e => VSCode.Threw e
    end.
Proof.
  induction items as [|item items IH]; intros byUri; [done|].
  cbn [VSCode.forResults entriesOfItems].
  destruct (VSCode.createDiagnosticsForResult item rules) as [ds|]; [|done].
  rewrite IH. destruct (entriesOfItems rules items) as [es|]; [|done].
  by rewrite foldl_app.
Qed.

Lemma forRuns_entries rs : forall byUri,
  VSCode.forRuns rs byUri
  = match entriesOfRuns rs with
    | VSCode.Returned es =>
        VSCode.Returned (foldl VSCode.pushDiagnostic byUri es)
    | VSCode.Threw e => VSCode.Threw e
    end.
Proof.
  induction rs as [|run rs IH]; intros byUri; [done|].
  cbn [VSCode.forRuns entriesOfRuns]. rewrite forResults_entries.
  destruct (entriesOfItems _ _) as [ds|]; [|done].
  rewrite IH. destruct (entriesOfRuns rs) as [es|]; [|done].
  by rewrite foldl_app.
Qed.

(** *** The map of [updateDiagnostics] *)

Lemma firsts_snoc (l : list string) (k : string) :
  firsts (l ++ [k])
  = if decide (k ∈ firsts l) then firsts l else firsts l ++ [k].
Proof. unfold firsts. by rewrite foldl_app. Qed.

Lemma elem_of_firsts (l : list string) (k : string) :
  k ∈ firsts l <-> k ∈ l.
Proof.
  induction l as [|x l IH] using rev_ind; [done|].
  rewrite firsts_snoc, elem_of_app, list_elem_of_singleton.
  case_decide as Hx.
  - rewrite IH. split; [auto|]. intros [?| ->]; [done|]. by apply IH.
  - by rewrite elem_of_app, list_elem_of_singleton, IH.
Qed.

Lemma NoDup_firsts (l : list string) : NoDup (firsts l).
Proof.
  induction l as [|x l IH] using rev_ind; [constructor|].
  rewrite firsts_snoc. case_decide as Hx; [done|].
  apply NoDup_app. split; [done|]. split.
  - intros y Hy ->%list_elem_of_singleton. done.
  - apply NoDup_singleton.
Qed.

Lemma diagnosticsOf_snoc (p : string) es (e : string * VSCode.Diagnostic) :
  diagnosticsOf p (es ++ [e])
  = diagnosticsOf p es ++ (if decide (e.1 = p) then [e.2] else []).
Proof.
  unfold diagnosticsOf. rewrite filter_app, fmap_app. f_equal.
  rewrite filter_cons, filter_nil. by case_decide.
Qed.

Lemma diagnosticsOf_nil (p : string) es :
  p ∉ es.*1 -> diagnosticsOf p es = [].
Proof.
  intros Hp. unfold diagnosticsOf.
  induction es as [|e es IH]; [done|].
  rewrite filter_cons. rewrite fmap_cons, not_elem_of_cons in Hp.
  destruct Hp as [Hne Hp]. rewrite decide_False by done. by apply IH.
Qed.

Lemma pushDiagnostic_groups (F : list string)
    (f : string -> list VSCode.Diagnostic) (e : string * VSCode.Diagnostic) :
  NoDup F ->
  VSCode.pushDiagnostic ((fun p => (p, f p)) <$> F) e
  = if decide (e.1 ∈ F)
    then (fun p => (p, f p ++ (if decide (e.1 = p) then [e.2] else []))) <$> F
    else ((fun p => (p, f p)) <$> F) ++ [(e.1, [e.2])].
Proof.
  induction F as [|q F IH]; intros Hnd.
  - by rewrite decide_False by apply not_elem_of_nil.
  - apply NoDup_cons in Hnd as [Hq Hnd]. rewrite !fmap_cons.
    cbn [VSCode.pushDiagnostic fst snd].
    destruct (String.eqb_spec q e.1) as [->|Hne].
    + rewrite decide_True by (apply elem_of_cons; by left).
      rewrite decide_True by done. f_equal.
      apply list_fmap_ext. intros i p Hp.
      rewrite decide_False; [by rewrite app_nil_r|].
      intros <-. apply Hq. by eapply list_elem_of_lookup_2.
    + rewrite (IH Hnd). rewrite (decide_False (P := e.1 = q)) by done.
      rewrite app_nil_r.
      destruct (decide (e.1 ∈ F)) as [Hin|Hnin].
      * by rewrite decide_True by (apply elem_of_cons; by right).
      * rewrite decide_False; [done|].
        intros [?|?]%elem_of_cons; done.
Qed.

Lemma pushed_byPath es :
  foldl VSCode.pushDiagnostic [] es = byPath es.
Proof.
  induction es as [|e es IH] using rev_ind; [done|].
  rewrite foldl_app. cbn [foldl]. rewrite IH. unfold byPath.
  rewrite pushDiagnostic_groups by apply NoDup_firsts.
  rewrite fmap_app, fmap_cons, fmap_nil, firsts_snoc.
  destruct (decide (e.1 ∈ firsts es.*1)) as [Hin|Hnin].
  - apply list_fmap_ext. intros i p _. by rewrite diagnosticsOf_snoc.
  - rewrite fmap_app, fmap_cons, fmap_nil. f_equal.
    + apply list_fmap_ext. intros i p Hp.
      rewrite diagnosticsOf_snoc, decide_False; [by rewrite app_nil_r|].
      intros <-. apply Hnin. by eapply list_elem_of_lookup_2.
    + rewrite diagnosticsOf_snoc, decide_True by done.
      rewrite diagnosticsOf_nil; [done|]. by rewrite <- elem_of_firsts.
Qed.

Section SetAll.

Context (Uri_file : string -> VSCode.completion string).

(** What the collection holds after the last loop of [updateDiagnostics]
    has set every group: under a resource, the group of the last path
    that names it. *)
Lemma setAll_lookup (g : list (string * list VSCode.Diagnostic)) :
  forall c0 c,
    VSCode.setAll Uri_file g c0 = (VSCode.Returned tt, c) ->
    forall k,
      c !! k
      = match last (filter (fun x => Uri_file x.1 = VSCode.Returned k) g) with
        | Some x => Some x.2
        | None => c0 !! k
        end.
Proof.
  induction g as [|[q ds] g IH]; intros c0 c; cbn [VSCode.setAll].
  - by intros [= <-].
  - destruct (Uri_file q) as [uri|] eqn:Hq; [|done].
    intros Hset k. rewrite (IH _ _ Hset k), filter_cons. cbn [fst].
    rewrite Hq. destruct (decide (uri = k)) as [->|Hne].
    + rewrite decide_True by done.
      destruct (filter _ g) as [|x l] eqn:Hf; simpl.
      * by rewrite lookup_insert_eq.
      * by destruct (last (x :: l)) eqn:E; [|apply last_None in E].
    + rewrite decide_False by congruence.
      by rewrite lookup_insert_ne.
Qed.

Lemma setAll_returns (g : list (string * list VSCode.Diagnostic)) :
  forall c0,
    (exists c, VSCode.setAll Uri_file g c0 = (VSCode.Returned tt, c))
    <-> forall x, x ∈ g -> exists k, Uri_file x.1 = VSCode.Returned k.
Proof.
  induction g as [|[q ds] g IH]; intros c0; cbn [VSCode.setAll].
  - split; [|eauto]. intros _ x Hx. by apply elem_of_nil in Hx.
  - destruct (Uri_file q) as [uri|] eqn:Hq.
    + rewrite IH. split.
      * intros Hg x [->|Hx]%elem_of_cons; [eauto|by apply Hg].
      * intros Hg x Hx. apply Hg, elem_of_cons. by right.
    + split; [by intros [c ?]|]. intros Hg.
      destruct (Hg (q, ds)) as [k Hk]; [apply elem_of_cons; by left|].
      simpl in Hk. congruence.
Qed.

Lemma setAll_throws (g : list (string * list VSCode.Diagnostic)) :
  forall c0,
    (exists e c, VSCode.setAll Uri_file g c0 = (VSCode.Threw e, c))
    <-> exists x e, x ∈ g /\ Uri_file x.1 = VSCode.Threw e.
Proof.
  induction g as [|[q ds] g IH]; intros c0; cbn [VSCode.setAll].
  - split; [by intros (? & ? & ?)|]. by intros (? & ? & ?%elem_of_nil & _).
  - destruct (Uri_file q) as [uri|e'] eqn:Hq.
    + rewrite IH. split.
      * intros (x & e & Hx & He). exists x, e.
        split; [apply elem_of_cons; by right|done].
      * intros (x & e & [->|Hx]%elem_of_cons & He); [|eauto].
        simpl in He. congruence.
    + split; [|eauto]. intros _. exists (q, ds), e'.
      split; [apply elem_of_cons; by left|done].
Qed.

(** Under a resource that only one path of the report names stand the
    diagnostics of that path. *)
Lemma setAll_own_resource es c p k :
  VSCode.setAll Uri_file (byPath es) ∅ = (VSCode.Returned tt, c) ->
  p ∈ es.*1 ->
  Uri_file p = VSCode.Returned k ->
  (forall q, q ∈ es.*1 -> Uri_file q = Uri_file p -> q = p) ->
  c !! k = Some (diagnosticsOf p es).
Proof.
  intros Hset Hp Hk Honly. rewrite (setAll_lookup _ _ _ Hset k).
  assert (forall x,
            x ∈ filter (fun x => Uri_file x.1 = VSCode.Returned k) (byPath es)
            -> x = (p, diagnosticsOf p es)) as Hall.
  { intros x [Hx Hin]%list_elem_of_filter. unfold byPath in Hin.
    apply list_elem_of_fmap in Hin as (q & -> & Hq). simpl in Hx.
    rewrite elem_of_firsts in Hq.
    by rewrite (Honly q Hq) by congruence. }
  assert ((p, diagnosticsOf p es)
          ∈ filter (fun x => Uri_file x.1 = VSCode.Returned k) (byPath es))
    as Hin.
  { apply list_elem_of_filter. split; [done|]. unfold byPath.
    apply list_elem_of_fmap. exists p. split; [done|].
    by apply elem_of_firsts. }
  destruct (last (filter _ (byPath es))) as [x|] eqn:Hlast.
  - apply last_Some_elem_of in Hlast. by rewrite (Hall x Hlast).
  - apply last_None in Hlast. rewrite Hlast in Hin.
    by apply elem_of_nil in Hin.
Qed.

End SetAll.

Lemma elem_of_flat_map {A B} (g : A -> list B) (l : list A) (y : B) :
  y ∈ flat_map g l <-> exists x, x ∈ l /\ y ∈ g x.
Proof.
  induction l as [|a l IH]; simpl.
  - split; [by intros ?%elem_of_nil|by intros (x & ?%elem_of_nil & _)].
  - rewrite elem_of_app, IH. split.
    + intros [H|(x & Hx & Hy)].
      * exists a. split; [apply elem_of_cons; by left|done].
      * exists x. split; [apply elem_of_cons; by right|done].
    + intros (x & [->|Hx]%elem_of_cons & Hy); [by left|].
      right. by exists x.
Qed.

Lemma java_forResults_no_exception path items : forall findings,
  (forall r, r ∈ items ->
     IntelliJ.parseFinding r path <> IntelliJ.Exception) ->
  IntelliJ.forResults items path findings
  = findings
    ++ omap (fun r =>
               match IntelliJ.parseFinding r path with
               | IntelliJ.Normal o => o
               | IntelliJ.Exception => None
               end) items.
Proof.
  induction items as [|r items IH]; intros findings Hok.
  - simpl. by rewrite app_nil_r.
  - cbn [IntelliJ.forResults]. rewrite omap_cons.
    assert (forall r', r' ∈ items ->
              IntelliJ.parseFinding r' path <> IntelliJ.Exception) as Hrest
      by (intros r' Hr'; apply Hok, elem_of_cons; by right).
    destruct (IntelliJ.parseFinding r path) as [[f|]|] eqn:Hr.
    + rewrite (IH _ Hrest). by rewrite <- (assoc_L (++)).
    + by apply IH.
    + exfalso. apply (Hok r); [apply elem_of_cons; by left|done].
Qed.

(** C1, as the code has it.  VS Code reads every run, every finding of a
    run and every location of a finding: when [updateDiagnostics] does
    not throw, each location with a non-empty artifact URI has a
    diagnostic under the resource of its path, with or without a region,
    provided that no other path of the report names the same resource;
    and a finding gets one diagnostic for each such location, in their
    order.  Neovim
    reads every run and every finding, and of a finding its first location
    only: the findings returned are those that [parse_finding] makes of
    the findings of the report, cutting a finding down to its first
    location changes nothing, and without a file filter a first location
    that has a [physicalLocation] always gives a finding.  IntelliJ reads
    the first run only, every finding of it while none throws, and of a
    finding its first location only. *)
Theorem runs_findings_locations_read :
  (forall Uri_file result shown c,
     VSCode.updateDiagnostics Uri_file result shown
     = (VSCode.Returned tt, c) ->
     forall run item location u,
       run ∈ default [] (runs result) ->
       item ∈ default [] (results run) ->
       location ∈ default [] (locations item) ->
       locationUri location = Some u -> u <> "" ->
       let p := Str.removeFirst "file://" u in
       (forall q, q ∈ reportPaths result -> Uri_file q = Uri_file p ->
                  q = p) ->
       exists k d,
         Uri_file p = VSCode.Returned k
         /\ d ∈ default [] (c !! k)
         /\ diagnosticAt item location d)
  /\ (forall item rules out,
        VSCode.createDiagnosticsForResult item rules = VSCode.Returned out ->
        out.*1
        = Str.removeFirst "file://"
          <$> omap (fun l => VSCode.str_or (locationUri l) None)
                (default [] (locations item)))
  /\ (forall json_decode names sarif_json filter_bufnr f,
        f ∈ Neovim.parse_sarif json_decode names sarif_json filter_bufnr
        <-> exists sarif run item,
              json_decode sarif_json = Some sarif
              /\ run ∈ default [] (runs sarif)
              /\ item ∈ default [] (results run)
              /\ Neovim.parse_finding item (names <$> filter_bufnr) = Some f)
  /\ (forall result filter_file,
        Neovim.parse_finding result filter_file
        = Neovim.parse_finding (firstLocationOnly result) filter_file)
  /\ (forall result location phys,
        firstLocation result = Some location ->
        physicalLocation location = Some phys ->
        exists f,
          Neovim.parse_finding result None = Some f
          /\ Neovim.lnum f = default 1 (region phys ≫= startLine)
          /\ Neovim.col f = default 1 (region phys ≫= startColumn)
          /\ Neovim.end_lnum f = region phys ≫= endLine)
  /\ (forall fromJson sarifJson filePath,
        IntelliJ.parseFindings fromJson sarifJson filePath
        = IntelliJ.parseFindings (fun s => firstRunOnly <$> fromJson s)
            sarifJson filePath)
  /\ (forall result path,
        IntelliJ.parseFinding result path
        = IntelliJ.parseFinding (firstLocationOnly result) path)
  /\ (forall fromJson sarifJson filePath sarif run others items,
        fromJson sarifJson = Some sarif ->
        runs sarif = Some (run :: others) ->
        results run = Some items ->
        (forall r, r ∈ items ->
           IntelliJ.parseFinding r filePath <> IntelliJ.Exception) ->
        forall f,
          f ∈ IntelliJ.parseFindings fromJson sarifJson filePath
          <-> exists item,
                item ∈ items
                /\ IntelliJ.parseFinding item filePath
                   = IntelliJ.Normal (Some f)).
Proof.
  split; [|split; [|split; [|split; [|split; [|split; [|split]]]]]].
  - intros Uri_file result shown c. unfold VSCode.updateDiagnostics.
    rewrite forRuns_entries.
    destruct (entriesOfRuns (default [] (runs result))) as [es|] eqn:Hes;
      [|done].
    rewrite pushed_byPath. intros Hset run item location u Hrun Hitem Hloc
      Huri Hu. set (p := Str.removeFirst "file://" u). intros Honly.
    destruct (entriesOfRuns_all _ _ Hes run item location u Hrun Hitem Hloc
                Huri Hu) as (d & Hd & Hat).
    fold p in Hd.
    assert (p ∈ es.*1) as Hp
      by (apply list_elem_of_fmap; by exists (p, d)).
    assert (es.*1 = reportPaths result) as Hpaths
      by (by apply entriesOfRuns_paths).
    assert (exists k, Uri_file p = VSCode.Returned k) as [k Hk].
    { assert (exists c, VSCode.setAll Uri_file (byPath es) ∅
                        = (VSCode.Returned tt, c)) as Hret by eauto.
      pose proof (proj1 (setAll_returns Uri_file (byPath es) ∅) Hret)
        as Hall.
      destruct (Hall (p, diagnosticsOf p es)) as [k Hk]; [|by exists k].
      unfold byPath. apply list_elem_of_fmap. exists p. split; [done|].
      by apply elem_of_firsts. }
    exists k, d. split; [done|]. split; [|done].
    rewrite (setAll_own_resource Uri_file es c p k Hset Hp Hk);
      [|by rewrite Hpaths].
    simpl. unfold diagnosticsOf. apply list_elem_of_fmap.
    exists (p, d). split; [done|]. by apply list_elem_of_filter.
  - intros item rules out Hout.
    by rewrite (forLocations_paths _ _ _ _ _ Hout).
  - intros json_decode names sarif_json filter_bufnr f.
    unfold Neovim.parse_sarif.
    destruct (json_decode sarif_json) as [sarif|]; simpl.
    + destruct (runs sarif) as [rs|] eqn:Hrs; simpl.
      * rewrite elem_of_flat_map. split.
        -- intros (run & Hrun & Hf). exists sarif, run.
           destruct (results run) as [items|] eqn:Hitems;
             [|by apply elem_of_nil in Hf].
           apply list_elem_of_omap in Hf as (item & Hitem & Hf).
           exists item. by rewrite Hrs.
        -- intros (sarif' & run & item & [= <-] & Hrun & Hitem & Hf).
           rewrite Hrs in Hrun. exists run. split; [done|].
           destruct (results run) as [items|]; [|by apply elem_of_nil in Hitem].
           apply list_elem_of_omap. by exists item.
      * split; [by intros ?%elem_of_nil|].
        intros (sarif' & run & item & [= <-] & Hrun & _).
        rewrite Hrs in Hrun. by apply elem_of_nil in Hrun.
    + split; [by intros ?%elem_of_nil|]. by intros (? & ? & ? & ? & _).
  - intros result filter_file. unfold Neovim.parse_finding, firstLocationOnly.
    simpl. by destruct (locations result) as [[|l ls]|].
  - intros result location phys Hfirst Hphys. unfold firstLocation in Hfirst.
    unfold Neovim.parse_finding.
    destruct (locations result) as [[|l ls]|]; simplify_eq/=.
    rewrite Hphys. destruct (region phys); simpl; eauto.
  - intros fromJson sarifJson filePath. unfold IntelliJ.parseFindings.
    destruct (fromJson sarifJson) as [sarif|]; [|done]. simpl.
    by destruct (runs sarif) as [[|run rs]|].
  - intros result path. unfold IntelliJ.parseFinding, firstLocationOnly.
    simpl. by destruct (locations result) as [[|l ls]|].
  - intros fromJson sarifJson filePath sarif run others items
      Hdecode Hruns Hitems Hok f.
    unfold IntelliJ.parseFindings. rewrite Hdecode, Hruns, Hitems.
    rewrite (java_forResults_no_exception _ _ [] Hok), (left_id_L [] (++)).
    rewrite list_elem_of_omap. split.
    + intros (item & Hitem & Hf). exists item. split; [done|].
      by destruct (IntelliJ.parseFinding item filePath) as [o|]; simplify_eq.
    + intros (item & Hitem & Hf). exists item. by rewrite Hf.
Qed.

Lemma runs_findings_locations_read_witness :
  exists k d,
    Samples.fileUri "/c.sol" = VSCode.Returned k
    /\ d ∈ default []
            ((VSCode.updateDiagnostics Samples.fileUri
                Samples.twoPlacesReport ∅).2 !! k)
    /\ diagnosticAt Samples.twoPlaces
         (Samples.at_ "file:///c.sol" (Some (Samples.lineOnly 20))) d.
Proof.
  apply (proj1 runs_findings_locations_read Samples.fileUri
           Samples.twoPlacesReport ∅
           (VSCode.updateDiagnostics Samples.fileUri
              Samples.twoPlacesReport ∅).2 eq_refl
           {| tool := Some {| driver := Some {| rules := Some [] |} |};
              results := Some [Samples.twoPlaces] |}
           Samples.twoPlaces
           (Samples.at_ "file:///c.sol" (Some (Samples.lineOnly 20)))
           "file:///c.sol").
  - apply list_elem_of_singleton. reflexivity.
  - apply list_elem_of_singleton. reflexivity.
  - apply elem_of_cons. right. apply list_elem_of_singleton. reflexivity.
  - reflexivity.
  - discriminate.
  - intros q Hq _. vm_compute in Hq.
    apply elem_of_cons in Hq as [->|Hq]; [reflexivity|].
    apply list_elem_of_singleton in Hq. by subst q.
Defined.

(** C1 as stated fails in two ways.  Neovim returns one finding for a
    finding with two locations that both have an artifact URI and a
    region; IntelliJ returns the finding of the first run alone for a
    report of two runs that each hold a finding of the scanned file. *)
Lemma runs_findings_locations_read_counterexample :
  Neovim.parse_sarif (Json.decodeOnly Samples.twoPlacesReport) Samples.names
    (Json.render Samples.twoPlacesReport) None
  = [Samples.twoPlacesEntry]
  /\ IntelliJ.parseFindings (Json.decodeOnly Samples.twoRuns)
       (Json.render Samples.twoRuns) "/c.sol"
     = [Samples.reentrancyAnnotation].
Proof. split; by vm_compute. Qed.

(** ** Scans that fail *)

(** In Neovim the diagnostics left by [scan_current_file] do not depend
    on the exit code: the buffered output is handed to [process_results],
    which clears the namespace first, whatever the job returns. *)
Lemma neovim_output_parsed_whatever_the_exit_code
    (json_decode : string -> option SarifResult) (data : list string)
    (exit_code : Z) (ed : Neovim.Editor) :
  Neovim.diagnostics (Neovim.scan_current_file json_decode data exit_code ed)
  = Neovim.diagnostics (Neovim.scan_current_file json_decode data 0 ed).
Proof.
  unfold Neovim.scan_current_file, Neovim.on_exit.
  destruct (_ || _); [done|]. simpl.
  by destruct (negb (exit_code =? 0) && negb (exit_code =? 1)).
Qed.

(** C5 fails in Neovim.  The scanner ends with exit code 2 and no output
    (the buffered output is the one empty line); the diagnostic of the
    earlier scan is cleared, the empty text is given to the parser, and
    the user is told both that no issues were found and that the scan
    failed. *)
Lemma failed_scan_clears_diagnostics :
  Neovim.diagnostics Samples.afterGoodScan
  = {[ 1%nat := [Samples.staleDiagnostic] ]}
  /\ Neovim.diagnostics
       (Neovim.scan_current_file (Json.decodeOnly Samples.scenarioA) [""] 2
          Samples.afterGoodScan)
     = ∅
  /\ Neovim.notifications
       (Neovim.scan_current_file (Json.decodeOnly Samples.scenarioA) [""] 2
          Samples.afterGoodScan)
     = [("BlockSecOps: Scanning...", Neovim.LvlInfo);
        ("BlockSecOps: No issues found", Neovim.LvlInfo);
        ("BlockSecOps: Scan failed with exit code 2", Neovim.LvlError)].
Proof. split; [done|]. split; by vm_compute. Qed.

(** What C5 asks holds in VS Code and IntelliJ.  VS Code: for an exit
    code other than 0 and 1 the outcome does not depend on the parser, the
    failure is written to the output channel, the status bar shows the
    error mark and the diagnostics stay as they were.  IntelliJ: the
    annotator returns [null] and the scan action shows an error balloon
    without handing the text to the results service. *)
Theorem failed_scan_keeps_diagnostics :
  (forall JSON_parse Uri_file cliPath fsPath code stdout stderr ed,
     code <> Some 0 -> code <> Some 1 ->
     let after :=
       VSCode.scanCurrentFile JSON_parse Uri_file cliPath fsPath
         (VSCode.Close code stdout stderr) ed in
     VSCode.diagnosticCollection after = VSCode.diagnosticCollection ed
     /\ VSCode.statusBarText after = "$(error) BlockSecOps"
     /\ last (VSCode.outputChannel after)
        = Some ("Scan failed with exit code: " +:+ VSCode.prettyCode code)
     /\ forall JSON_parse' Uri_file',
          VSCode.scanCurrentFile JSON_parse' Uri_file' cliPath fsPath
            (VSCode.Close code stdout stderr) ed
          = after)
  /\ (forall fromJson filePath exitCode stdout,
        exitCode <> 0 -> exitCode <> 1 ->
        IntelliJ.doAnnotate fromJson filePath exitCode stdout = None)
  /\ (forall project output exitCode,
        exitCode <> 0 -> exitCode <> 1 ->
        IntelliJ.handleScanResult project output exitCode
        = IntelliJ.showNotification
            ("Scan failed with exit code: " +:+ pretty exitCode)
            IntelliJ.ERROR project).
Proof.
  split; [|split].
  - intros JSON_parse Uri_file cliPath fsPath code stdout stderr ed H0 H1
      after.
    subst after. unfold VSCode.scanCurrentFile, VSCode.runScan, VSCode.onClose.
    rewrite !bool_decide_eq_false_2 by done. simpl.
    repeat split.
    + by destruct (String.eqb stderr "").
    + by rewrite last_snoc.
  - intros fromJson filePath exitCode stdout H0 H1.
    unfold IntelliJ.doAnnotate.
    by destruct (Z.eqb_spec exitCode 0), (Z.eqb_spec exitCode 1).
  - intros project output exitCode H0 H1.
    unfold IntelliJ.handleScanResult.
    by destruct (Z.eqb_spec exitCode 0), (Z.eqb_spec exitCode 1).
Qed.

Lemma failed_scan_keeps_diagnostics_witness :
  VSCode.diagnosticCollection
    (VSCode.scanCurrentFile Samples.notJson
       Samples.fileUri
       "blocksecops" "/c.sol" (VSCode.Close (Some 2) "" "not authenticated")
       Samples.vscodeAfterGoodScan)
  = Samples.staleCollection
  /\ IntelliJ.doAnnotate (Json.decodeOnly Samples.scenarioA) "/c.sol" 2 ""
     = None.
Proof.
  split.
  - exact (proj1 (proj1 failed_scan_keeps_diagnostics
             Samples.notJson Samples.fileUri
             "blocksecops" "/c.sol"
             (Some 2) "" "not authenticated" Samples.vscodeAfterGoodScan
             ltac:(discriminate) ltac:(discriminate))).
  - apply (proj1 (proj2 failed_scan_keeps_diagnostics)); discriminate.
Defined.

(** * Further properties *)

(** ** VS Code: what the collection holds *)

Lemma entriesOfItems_length rules items es :
  entriesOfItems rules items = VSCode.Returned es ->
  length es = sum_list ((fun item => length (shownUris item)) <$> items).
Proof.
  revert es. induction items as [|item items IH]; intros es.
  - by intros [= <-].
  - cbn [entriesOfItems].
    destruct (VSCode.createDiagnosticsForResult item rules) as [ds|] eqn:Hd;
      [|done].
    destruct (entriesOfItems rules items) as [es'|]; [|done].
    intros [= <-]. rewrite length_app, fmap_cons. simpl.
    rewrite (IH es' eq_refl). f_equal.
    unfold VSCode.createDiagnosticsForResult in Hd.
    apply forLocations_paths in Hd. simpl in Hd.
    apply (f_equal length) in Hd. by rewrite !length_fmap in Hd.
Qed.

Lemma entriesOfRuns_length rs es :
  entriesOfRuns rs = VSCode.Returned es ->
  length es = shownLocations {| runs := Some rs |}.
Proof.
  unfold shownLocations. simpl.
  revert es. induction rs as [|run rs IH]; intros es.
  - by intros [= <-].
  - cbn [entriesOfRuns].
    destruct (entriesOfItems _ _) as [ds|] eqn:Hd; [|done].
    destruct (entriesOfRuns rs) as [es'|]; [|done].
    intros [= <-]. rewrite length_app, fmap_cons. simpl.
    by rewrite (IH es' eq_refl), (entriesOfItems_length _ _ _ Hd).
Qed.

Lemma diagnosticsOf_not_nil (p : string) es :
  p ∈ es.*1 -> diagnosticsOf p es <> [].
Proof.
  intros ([q d] & -> & Hin)%list_elem_of_fmap Hnil. simpl in Hnil.
  assert (d ∈ diagnosticsOf q es) as Hd.
  { unfold diagnosticsOf. apply list_elem_of_fmap. exists (q, d).
    split; [done|]. by apply list_elem_of_filter. }
  rewrite Hnil in Hd. by apply elem_of_nil in Hd.
Qed.

(** When [updateDiagnostics] returns, as many diagnostics were created as
    the report has locations with a non-empty artifact URI, one for each
    path of the report in its order, and [Uri.file] has refused none of
    the paths.  Under a resource the collection holds the diagnostics of
    one path, in report order: of the paths that name the resource, the
    one that occurs first in the report later than the others do.  A path
    that shares its resource with no other path of the report therefore
    has all its diagnostics under it. *)
Theorem diagnostics_grouped_by_path
    (Uri_file : string -> VSCode.completion string) (result : SarifResult)
    (shown c : gmap string (list VSCode.Diagnostic)) :
  VSCode.updateDiagnostics Uri_file result shown = (VSCode.Returned tt, c) ->
  exists es,
    entriesOfRuns (default [] (runs result)) = VSCode.Returned es
    /\ length es = shownLocations result
    /\ es.*1 = reportPaths result
    /\ (forall p, p ∈ es.*1 -> exists k, Uri_file p = VSCode.Returned k)
    /\ (forall k,
          c !! k
          = match last (filter (fun g => Uri_file g.1 = VSCode.Returned k)
                          (byPath es)) with
            | Some g => Some g.2
            | None => None
            end)
    /\ (forall p k,
          p ∈ es.*1 -> Uri_file p = VSCode.Returned k ->
          (forall q, q ∈ es.*1 -> Uri_file q = Uri_file p -> q = p) ->
          c !! k = Some (diagnosticsOf p es) /\ diagnosticsOf p es <> []).
Proof.
  unfold VSCode.updateDiagnostics. rewrite forRuns_entries.
  destruct (entriesOfRuns (default [] (runs result))) as [es|] eqn:Hes;
    [|done].
  rewrite pushed_byPath. intros Hset. exists es.
  split; [done|]. split; [|split; [|split; [|split]]].
  - rewrite (entriesOfRuns_length _ _ Hes). unfold shownLocations. simpl.
    by destruct (runs result).
  - by apply entriesOfRuns_paths.
  - intros p Hp.
    assert (exists c, VSCode.setAll Uri_file (byPath es) ∅
                      = (VSCode.Returned tt, c)) as Hret by eauto.
    pose proof (proj1 (setAll_returns Uri_file (byPath es) ∅) Hret) as Hall.
    apply (Hall (p, diagnosticsOf p es)). unfold byPath.
    apply list_elem_of_fmap. exists p. split; [done|].
    by apply elem_of_firsts.
  - intros k. rewrite (setAll_lookup _ _ _ _ Hset k).
    by rewrite lookup_empty.
  - intros p k Hp Hk Honly. split; [|by apply diagnosticsOf_not_nil].
    by apply (setAll_own_resource Uri_file es c p k).
Qed.

Lemma diagnostics_grouped_by_path_witness :
  exists es,
    entriesOfRuns (default [] (runs Samples.twoPlacesReport))
    = VSCode.Returned es
    /\ length es = shownLocations Samples.twoPlacesReport
    /\ es.*1 = reportPaths Samples.twoPlacesReport
    /\ (VSCode.updateDiagnostics Samples.fileUri Samples.twoPlacesReport ∅).2
       !! "file:///c.sol"
       = Some (diagnosticsOf "/c.sol" es).
Proof.
  destruct (diagnostics_grouped_by_path Samples.fileUri
              Samples.twoPlacesReport ∅
              (VSCode.updateDiagnostics Samples.fileUri
                 Samples.twoPlacesReport ∅).2 eq_refl)
    as (es & Hes & Hlen & Hpaths & _ & _ & Hown).
  exists es. split; [exact Hes|]. split; [exact Hlen|].
  split; [exact Hpaths|].
  apply (Hown "/c.sol" "file:///c.sol").
  - rewrite Hpaths. apply elem_of_cons. by left.
  - reflexivity.
  - rewrite Hpaths. intros q Hq _. vm_compute in Hq.
    apply elem_of_cons in Hq as [->|Hq]; [reflexivity|].
    apply list_elem_of_singleton in Hq. by subst q.
Defined.

(** Two spellings of one file: the diagnostic of the first finding is
    replaced by that of the second. *)
Example two_spellings_of_one_file :
  shownLocations MoreSamples.twoSpellings = 2%nat
  /\ (VSCode.updateDiagnostics Samples.fileUri MoreSamples.twoSpellings ∅).2
     = {[ "file:///a.sol" :=
            [ {| VSCode.range :=
                   {| VSCode.range_start :=
                        {| VSCode.line := 1; VSCode.character := 0 |};
                      VSCode.range_end :=
                        {| VSCode.line := 1; VSCode.character := 998 |} |};
                 VSCode.message := Some "tx.origin used";
                 VSCode.severity := VSCode.Warning;
                 VSCode.source := "blocksecops";
                 VSCode.code := Some "TX-ORIGIN" |} ] ]}.
Proof. split; by vm_compute. Qed.

(** ** VS Code: when [updateDiagnostics] throws *)

Lemma forLocations_throws item rules ls : forall acc,
  (exists e, VSCode.forLocations item rules ls acc = VSCode.Threw e)
  <-> exists l e,
        l ∈ ls /\ VSCode.diagnosticForLocation item rules l = VSCode.Threw e.
Proof.
  induction ls as [|l ls IH]; intros acc; cbn [VSCode.forLocations].
  - split; [by intros [e ?]|]. by intros (? & ? & ?%elem_of_nil & _).
  - destruct (VSCode.diagnosticForLocation item rules l) as [[d|]|e] eqn:Hl.
    + rewrite IH. split.
      * intros (l' & e & Hin & He). exists l', e.
        split; [apply elem_of_cons; by right|done].
      * intros (l' & e & [->|Hin]%elem_of_cons & He); [congruence|eauto].
    + rewrite IH. split.
      * intros (l' & e & Hin & He). exists l', e.
        split; [apply elem_of_cons; by right|done].
      * intros (l' & e & [->|Hin]%elem_of_cons & He); [congruence|eauto].
    + split; [|eauto]. intros _. exists l, e.
      split; [apply elem_of_cons; by left|done].
Qed.

Lemma createDiagnostics_throws item rules :
  (exists e, VSCode.createDiagnosticsForResult item rules = VSCode.Threw e)
  <-> unreadable rules item.
Proof.
  unfold VSCode.createDiagnosticsForResult, unreadable.
  rewrite forLocations_throws. split.
  - intros (l & e & Hin & He).
    assert (exists e, VSCode.diagnosticForLocation item rules l
                      = VSCode.Threw e) as Hthrows by eauto.
    apply diagnosticForLocation_throws in Hthrows as (u & ? & ? & ?).
    by exists l, u.
  - intros (l & u & Hin & Hu & Hne & Hbad).
    assert (exists e, VSCode.diagnosticForLocation item rules l
                      = VSCode.Threw e) as [e He]
      by (apply diagnosticForLocation_throws; eauto).
    by exists l, e.
Qed.

Lemma entriesOfItems_throws rules items :
  (exists e, entriesOfItems rules items = VSCode.Threw e)
  <-> exists item, item ∈ items /\ unreadable rules item.
Proof.
  induction items as [|item items IH]; cbn [entriesOfItems].
  - split; [by intros [e ?]|]. by intros (? & ?%elem_of_nil & _).
  - pose proof (createDiagnostics_throws item rules) as Hitem.
    destruct (VSCode.createDiagnosticsForResult item rules) as [ds|e'].
    + destruct (entriesOfItems rules items) as [es|e''].
      * split; [by intros [e ?]|].
        intros (i & [->|Hi]%elem_of_cons & Hbad).
        -- apply Hitem in Hbad as [e ?]. done.
        -- assert (exists e, @VSCode.Returned
                     (list (string * VSCode.Diagnostic)) es = VSCode.Threw e)
             as [e ?] by (apply IH; eauto). done.
      * split; [|eauto]. intros _.
        destruct (proj1 IH) as (i & Hi & Hbad); [eauto|].
        exists i. split; [apply elem_of_cons; by right|done].
    + split; [|eauto]. intros _. exists item.
      split; [apply elem_of_cons; by left|]. apply Hitem. eauto.
Qed.

Lemma entriesOfRuns_throws rs :
  (exists e, entriesOfRuns rs = VSCode.Threw e)
  <-> exists run item,
        run ∈ rs /\ item ∈ default [] (results run)
        /\ unreadable (runRules run) item.
Proof.
  induction rs as [|run rs IH]; cbn [entriesOfRuns].
  - split; [by intros [e ?]|]. by intros (? & ? & ?%elem_of_nil & _).
  - pose proof (entriesOfItems_throws (runRules run)
                  (default [] (results run))) as Hrun.
    unfold runRules in Hrun at 1.
    destruct (entriesOfItems _ _) as [ds|e'].
    + destruct (entriesOfRuns rs) as [es|e''].
      * split; [by intros [e ?]|].
        intros (r & i & [->|Hr]%elem_of_cons & Hi & Hbad).
        -- destruct (proj2 Hrun) as [e ?]; [eauto|done].
        -- assert (exists e, @VSCode.Returned
                     (list (string * VSCode.Diagnostic)) es = VSCode.Threw e)
             as [e ?] by (apply IH; eauto 10). done.
      * split; [|eauto]. intros _.
        destruct (proj1 IH) as (r & i & Hr & Hi & Hbad); [eauto|].
        exists r, i. split; [apply elem_of_cons; by right|done].
    + split; [|eauto]. intros _.
      destruct (proj1 Hrun) as (i & Hi & Hbad); [eauto|].
      exists run, i. split; [apply elem_of_cons; by left|done].
Qed.

(** A finding without a message object whose regions all have a range:
    what is thrown is the [TypeError] of reading [text] of
    [undefined]. *)
Lemma forLocations_no_message item rules ls : forall acc,
  Sarif.message item = None ->
  (forall l, l ∈ ls -> ~ negativeRange (locationRegion l)) ->
  omap (fun l => VSCode.str_or (locationUri l) None) ls <> [] ->
  VSCode.forLocations item rules ls acc
  = VSCode.Threw
      "TypeError: Cannot read properties of undefined (reading 'text')".
Proof.
  intros acc Hm. revert acc.
  induction ls as [|l ls IH]; intros acc Hrange Hshown; [done|].
  cbn [VSCode.forLocations]. rewrite omap_cons in Hshown.
  assert (forall l', l' ∈ ls -> ~ negativeRange (locationRegion l'))
    as Hrest by (intros l' Hl'; apply Hrange, elem_of_cons; by right).
  unfold VSCode.diagnosticForLocation.
  fold (locationUri l). fold (locationRegion l).
  destruct (VSCode.str_or (locationUri l) None) as [u|]; [|by apply IH].
  destruct (VSCode.regionRange (locationRegion l)) as [r|e] eqn:Hr.
  - unfold VSCode.resolveMessage. by rewrite Hm.
  - exfalso. apply (Hrange l); [apply elem_of_cons; by left|].
    apply regionRange_throws. eauto.
Qed.

(** [updateDiagnostics] throws exactly when some finding of the report
    is unreadable, that is, has a location that is not skipped and either
    a region with a negative range among these or no message to show, or
    when [Uri.file] refuses a path of the report.  An unreadable finding
    leaves the collection empty: neither the earlier diagnostics nor those
    of the other findings are shown.  [scanCurrentFile] then ends with the
    error mark in the status bar and the error as the last line of the
    output channel; for a finding without a message object whose regions
    have a range, the error is the [TypeError] of reading [text] of
    [undefined]. *)
Theorem one_unreadable_finding_empties_the_collection :
  (forall Uri_file result shown,
     (exists e c,
        VSCode.updateDiagnostics Uri_file result shown = (VSCode.Threw e, c))
     <-> (exists run item,
            run ∈ default [] (runs result)
            /\ item ∈ default [] (results run)
            /\ unreadable (runRules run) item)
         \/ (exists p e,
               p ∈ reportPaths result /\ Uri_file p = VSCode.Threw e))
  /\ (forall Uri_file result shown e c,
        VSCode.updateDiagnostics Uri_file result shown = (VSCode.Threw e, c) ->
        (exists run item,
           run ∈ default [] (runs result)
           /\ item ∈ default [] (results run)
           /\ unreadable (runRules run) item) ->
        c = ∅)
  /\ (forall JSON_parse Uri_file cliPath fsPath code stdout stderr ed
             result e c,
        code = Some 0 \/ code = Some 1 ->
        JSON_parse stdout = VSCode.Returned result ->
        VSCode.updateDiagnostics Uri_file result ∅ = (VSCode.Threw e, c) ->
        let after :=
          VSCode.scanCurrentFile JSON_parse Uri_file cliPath fsPath
            (VSCode.Close code stdout stderr) ed in
        VSCode.diagnosticCollection after = c
        /\ VSCode.statusBarText after = "$(error) BlockSecOps"
        /\ last (VSCode.outputChannel after) = Some ("Scan error: " +:+ e))
  /\ (forall item rules,
        Sarif.message item = None ->
        shownUris item <> [] ->
        (forall l, l ∈ default [] (locations item) ->
                   ~ negativeRange (locationRegion l)) ->
        VSCode.createDiagnosticsForResult item rules
        = VSCode.Threw
            "TypeError: Cannot read properties of undefined (reading 'text')").
Proof.
  split; [|split; [|split]].
  - intros Uri_file result shown. unfold VSCode.updateDiagnostics.
    rewrite forRuns_entries.
    pose proof (entriesOfRuns_throws (default [] (runs result))) as Hthrows.
    destruct (entriesOfRuns (default [] (runs result))) as [es|e] eqn:Hes.
    + rewrite pushed_byPath.
      pose proof (setAll_throws Uri_file (byPath es) ∅) as Hset.
      pose proof (entriesOfRuns_paths _ _ Hes) as Hpaths.
      fold (reportPaths result) in Hpaths.
      split.
      * intros Hthrown. right.
        apply Hset in Hthrown as (x & e & Hx & He).
        unfold byPath in Hx.
        apply list_elem_of_fmap in Hx as (q & -> & Hq).
        rewrite elem_of_firsts in Hq.
        exists q, e. by rewrite <- Hpaths.
      * intros [Hbad|(q & e & Hq & He)].
        -- apply Hthrows in Hbad as [e ?]. done.
        -- apply Hset. exists (q, diagnosticsOf q es), e.
           split; [|done]. unfold byPath. apply list_elem_of_fmap.
           exists q. split; [reflexivity|].
           apply elem_of_firsts. by rewrite Hpaths.
    + split; [|eauto]. intros _. left. apply Hthrows. eauto.
  - intros Uri_file result shown e c. unfold VSCode.updateDiagnostics.
    rewrite forRuns_entries. intros Hupdate Hbad.
    apply entriesOfRuns_throws in Hbad as [e' He']. rewrite He' in Hupdate.
    by injection Hupdate as _ <-.
  - intros JSON_parse Uri_file cliPath fsPath code stdout stderr ed result
      e c Hcode Hparse Hthrow after. subst after.
    unfold VSCode.scanCurrentFile, VSCode.runScan, VSCode.onClose.
    assert (bool_decide (code = Some 0) || bool_decide (code = Some 1) = true)
      as -> by (destruct Hcode as [-> | ->]; done).
    rewrite Hparse.
    assert (forall shown,
              VSCode.updateDiagnostics Uri_file result shown
              = (VSCode.Threw e, c)) as Hany by (intros shown; exact Hthrow).
    rewrite Hany. simpl. by rewrite last_snoc.
  - intros item rules Hm Hshown Hrange.
    by apply forLocations_no_message.
Qed.

Lemma one_unreadable_finding_empties_the_collection_witness :
  (VSCode.updateDiagnostics Samples.fileUri MoreSamples.mixedReport
     Samples.staleCollection).2
  = ∅
  /\ last (VSCode.outputChannel
             (VSCode.scanCurrentFile
                (fun _ => VSCode.Returned MoreSamples.mixedReport)
                Samples.fileUri "blocksecops" "/c.sol"
                (VSCode.Close (Some 1) "" "") Samples.vscodeAfterGoodScan))
     = Some ("Scan error: "
             +:+ "TypeError: Cannot read properties of undefined (reading 'text')").
Proof.
  split.
  - apply (proj1 (proj2 one_unreadable_finding_empties_the_collection)
             Samples.fileUri MoreSamples.mixedReport Samples.staleCollection
             "TypeError: Cannot read properties of undefined (reading 'text')").
    + reflexivity.
    + eexists _, MoreSamples.noMessage.
      split; [apply list_elem_of_singleton; reflexivity|].
      split; [apply elem_of_cons; right; apply list_elem_of_singleton;
              reflexivity|].
      eexists _, "file:///c.sol".
      split; [apply list_elem_of_singleton; reflexivity|].
      split; [reflexivity|]. split; [discriminate|]. right. exact I.
  - apply (proj1 (proj2 (proj2 one_unreadable_finding_empties_the_collection))
             (fun _ => VSCode.Returned MoreSamples.mixedReport)
             Samples.fileUri "blocksecops" "/c.sol" (Some 1) "" ""
             Samples.vscodeAfterGoodScan MoreSamples.mixedReport
             "TypeError: Cannot read properties of undefined (reading 'text')"
             ∅ (or_intror eq_refl) eq_refl eq_refl).
Defined.

(** ** VS Code: what [runScan] resolves to *)

Lemma onClose_frame (JSON_parse : string -> VSCode.completion SarifResult)
    (code : option Z) (stdout stderr : string) (ed : VSCode.Editor) :
  let closed := VSCode.onClose JSON_parse code stdout stderr ed in
  (forall result,
     closed.1 = Some result
     <-> (code = Some 0 \/ code = Some 1)
         /\ JSON_parse stdout = VSCode.Returned result)
  /\ VSCode.diagnosticCollection closed.2 = VSCode.diagnosticCollection ed
  /\ VSCode.statusBarText closed.2 = VSCode.statusBarText ed
  /\ VSCode.errorMessages closed.2 = VSCode.errorMessages ed
  /\ (exists lines,
        lines <> []
        /\ VSCode.outputChannel closed.2 = VSCode.outputChannel ed ++ lines).
Proof.
  intros closed. subst closed. unfold VSCode.onClose.
  set (ed2 := if String.eqb stderr "" then ed else VSCode.appendLine _ ed).
  assert (VSCode.diagnosticCollection ed2 = VSCode.diagnosticCollection ed
          /\ VSCode.statusBarText ed2 = VSCode.statusBarText ed
          /\ VSCode.errorMessages ed2 = VSCode.errorMessages ed
          /\ exists lines,
               VSCode.outputChannel ed2 = VSCode.outputChannel ed ++ lines)
    as (Hd & Hs & He & lines & Hl).
  { subst ed2. destruct (String.eqb stderr ""); simpl.
    - repeat split. exists []. by rewrite app_nil_r.
    - repeat split. by eexists [_]. }
  destruct (bool_decide (code = Some 0) || bool_decide (code = Some 1)) eqn:Hc.
  - assert (code = Some 0 \/ code = Some 1) as Hcode.
    { apply orb_true_iff in Hc as [H|H]; apply bool_decide_eq_true in H; auto. }
    destruct (JSON_parse stdout) as [r|e] eqn:Hp; simpl.
    + split; [|split; [done|split; [done|split; [done|]]]].
      * intros result. split; [by intros [= <-]|]. intros [_ Hp']. congruence.
      * exists (lines ++ ["Scan completed: "
                          +:+ pretty (VSCode.firstRunCount r)
                          +:+ " findings"]).
        split; [by destruct lines|].
        by rewrite Hl, <- (assoc_L (++)).
    + split; [|split; [done|split; [done|split; [done|]]]].
      * intros result. split; [done|]. by intros [_ ?].
      * exists (lines ++ ["Failed to parse scan results: " +:+ e]).
        split; [by destruct lines|].
        by rewrite Hl, <- (assoc_L (++)).
  - simpl. split; [|split; [done|split; [done|split; [done|]]]].
    + intros result. split; [done|]. intros [Hcode _].
      apply orb_false_iff in Hc as [H0 H1].
      apply bool_decide_eq_false in H0, H1. by destruct Hcode.
    + exists (lines ++ ["Scan failed with exit code: "
                        +:+ VSCode.prettyCode code]).
      split; [by destruct lines|].
      by rewrite Hl, <- (assoc_L (++)).
Qed.

(** [runScan] resolves to a report exactly when the process closed with
    exit code 0 or 1 and its output parsed; the report is then the parsed
    one.  Whatever happens, it leaves the diagnostics and the status bar
    alone, only adds lines to the output channel, and shows an error
    pop-up only when the process could not be started. *)
Theorem runScan_resolves (JSON_parse : string -> VSCode.completion SarifResult)
    (cliPath target : string) (ev : VSCode.ProcessEvent) (ed : VSCode.Editor) :
  let scan := VSCode.runScan JSON_parse cliPath target ev ed in
  (forall result,
     scan.1 = Some result
     <-> exists code stdout stderr,
           ev = VSCode.Close code stdout stderr
           /\ (code = Some 0 \/ code = Some 1)
           /\ JSON_parse stdout = VSCode.Returned result)
  /\ VSCode.diagnosticCollection scan.2 = VSCode.diagnosticCollection ed
  /\ VSCode.statusBarText scan.2 = VSCode.statusBarText ed
  /\ (exists lines,
        lines <> []
        /\ VSCode.outputChannel scan.2 = VSCode.outputChannel ed ++ lines)
  /\ (VSCode.errorMessages scan.2 <> VSCode.errorMessages ed
      <-> exists message code, ev = VSCode.SpawnError message code).
Proof.
  intros scan. subst scan. unfold VSCode.runScan.
  destruct ev as [code stdout stderr|message code].
  - set (ed1 := VSCode.appendLine _ ed).
    destruct (onClose_frame JSON_parse code stdout stderr ed1)
      as (Hres & Hd & Hs & He & lines & Hne & Hl).
    split; [|split; [done|split; [done|split]]].
    + intros result. rewrite Hres. split.
      * intros [? ?]. by exists code, stdout, stderr.
      * by intros (? & ? & ? & [= <- <- <-] & ? & ?).
    + rewrite Hl. subst ed1. simpl. eexists (_ :: lines).
      split; [done|]. by rewrite <- (assoc_L (++)).
    + rewrite He. split; [done|]. by intros (? & ? & ?).
  - set (ed1 := VSCode.showErrorMessage _ _).
    destruct (onClose_frame JSON_parse code "" "" ed1)
      as (_ & Hd & Hs & He & lines & Hne & Hl).
    cbn [fst snd].
    split; [|split; [done|split; [done|split]]].
    + intros result. split; [done|]. by intros (? & ? & ? & ? & _).
    + rewrite Hl. subst ed1. simpl. eexists (_ :: _ :: lines).
      split; [done|]. by rewrite <- !(assoc_L (++)).
    + split; [by eauto|]. intros _. rewrite He. subst ed1. simpl. intros H.
      apply (f_equal length) in H. rewrite length_app in H. simpl in H. lia.
Qed.

(** ** VS Code: file scans and workspace scans *)

(** For the same outcome of the process, [scanWorkspace] and
    [scanCurrentFile] leave the same diagnostics, the same status bar text
    and the same error pop-ups; the workspace scan shows its completion
    message exactly when the output was parsed and [updateDiagnostics]
    returned. *)
Theorem workspace_scan_agrees_with_file_scan
    (JSON_parse : string -> VSCode.completion SarifResult)
    (Uri_file : string -> VSCode.completion string)
    (cliPath path : string) (ev : VSCode.ProcessEvent) (ed : VSCode.Editor) :
  let w := VSCode.scanWorkspace JSON_parse Uri_file cliPath path ev ed in
  let f := VSCode.scanCurrentFile JSON_parse Uri_file cliPath path ev ed in
  VSCode.diagnosticCollection w.1 = VSCode.diagnosticCollection f
  /\ VSCode.statusBarText w.1 = VSCode.statusBarText f
  /\ VSCode.errorMessages w.1 = VSCode.errorMessages f
  /\ (w.2 <> []
      <-> exists result,
            (VSCode.runScan JSON_parse cliPath path ev ed).1 = Some result
            /\ (VSCode.updateDiagnostics Uri_file result ∅).1
               = VSCode.Returned tt).
Proof.
  intros w f. subst w f.
  unfold VSCode.scanWorkspace, VSCode.scanCurrentFile.
  assert (forall ed',
            (VSCode.runScan JSON_parse cliPath path ev ed').1
            = (VSCode.runScan JSON_parse cliPath path ev ed).1
            /\ VSCode.diagnosticCollection
                 (VSCode.runScan JSON_parse cliPath path ev ed').2
               = VSCode.diagnosticCollection ed'
            /\ VSCode.errorMessages
                 (VSCode.runScan JSON_parse cliPath path ev ed').2
               = VSCode.errorMessages ed'
                 ++ match ev with
                    | VSCode.SpawnError _ _ =>
                        ["Failed to run blocksecops-cli. Make sure it is installed and in your PATH."]
                    | _ => []
                    end) as Hscan.
  { intros ed'. unfold VSCode.runScan.
    destruct ev as [code stdout stderr|message code].
    - set (a := VSCode.appendLine _ ed'). set (b := VSCode.appendLine _ ed).
      destruct (onClose_frame JSON_parse code stdout stderr a)
        as (Ha & Hda & _ & Hea & _).
      destruct (onClose_frame JSON_parse code stdout stderr b)
        as (Hb & _).
      split; [|split; [done|]].
      + destruct (VSCode.onClose JSON_parse code stdout stderr a).1 as [r|]
          eqn:Hr;
          destruct (VSCode.onClose JSON_parse code stdout stderr b).1 as [r'|]
            eqn:Hr'; [| | |done].
        * destruct (proj1 (Ha r) eq_refl) as [_ Hpa].
          destruct (proj1 (Hb r') eq_refl) as [_ Hpb]. congruence.
        * by pose proof (proj2 (Hb r) (proj1 (Ha r) eq_refl)).
        * by pose proof (proj2 (Ha r') (proj1 (Hb r') eq_refl)).
      + rewrite Hea. subst a. simpl. by rewrite app_nil_r.
    - set (a := VSCode.showErrorMessage _ _).
      destruct (onClose_frame JSON_parse code "" "" a)
        as (_ & Hda & _ & Hea & _).
      cbn [fst snd]. split; [done|]. split; [done|]. by rewrite Hea. }
  destruct (Hscan (VSCode.setStatusBar "$(sync~spin) Scanning workspace..." ed))
    as (Hw & Hwd & Hwe).
  destruct (Hscan (VSCode.setStatusBar "$(sync~spin) Scanning..." ed))
    as (Hf & Hfd & Hfe).
  destruct (VSCode.runScan JSON_parse cliPath path ev
              (VSCode.setStatusBar "$(sync~spin) Scanning workspace..." ed))
    as [rw edw].
  destruct (VSCode.runScan JSON_parse cliPath path ev
              (VSCode.setStatusBar "$(sync~spin) Scanning..." ed))
    as [rf edf].
  simpl in Hw, Hf, Hwe, Hfe, Hwd, Hfd. rewrite <- Hw. rewrite <- Hf in Hw. subst rf.
  assert (VSCode.errorMessages edw = VSCode.errorMessages edf) as Herr
    by (by rewrite Hwe, Hfe).
  assert (VSCode.diagnosticCollection edw = VSCode.diagnosticCollection edf)
    as Hdiag by (by rewrite Hwd, Hfd).
  destruct rw as [r|].
  - assert (forall shown,
              VSCode.updateDiagnostics Uri_file r shown
              = VSCode.updateDiagnostics Uri_file r ∅) as Hany by done.
    rewrite (Hany (VSCode.diagnosticCollection edw)),
      (Hany (VSCode.diagnosticCollection edf)).
    destruct (VSCode.updateDiagnostics Uri_file r ∅) as [[[]|e] c] eqn:Hu;
      simpl.
    + split_and!; try done. split; [|done]. intros _. exists r.
      by rewrite Hu.
    + split_and!; try done. split; [done|].
      intros (? & [= <-] & Hret). by rewrite Hu in Hret.
  - simpl. split_and!; try done. split; [done|].
    by intros (? & ? & _).
Qed.

(** ** Neovim: what a scan leaves behind *)

Lemma lua_filter_filename (result : SarifResultItem) (path : string)
    (f : Neovim.Finding) :
  Neovim.parse_finding result (Some path) = Some f ->
  Neovim.filename f = path.
Proof.
  unfold Neovim.parse_finding.
  destruct (locations result) as [[|l ls]|]; try done.
  destruct (physicalLocation l) as [phys|]; [|done]. simpl.
  match goal with |- context [String.eqb ?a path] =>
    destruct (String.eqb_spec a path) as [Heq|]; simpl; [|done] end.
  destruct (region phys); intros; by simplify_eq/=.
Qed.

Lemma lua_filtered_findings json_decode names sarif_json bufnr f :
  f ∈ Neovim.parse_sarif json_decode names sarif_json (Some bufnr) ->
  Neovim.filename f = names bufnr.
Proof.
  unfold Neovim.parse_sarif.
  destruct (json_decode sarif_json ≫= runs) as [rs|];
    [|by intros ?%elem_of_nil].
  intros (run & _ & Hf)%elem_of_flat_map.
  destruct (results run) as [items|]; [|by apply elem_of_nil in Hf].
  apply list_elem_of_omap in Hf as (item & _ & Hf).
  by apply lua_filter_filename in Hf.
Qed.

(** After [process_results] for a buffer, that buffer is the only one
    with diagnostics of the plugin: those of every other buffer are gone.
    Its diagnostics are the findings parsed for it, in order, each from a
    finding whose path is the name of the buffer, each marked with the
    buffer and the source [blocksecops]; one message is shown, and buffer
    names and the current buffer stay as they were. *)
Theorem process_results_replaces_all_diagnostics
    (json_decode : string -> option SarifResult) (sarif_json : string)
    (bufnr : nat) (ed : Neovim.Editor) :
  let after := Neovim.process_results json_decode sarif_json bufnr ed in
  let findings :=
    Neovim.parse_sarif json_decode (Neovim.buf_get_name ed) sarif_json
      (Some bufnr) in
  (forall b, b <> bufnr -> Neovim.diagnostics after !! b = None)
  /\ default [] (Neovim.diagnostics after !! bufnr)
     = Neovim.to_diagnostic bufnr <$> findings
  /\ (forall f, f ∈ findings ->
        Neovim.filename f = Neovim.buf_get_name ed bufnr)
  /\ (forall d, d ∈ default [] (Neovim.diagnostics after !! bufnr) ->
        Neovim.d_bufnr d = bufnr /\ Neovim.d_source d = "blocksecops")
  /\ (exists shown,
        Neovim.notifications after = Neovim.notifications ed ++ [shown])
  /\ Neovim.buf_get_name after = Neovim.buf_get_name ed
  /\ Neovim.current_buf after = Neovim.current_buf ed.
Proof.
  intros after findings.
  assert (default [] (Neovim.diagnostics after !! bufnr)
          = Neovim.to_diagnostic bufnr <$> findings) as Hset.
  { subst after findings. unfold Neovim.process_results. simpl.
    destruct (Neovim.parse_sarif _ _ _ _) as [|f fs]; simpl.
    - by rewrite lookup_empty.
    - by rewrite lookup_insert_eq. }
  split; [|split; [done|split; [|split; [|split; [|split]]]]].
  - intros b Hb. subst after. unfold Neovim.process_results. simpl.
    destruct (length _ =? 0)%nat; simpl.
    + apply lookup_empty.
    + rewrite lookup_insert_ne by done. apply lookup_empty.
  - intros f Hf. by apply lua_filtered_findings in Hf.
  - intros d. rewrite Hset. by intros (f & -> & _)%list_elem_of_fmap.
  - subst after. unfold Neovim.process_results. simpl.
    destruct (length _ =? 0)%nat; simpl; eauto.
  - subst after. unfold Neovim.process_results.
    by destruct (length _ =? 0)%nat.
  - subst after. unfold Neovim.process_results.
    by destruct (length _ =? 0)%nat.
Qed.

(** A workspace scan touches the quickfix list only when it has findings:
    it then holds one entry for each finding, in order, and the quickfix
    window is opened; with no finding the list of an earlier scan stays.
    The diagnostics are never touched, and the exit code of the job does
    not change the list.  An entry keeps the one-based line and column of
    the finding, one more than the diagnostic of the same finding, and its
    type letter follows the severity of that diagnostic. *)
Theorem workspace_scan_fills_quickfix
    (json_decode : string -> option SarifResult) :
  (forall sarif_json w,
     let after := Neovim.process_workspace_results json_decode sarif_json w in
     let findings :=
       Neovim.parse_sarif json_decode (Neovim.buf_get_name (Neovim.editor w))
         sarif_json None in
     (findings = [] ->
      Neovim.qflist after = Neovim.qflist w
      /\ Neovim.qf_open after = Neovim.qf_open w)
     /\ (findings <> [] ->
         Neovim.qflist after = Neovim.to_qf_item <$> findings
         /\ Neovim.qf_open after = true)
     /\ Neovim.diagnostics (Neovim.editor after)
        = Neovim.diagnostics (Neovim.editor w))
  /\ (forall data exit_code w,
        Neovim.qflist (Neovim.scan_workspace json_decode data exit_code w)
        = Neovim.qflist (Neovim.scan_workspace json_decode data 0 w))
  /\ (forall f bufnr,
        let q := Neovim.to_qf_item f in
        let d := Neovim.to_diagnostic bufnr f in
        Neovim.qf_lnum q = Neovim.d_lnum d + 1
        /\ Neovim.qf_col q = Neovim.d_col d + 1
        /\ (Neovim.qf_type q = "E" <-> Neovim.d_severity d = Neovim.ERROR)
        /\ (Neovim.qf_type q = "W" <-> Neovim.d_severity d = Neovim.WARN)
        /\ (Neovim.qf_type q = "I"
            <-> Neovim.d_severity d = Neovim.INFO
                \/ Neovim.d_severity d = Neovim.HINT)).
Proof.
  split; [|split].
  - intros sarif_json w after findings. subst after.
    unfold Neovim.process_workspace_results. fold findings.
    destruct findings as [|f fs]; simpl; [done|].
    split; [done|]. by split.
  - intros data exit_code w. unfold Neovim.scan_workspace.
    by destruct (negb (exit_code =? 0) && negb (exit_code =? 1)).
  - intros f bufnr q d. subst q d. simpl.
    split; [lia|]. split; [lia|].
    destruct (String.eqb (Neovim.level f) "error"); [by repeat split; intros; try done; destruct H|].
    destruct (String.eqb (Neovim.level f) "warning"); [by repeat split; intros; try done; destruct H|].
    destruct (String.eqb (Neovim.level f) "note");
      repeat split; intros; try done; auto; by destruct H.
Qed.

(** ** Findings of a file and findings of the workspace *)

Lemma omap_sublist {A B} (f g : A -> option B) (l : list A) :
  (forall x y, f x = Some y -> g x = Some y) ->
  omap f l `sublist_of` omap g l.
Proof.
  intros Hfg. induction l as [|x l IH]; [done|].
  rewrite !omap_cons. destruct (f x) as [y|] eqn:Hf.
  - rewrite (Hfg _ _ Hf). by apply sublist_skip.
  - destruct (g x); [by apply sublist_cons|done].
Qed.

Lemma flat_map_sublist {A B} (f g : A -> list B) (l : list A) :
  (forall x, f x `sublist_of` g x) ->
  flat_map f l `sublist_of` flat_map g l.
Proof.
  intros Hfg. induction l as [|x l IH]; simpl; [done|].
  by apply sublist_app.
Qed.

Lemma lua_unfiltered (result : SarifResultItem) (filter_file : option string)
    (f : Neovim.Finding) :
  Neovim.parse_finding result filter_file = Some f ->
  Neovim.parse_finding result None = Some f.
Proof.
  unfold Neovim.parse_finding.
  destruct (locations result) as [[|l ls]|]; try done.
  destruct (physicalLocation l) as [phys|]; [|done].
  by destruct filter_file as [p|]; [destruct (negb _)|].
Qed.

Lemma vim_unfiltered (result : SarifResultItem) (filter_file : string)
    (f : Vim.Finding) :
  Vim.ParseFinding result filter_file = Some f ->
  Vim.ParseFinding result "" = Some f.
Proof.
  unfold Vim.ParseFinding.
  destruct (locations result) as [[|l ls]|]; try done.
  destruct (physicalLocation l) as [phys|]; [|done].
  simpl. by destruct (_ && _ && _).
Qed.

(** In the Neovim plugin and in the Vim plugin, the findings that a
    report gives for one file are among those it gives for the
    workspace, in the same order: the file filter only removes
    findings.  In the Vim plugin [ParseSarif] stops with an error, with
    the filter as without it, exactly when the output decodes to a value
    that is no dictionary. *)
Theorem file_findings_among_workspace_findings
    (json_decode : string -> option SarifResult)
    (vim_json_decode : string -> Vim.Decoded) (sarif_json : string) :
  (forall names bufnr,
     Neovim.parse_sarif json_decode names sarif_json (Some bufnr)
     `sublist_of` Neovim.parse_sarif json_decode names sarif_json None)
  /\ (forall file,
        match Vim.ParseSarif vim_json_decode sarif_json file,
              Vim.ParseSarif vim_json_decode sarif_json "" with
        | Vim.Returns of_file, Vim.Returns of_workspace =>
            of_file `sublist_of` of_workspace
            /\ vim_json_decode sarif_json <> Vim.NoDictionary
        | Vim.Aborts error, Vim.Aborts error' =>
            error = error' /\ vim_json_decode sarif_json = Vim.NoDictionary
        | _, _ => False
        end).
Proof.
  split.
  - intros names bufnr. unfold Neovim.parse_sarif.
    destruct (json_decode sarif_json ≫= runs) as [rs|]; [|done].
    apply flat_map_sublist. intros run.
    destruct (results run) as [items|]; [|done].
    apply omap_sublist. intros result f. apply lua_unfiltered.
  - intros file. unfold Vim.ParseSarif.
    destruct (vim_json_decode sarif_json) as [| |sarif]; [done|done|].
    destruct (runs sarif) as [rs|]; [|done].
    split; [|done].
    apply flat_map_sublist. intros run.
    destruct (results run) as [items|]; [|done].
    apply omap_sublist. intros result f. apply vim_unfiltered.
Qed.

(** ** IntelliJ: a finding on which [parseFinding] throws *)

Lemma java_throws_iff (result : SarifResultItem) (path : string) :
  IntelliJ.parseFinding result path = IntelliJ.Exception
  <-> uriMissing result.
Proof.
  unfold IntelliJ.parseFinding, uriMissing, firstLocation.
  destruct (locations result) as [[|l ls]|]; simpl;
    try (split; [done|by intros (? & ? & ? & ? & _)]).
  destruct (physicalLocation l) as [phys|] eqn:Hphys;
    [|split; [done|by intros (? & ? & ? & [= <-] & ? & _); simplify_eq]].
  destruct (artifactLocation phys) as [a|] eqn:Ha.
  - destruct (Sarif.uri a) as [u|] eqn:Hu.
    + split.
      * destruct (negb _ && negb _); [done|]. by destruct (region phys).
      * intros (? & ? & ? & [= <-] & ? & ? & ?). simplify_eq.
    + split; [|done]. intros _. by exists l, phys, a.
  - split.
    + by destruct (region phys).
    + intros (? & ? & ? & [= <-] & ? & ? & ?). simplify_eq.
Qed.

Lemma java_forResults_exception path before bad after_ : forall findings,
  IntelliJ.parseFinding bad path = IntelliJ.Exception ->
  IntelliJ.forResults (before ++ bad :: after_) path findings
  = IntelliJ.forResults before path findings.
Proof.
  induction before as [|r before IH]; intros findings Hbad.
  - simpl. by rewrite Hbad.
  - cbn [app IntelliJ.forResults].
    destruct (IntelliJ.parseFinding r path) as [[f|]|]; [| |done];
      by apply IH.
Qed.

(** The IntelliJ annotator throws on a finding exactly when the
    [artifactLocation] of its first location has no [uri].  At the first
    such finding of the first run it stops reading: the findings before it
    are returned as if the report had ended there, and every finding after
    it is lost. *)
Theorem findings_after_an_exception_are_lost
    (fromJson : string -> option SarifResult) (sarifJson filePath : string)
    (sarif : SarifResult) (run : SarifRun) (others : list SarifRun)
    (before after_ : list SarifResultItem) (bad : SarifResultItem) :
  fromJson sarifJson = Some sarif ->
  runs sarif = Some (run :: others) ->
  results run = Some (before ++ bad :: after_) ->
  Forall (fun r => ~ uriMissing r) before ->
  uriMissing bad ->
  IntelliJ.parseFinding bad filePath = IntelliJ.Exception
  /\ IntelliJ.parseFindings fromJson sarifJson filePath
     = omap (javaFinding filePath) before.
Proof.
  intros Hjson Hruns Hresults Hbefore Hbad.
  apply (java_throws_iff _ filePath) in Hbad. split; [done|].
  unfold IntelliJ.parseFindings. rewrite Hjson, Hruns, Hresults.
  rewrite java_forResults_exception by done.
  rewrite java_forResults_no_exception; [done|].
  intros r Hr Hthrows. apply java_throws_iff in Hthrows.
  by eapply (proj1 (Forall_forall _ _) Hbefore).
Qed.

Lemma findings_after_an_exception_are_lost_witness :
  IntelliJ.parseFinding MoreSamples.noUri "/c.sol" = IntelliJ.Exception
  /\ IntelliJ.parseFindings (fun _ => Some MoreSamples.brokenReport) ""
       "/c.sol"
     = [Samples.reentrancyAnnotation].
Proof.
  refine (findings_after_an_exception_are_lost
            (fun _ => Some MoreSamples.brokenReport) "" "/c.sol"
            MoreSamples.brokenReport _ [] [Samples.reentrancy]
            [Samples.reentrancy] MoreSamples.noUri
            eq_refl eq_refl eq_refl _ _).
  - constructor; [|constructor].
    intros (l & phys & a & Hl & Hphys & Ha & Hu).
    injection Hl as <-. injection Hphys as <-. injection Ha as <-.
    discriminate Hu.
  - by eexists _, _, _.
Defined.

(** ** IntelliJ: the ranges that [apply] annotates *)

Lemma int_id (z : Z) : - 2 ^ 31 <= z < 2 ^ 31 -> IntelliJ.int z = z.
Proof.
  intros Hz. unfold IntelliJ.int.
  change (2 ^ 31) with 2147483648 in *. change (2 ^ 32) with 4294967296.
  rewrite Z.mod_small; lia.
Qed.

Lemma int_wraps_down (z : Z) :
  2 ^ 31 <= z < 2 ^ 31 + 2 ^ 32 -> IntelliJ.int z = z - 2 ^ 32.
Proof.
  intros Hz. unfold IntelliJ.int.
  change (2 ^ 31) with 2147483648 in *. change (2 ^ 32) with 4294967296 in *.
  replace (z + 2147483648) with (z - 4294967296 + 2147483648 + 1 * 4294967296)
    by lia.
  rewrite Z_mod_plus_full, Z.mod_small; lia.
Qed.

Lemma int_wraps_up (z : Z) :
  - 2 ^ 31 - 2 ^ 32 <= z < - 2 ^ 31 -> IntelliJ.int z = z + 2 ^ 32.
Proof.
  intros Hz. unfold IntelliJ.int.
  change (2 ^ 31) with 2147483648 in *. change (2 ^ 32) with 4294967296 in *.
  replace (z + 2147483648)
    with (z + 4294967296 + 2147483648 + (-1) * 4294967296) by lia.
  rewrite Z_mod_plus_full, Z.mod_small; lia.
Qed.

(** The column arithmetic of [apply]: [startOffset + startColumn - 1] in
    32 bits, for an offset inside the text and a positive column. *)
Lemma column_offset (start column : Z) :
  0 <= start < 2 ^ 31 -> 0 < column < 2 ^ 31 ->
  let moved := IntelliJ.int (IntelliJ.int (start + column) - 1) in
  (start + column <= 2 ^ 31 -> start <= moved)
  /\ (2 ^ 31 < start + column -> moved < 0).
Proof.
  intros Hs Hc moved. subst moved.
  change (2 ^ 31) with 2147483648 in *.
  split; intros Hsum.
  - destruct (decide (start + column = 2147483648)) as [Heq|Hne].
    + rewrite Heq. rewrite (int_wraps_down 2147483648)
        by (change (2 ^ 31) with 2147483648;
            change (2 ^ 32) with 4294967296; lia).
      change (2 ^ 32) with 4294967296.
      rewrite int_wraps_up
        by (change (2 ^ 31) with 2147483648;
            change (2 ^ 32) with 4294967296; lia).
      change (2 ^ 32) with 4294967296. lia.
    + rewrite (int_id (start + column))
        by (change (2 ^ 31) with 2147483648; lia).
      rewrite int_id by (change (2 ^ 31) with 2147483648; lia). lia.
  - rewrite (int_wraps_down (start + column))
      by (change (2 ^ 31) with 2147483648;
          change (2 ^ 32) with 4294967296; lia).
    change (2 ^ 32) with 4294967296.
    rewrite int_id by (change (2 ^ 31) with 2147483648; lia). lia.
Qed.

Lemma annotate_range toLowerCase toUpperCase (d : IntelliJ.Document)
    (f : IntelliJ.Finding) (a : IntelliJ.Annotation) :
  wellFormed d ->
  IntelliJ.startColumn f < 2 ^ 31 ->
  IntelliJ.annotate toLowerCase toUpperCase d f = Some a ->
  IntelliJ.a_message a = IntelliJ.message f
  /\ annotatedLine f < IntelliJ.getLineCount d
  /\ IntelliJ.a_startOffset a <= IntelliJ.a_endOffset a
  /\ IntelliJ.a_endOffset a <= IntelliJ.getTextLength d
  /\ (0 <= IntelliJ.a_startOffset a
      <-> IntelliJ.startColumn f <= 0
          \/ IntelliJ.getLineStartOffset d (annotatedLine f)
             + IntelliJ.startColumn f <= 2 ^ 31).
Proof.
  intros (Hlen & Hline & Hmono) Hcol. unfold IntelliJ.annotate.
  fold (annotatedLine f). set (sl := annotatedLine f).
  set (el := Z.max sl (IntelliJ.int (IntelliJ.endLine f - 1))).
  assert (0 <= sl) as Hsl0 by (subst sl; unfold annotatedLine; lia).
  assert (sl <= el) as Hsel by (subst el; lia).
  destruct (IntelliJ.getLineCount d <=? sl) eqn:Hcount; [done|].
  apply Z.leb_gt in Hcount.
  destruct (Hline sl) as (Hs0 & Hse & Het); [lia|].
  set (endOffset := if el <? IntelliJ.getLineCount d
                    then IntelliJ.getLineEndOffset d el
                    else IntelliJ.getTextLength d).
  assert (IntelliJ.getLineStartOffset d sl <= endOffset
          /\ endOffset <= IntelliJ.getTextLength d) as [Hlo Hhi].
  { subst endOffset. destruct (el <? IntelliJ.getLineCount d) eqn:Hel.
    - apply Z.ltb_lt in Hel.
      destruct (Hline el) as (? & ? & ?); [lia|].
      pose proof (Hmono sl el Hsl0 Hsel Hel). lia.
    - lia. }
  intros [= <-]. cbn [IntelliJ.a_message IntelliJ.a_startOffset
                      IntelliJ.a_endOffset].
  split; [done|]. split; [done|].
  destruct (0 <? IntelliJ.startColumn f) eqn:Hpos.
  - apply Z.ltb_lt in Hpos.
    destruct (column_offset (IntelliJ.getLineStartOffset d sl)
                (IntelliJ.startColumn f)) as [Hfits Hwraps]; [lia|lia|].
    split; [lia|]. split; [done|]. split.
    + intros Hstart. right.
      destruct (decide (IntelliJ.getLineStartOffset d sl
                        + IntelliJ.startColumn f <= 2 ^ 31)); [done|].
      assert (2 ^ 31 < IntelliJ.getLineStartOffset d sl
                       + IntelliJ.startColumn f) as Hover by lia.
      apply Hwraps in Hover. lia.
    + intros [Hneg|Hfit]; [lia|]. apply Hfits in Hfit. lia.
  - apply Z.ltb_ge in Hpos. split; [done|]. split; [done|].
    split; [by left|done].
Qed.

(** For a well-formed document and findings whose columns are [int]s,
    every annotation that [apply] creates comes from one of the findings
    and carries its message; it starts on a line of the document, its
    range does not end before it starts and ends inside the text.  Its
    start is inside the text too, except when the column is so large that
    adding it to the offset of the line overflows 32 bits: the start is
    then negative. *)
Theorem annotation_ranges (toLowerCase toUpperCase : string -> string)
    (document : IntelliJ.Document) (findings : list IntelliJ.Finding)
    (a : IntelliJ.Annotation) :
  wellFormed document ->
  Forall (fun f => IntelliJ.startColumn f < 2 ^ 31) findings ->
  a ∈ IntelliJ.apply toLowerCase toUpperCase (Some document) (Some findings) ->
  exists f,
    f ∈ findings
    /\ IntelliJ.a_message a = IntelliJ.message f
    /\ annotatedLine f < IntelliJ.getLineCount document
    /\ IntelliJ.a_startOffset a <= IntelliJ.a_endOffset a
    /\ IntelliJ.a_endOffset a <= IntelliJ.getTextLength document
    /\ (0 <= IntelliJ.a_startOffset a
        <-> IntelliJ.startColumn f <= 0
            \/ IntelliJ.getLineStartOffset document (annotatedLine f)
               + IntelliJ.startColumn f <= 2 ^ 31).
Proof.
  intros Hdoc Hcols Ha. unfold IntelliJ.apply in Ha.
  assert (a ∈ omap (IntelliJ.annotate toLowerCase toUpperCase document)
                findings) as Hin.
  { destruct findings; [by apply elem_of_nil in Ha|done]. }
  apply list_elem_of_omap in Hin as (f & Hf & Hann).
  exists f. split; [done|].
  eapply annotate_range; [done| |done].
  by apply (proj1 (Forall_forall _ _) Hcols).
Qed.

Lemma annotation_ranges_witness :
  exists f,
    f ∈ [MoreSamples.farColumn]
    /\ IntelliJ.a_message MoreSamples.farColumnAnnotation
       = IntelliJ.message f
    /\ annotatedLine f < IntelliJ.getLineCount MoreSamples.twoLines
    /\ IntelliJ.a_startOffset MoreSamples.farColumnAnnotation
       <= IntelliJ.a_endOffset MoreSamples.farColumnAnnotation
    /\ IntelliJ.a_endOffset MoreSamples.farColumnAnnotation
       <= IntelliJ.getTextLength MoreSamples.twoLines
    /\ (0 <= IntelliJ.a_startOffset MoreSamples.farColumnAnnotation
        <-> IntelliJ.startColumn f <= 0
            \/ IntelliJ.getLineStartOffset MoreSamples.twoLines
                 (annotatedLine f)
               + IntelliJ.startColumn f <= 2 ^ 31).
Proof.
  apply (annotation_ranges (fun s => s) (fun s => s) MoreSamples.twoLines
           [MoreSamples.farColumn] MoreSamples.farColumnAnnotation).
  - split; [reflexivity|]. split.
    + intros i Hi. simpl in Hi. assert (i = 0 \/ i = 1) as [-> | ->] by lia;
        simpl; lia.
    + intros i j Hi Hij Hj. simpl in Hj.
      assert (i = 0 \/ i = 1) as [-> | ->] by lia;
        assert (j = 0 \/ j = 1) as [-> | ->] by lia; simpl; lia.
  - constructor; [reflexivity|constructor].
  - vm_compute. apply list_elem_of_here.
Defined.

(** ** IntelliJ: the scan action and the annotator on the exit code *)

(** [handleScanResult] shows exactly one balloon.  The balloon is an
    error exactly when the annotator returns [null] for the same exit
    code, an information exactly for exit code 0 and a warning exactly for
    exit code 1; the output reaches the results service for exit code 1
    only, and only the output of that scan is added. *)
Theorem scan_action_follows_the_exit_code
    (fromJson : string -> option SarifResult) (project : IntelliJ.Project)
    (filePath output : string) (exitCode : Z) :
  let after := IntelliJ.handleScanResult project output exitCode in
  (exists text type,
     IntelliJ.notifications after
     = IntelliJ.notifications project ++ [(text, type)]
     /\ (type = IntelliJ.ERROR
         <-> IntelliJ.doAnnotate fromJson filePath exitCode output = None)
     /\ (type = IntelliJ.INFORMATION <-> exitCode = 0)
     /\ (type = IntelliJ.WARNING <-> exitCode = 1))
  /\ (exitCode <> 1 ->
      IntelliJ.resultsService after = IntelliJ.resultsService project)
  /\ (exitCode = 1 ->
      IntelliJ.resultsService after
      = (fun seen => seen ++ [output]) <$> IntelliJ.resultsService project).
Proof.
  intros after. subst after.
  unfold IntelliJ.handleScanResult, IntelliJ.doAnnotate.
  destruct (Z.eqb_spec exitCode 0) as [->|H0]; simpl.
  - split; [|by split]. eexists _, _. split; [done|].
    by repeat split.
  - destruct (Z.eqb_spec exitCode 1) as [->|H1]; simpl.
    + split; [|by split]. eexists _, _. split; [done|].
      by repeat split.
    + split; [|by split]. eexists _, _. split; [done|].
      by repeat split.
Qed.

(** ** The three ways of stripping the scheme *)

Lemma prefix_empty_l (s : string) : String.prefix "" s = true.
Proof. by destruct s. Qed.

Lemma prefix_app (pat s : string) : String.prefix pat (pat +:+ s) = true.
Proof.
  induction pat as [|c pat IH]; simpl; [apply prefix_empty_l|].
  by destruct (Ascii.ascii_dec c c).
Qed.

Lemma skip_app (pat s : string) :
  Str.skip (String.length pat) (pat +:+ s) = s.
Proof. induction pat as [|c pat IH]; [done|apply IH]. Qed.

Lemma length_skip_le (n : nat) (s : string) :
  (String.length (Str.skip n s) <= String.length s)%nat.
Proof.
  revert s. induction n as [|n IH]; intros [|c s]; simpl; try lia.
  specialize (IH s). lia.
Qed.

Lemma removeFirst_unfold (pat s : string) :
  Str.removeFirst pat s
  = if String.prefix pat s then Str.skip (String.length pat) s
    else match s with
         | EmptyString => EmptyString
         | String c s' => String c (Str.removeFirst pat s')
         end.
Proof. by destruct s. Qed.

Lemma no_occurrence_no_prefix (pat : string) (c : Ascii.ascii) (s : string) :
  Str.occurrences pat (String c s) = O ->
  String.prefix pat (String c s) = false /\ Str.occurrences pat s = O.
Proof.
  rewrite occurrences_cons.
  destruct (String.prefix pat (String c s)); [done|]. intros Hocc. by split.
Qed.

Lemma removeFirst_none (pat s : string) :
  Str.occurrences pat s = O -> Str.removeFirst pat s = s.
Proof.
  induction s as [|c s IH]; intros Hocc.
  - rewrite removeFirst_unfold. destruct (String.prefix pat "");
      [apply skip_empty|done].
  - apply no_occurrence_no_prefix in Hocc as [Hp Hocc].
    rewrite removeFirst_unfold, Hp. by rewrite IH.
Qed.

Lemma removeAll_none (pat s : string) :
  Str.occurrences pat s = O -> Str.removeAllFrom pat O s = s.
Proof.
  induction s as [|c s IH]; intros Hocc; [done|].
  apply no_occurrence_no_prefix in Hocc as [Hp Hocc].
  cbn [Str.removeAllFrom]. rewrite Hp. by rewrite IH.
Qed.

Lemma removeAnchored_none (pat s : string) :
  Str.occurrences pat s = O -> Str.removeAnchored pat s = s.
Proof.
  unfold Str.removeAnchored. destruct s as [|c s]; intros Hocc.
  - destruct (String.prefix pat ""); [apply skip_empty|done].
  - apply no_occurrence_no_prefix in Hocc as [Hp _]. by rewrite Hp.
Qed.

Lemma removeAllFrom_pending (pat p s : string) :
  Str.removeAllFrom pat (String.length p) (p +:+ s)
  = Str.removeAllFrom pat O s.
Proof. induction p as [|c p IH]; [done|apply IH]. Qed.

Lemma removeFirst_shortens (a : Ascii.ascii) (p s : string) :
  Str.occurrences (String a p) s <> O ->
  (String.length (Str.removeFirst (String a p) s) < String.length s)%nat.
Proof.
  induction s as [|c s IH]; intros Hocc; [done|].
  rewrite removeFirst_unfold. rewrite occurrences_cons in Hocc.
  destruct (String.prefix (String a p) (String c s)).
  - cbn [String.length Str.skip].
    pose proof (length_skip_le (String.length p) s). lia.
  - cbn [String.length]. specialize (IH Hocc). lia.
Qed.

(** JavaScript's [replace] (first occurrence), Java's [replace] (every
    occurrence) and the anchored substitution of Lua and Vimscript give
    the same path for a URI in which the scheme does not occur, and for
    one in which it occurs as a prefix and nowhere after it.  The first
    occurrence and the anchored substitution differ exactly on the URIs
    that contain the scheme but do not start with it. *)
Theorem stripping_agrees (pat s : string) :
  (Str.occurrences pat s = O ->
   Str.removeFirst pat s = s
   /\ Str.removeAll pat s = s
   /\ Str.removeAnchored pat s = s
   /\ Str.removeFirst pat (pat +:+ s) = s
   /\ Str.removeAll pat (pat +:+ s) = s
   /\ Str.removeAnchored pat (pat +:+ s) = s)
  /\ (Str.removeAnchored pat s = Str.removeFirst pat s
      <-> String.prefix pat s = true \/ Str.occurrences pat s = O).
Proof.
  split.
  - intros Hocc. split; [by apply removeFirst_none|].
    split; [by apply removeAll_none|].
    split; [by apply removeAnchored_none|].
    split; [|split].
    + by rewrite removeFirst_unfold, prefix_app, skip_app.
    + unfold Str.removeAll. destruct pat as [|a p].
      * by apply removeAll_none.
      * change (String a p +:+ s) with (String a (p +:+ s)).
        cbn [Str.removeAllFrom].
        change (String a (p +:+ s)) with (String a p +:+ s).
        rewrite prefix_app. cbn [String.length Nat.pred].
        rewrite removeAllFrom_pending. by apply removeAll_none.
    + unfold Str.removeAnchored. by rewrite prefix_app, skip_app.
  - unfold Str.removeAnchored. rewrite (removeFirst_unfold pat s).
    destruct (String.prefix pat s) eqn:Hp.
    + split; [by left|done].
    + split.
      * intros Heq. right.
        destruct pat as [|a p]; [by rewrite prefix_empty_l in Hp|].
        destruct (decide (Str.occurrences (String a p) s = O)) as [|Hocc];
          [done|].
        apply removeFirst_shortens in Hocc.
        rewrite removeFirst_unfold, Hp in Hocc.
        rewrite <- Heq in Hocc. lia.
      * intros [|Hocc]; [done|].
        apply removeFirst_none in Hocc.
        by rewrite removeFirst_unfold, Hp in Hocc.
Qed.

Lemma stripping_agrees_witness :
  Str.removeFirst "file://" "file:///c.sol" = "/c.sol"
  /\ Str.removeAll "file://" "file:///c.sol" = "/c.sol"
  /\ Str.removeAnchored "file://" "file:///c.sol" = "/c.sol".
Proof.
  pose proof (proj1 (stripping_agrees "file://" "/c.sol") eq_refl)
    as (_ & _ & _ & Hfirst & Hall & Hanchored).
  exact (conj Hfirst (conj Hall Hanchored)).
Defined.

(** ** Vim: signs and quickfix list of a file scan *)

Lemma execute_place (atoi : Z -> Z) (id : nat) (line : Z) (name : string)
    (buffer : nat) (st : Vim.State) :
  let r := Vim.execute atoi (Vim.SignPlace id line name buffer) st in
  Vim.executed r.1
  = Vim.executed st ++ [Vim.SignPlace id line name buffer]
  /\ Vim.qflist r.1 = Vim.qflist st
  /\ Vim.echoed r.1 = Vim.echoed st
  /\ Vim.copened r.1 = Vim.copened st
  /\ (forall s,
        s ∈ Vim.signs r.1
        <-> s ∈ Vim.signs st \/ (0 < atoi line /\ s = (id, buffer)))
  /\ (r.2 = true <-> atoi line <= 0 /\ (id, buffer) ∉ Vim.signs st)
  /\ Vim.errors r.1
     = Vim.errors st
       ++ (if r.2 then ["E885: Not possible to change sign " +:+ name]
           else []).
Proof.
  intros r. subst r. unfold Vim.execute.
  cbn [Vim.executed Vim.qflist Vim.echoed Vim.copened Vim.signs Vim.errors].
  destruct (Z.ltb_spec 0 (atoi line)) as [Hpos|Hneg];
    destruct (bool_decide_reflect ((id, buffer) ∈ Vim.signs st))
      as [Hin|Hout];
    cbn [fst snd Vim.executed Vim.qflist Vim.echoed Vim.copened Vim.signs
         Vim.errors Vim.raise];
    rewrite ?app_nil_r; split_and!; try done.
  all: try (intros s; rewrite ?elem_of_app, ?list_elem_of_singleton).
  all: try (split; [auto|]; intros [?|[? ?]]; first [done|lia|by subst]).
  all: try (split; [done|]; intros [? ?]; first [done|lia]).
  split.
  - intros [?|?]; [by left|by right].
  - intros [?|[_ ?]]; [by left|by right].
Qed.

Lemma placeSigns_spec (atoi : Z -> Z) (buffer : nat)
    (findings : list Vim.Finding) :
  forall (sign_id : nat) (st : Vim.State),
    let r := Vim.placeSigns atoi findings sign_id buffer st in
    let cmds :=
      imap (fun i f =>
              Vim.SignPlace (sign_id + i) (Vim.lnum f)
                ("BlockSecOps" +:+ Vim.level f) buffer)
           findings in
    let no i f :=
      atoi (Vim.lnum f) <= 0 /\ (sign_id + i, buffer)%nat ∉ Vim.signs st in
    Vim.qflist r.1 = Vim.qflist st
    /\ Vim.echoed r.1 = Vim.echoed st
    /\ Vim.copened r.1 = Vim.copened st
    /\ (forall s, s ∈ Vim.signs st -> s ∈ Vim.signs r.1)
    /\ (forall s,
          s ∈ Vim.signs r.1 ->
          s ∈ Vim.signs st
          \/ exists i f, findings !! i = Some f /\ 0 < atoi (Vim.lnum f)
                         /\ s = ((sign_id + i)%nat, buffer))
    /\ ((forall i f, findings !! i = Some f -> ~ no i f) ->
        r.2 = false
        /\ Vim.executed r.1 = Vim.executed st ++ cmds
        /\ Vim.errors r.1 = Vim.errors st
        /\ forall i, (i < length findings)%nat ->
                     ((sign_id + i)%nat, buffer) ∈ Vim.signs r.1)
    /\ (forall i f,
          findings !! i = Some f -> no i f ->
          (forall j g, (j < i)%nat -> findings !! j = Some g -> ~ no j g) ->
          r.2 = true
          /\ Vim.executed r.1 = Vim.executed st ++ take (S i) cmds
          /\ Vim.errors r.1
             = Vim.errors st
               ++ ["E885: Not possible to change sign BlockSecOps"
                   +:+ Vim.level f]).
Proof.
  induction findings as [|f findings IH]; intros sign_id st r cmds no.
  - subst r cmds. simpl. split_and!; try done; auto.
    + intros _. rewrite app_nil_r. split_and!; try done. intros i Hi. lia.
  - subst r. cbn [Vim.placeSigns].
    destruct (execute_place atoi sign_id (Vim.lnum f)
                ("BlockSecOps" +:+ Vim.level f) buffer st)
      as (Hex & Hqf & Hecho & Hopen & Hsigns & Hfail & Herr).
    destruct (Vim.execute atoi _ st) as [st1 failed]. cbn [fst snd] in *.
    assert (forall i,
              ((S sign_id + i)%nat, buffer) ∈ Vim.signs st1
              <-> ((sign_id + S i)%nat, buffer) ∈ Vim.signs st) as Hlater.
    { intros i. rewrite Hsigns. replace (S sign_id + i)%nat
        with (sign_id + S i)%nat by lia.
      split; [|auto]. intros [?|[_ [= ?]]]; [done|lia]. }
    destruct failed.
    + cbn [fst snd]. apply proj1 in Hfail. specialize (Hfail eq_refl).
      split_and!; try done.
      * intros s. rewrite Hsigns. auto.
      * intros s. rewrite Hsigns. intros [?|[? ->]]; [by left|].
        right. exists 0%nat, f. by rewrite Nat.add_0_r.
      * intros Hall. exfalso. apply (Hall 0%nat f eq_refl).
        subst no. cbn beta. by rewrite Nat.add_0_r.
      * intros [|i] g Hg Hno Hbefore.
        -- injection Hg as <-. split; [done|]. split; [|done].
           subst cmds. cbn [imap take]. by rewrite take_0, Nat.add_0_r.
        -- exfalso. apply (Hbefore 0%nat f); [lia|done|].
           subst no. cbn beta. by rewrite Nat.add_0_r.
    + assert (~ (atoi (Vim.lnum f) <= 0
                 /\ (sign_id, buffer) ∉ Vim.signs st)) as Hok.
      { intros H. by apply Hfail in H. }
      rewrite app_nil_r in Herr.
      destruct (IH (S sign_id) st1)
        as (Hqf' & Hecho' & Hopen' & Hkeep & Hnew & Hall & Hstop).
      split_and!.
      * by rewrite Hqf'.
      * by rewrite Hecho'.
      * by rewrite Hopen'.
      * intros s Hs. apply Hkeep, Hsigns. by left.
      * intros s Hs. apply Hnew in Hs as [Hs|(i & g & Hg & Hpos & ->)].
        -- apply Hsigns in Hs as [?|[? ->]]; [by left|].
           right. exists 0%nat, f. by rewrite Nat.add_0_r.
        -- right. exists (S i), g. split; [done|]. split; [done|].
           f_equal. lia.
      * intros Hnone.
        destruct Hall as (Hr & Hexs & Herrs & Hplaced).
        { intros i g Hg [Hline Hout]. apply (Hnone (S i) g Hg).
          split; [done|]. by rewrite <- Hlater. }
        split; [done|]. split; [|split; [by rewrite Herrs|]].
        -- rewrite Hexs, Hex, <- (assoc_L (++)). f_equal.
           subst cmds. cbn [imap app]. rewrite Nat.add_0_r. f_equal.
           apply imap_ext. intros i x _. cbn. f_equal. lia.
        -- intros [|i] Hi.
           ++ rewrite Nat.add_0_r. apply Hkeep, Hsigns.
              destruct (Z.lt_ge_cases 0 (atoi (Vim.lnum f))) as [?|Hle];
                [by right|].
              left. destruct (decide ((sign_id, buffer) ∈ Vim.signs st));
                [done|]. exfalso. apply Hok. by split; [lia|].
           ++ replace (sign_id + S i)%nat with (S sign_id + i)%nat by lia.
              apply Hplaced. simpl in Hi. lia.
      * intros [|i] g Hg Hno Hbefore.
        { injection Hg as <-. exfalso. apply Hok.
          subst no. cbn beta in Hno. by rewrite Nat.add_0_r in Hno. }
        destruct (Hstop i g Hg) as (Hr & Hexs & Herrs).
        { destruct Hno as [Hline Hout]. split; [done|]. by rewrite Hlater. }
        { intros j h Hj Hh [Hline Hout]. apply (Hbefore (S j) h); [lia|done|].
          split; [done|]. by rewrite <- Hlater. }
        split; [done|]. split; [|by rewrite Herrs, Herr].
        rewrite Hexs, Hex, <- (assoc_L (++)). f_equal.
        subst cmds. cbn [imap app take]. rewrite Nat.add_0_r. f_equal.
        f_equal. apply imap_ext. intros k x _. cbn. f_equal. lia.
Qed.

Lemma vim_level_defined (result : SarifResultItem) (filter_file : string)
    (f : Vim.Finding) :
  Vim.ParseFinding result filter_file = Some f ->
  "BlockSecOps" +:+ Vim.level f ∈ Vim.defined_signs.
Proof.
  unfold Vim.ParseFinding, Vim.defined_signs.
  destruct (locations result) as [[|l ls]|]; try done.
  destruct (physicalLocation l) as [phys|]; [|done].
  destruct (_ && _ && _); [done|].
  destruct (region phys); intros [= <-]; cbn [Vim.level];
    destruct (String.eqb _ "error");
    try destruct (String.eqb _ "warning"); set_solver.
Qed.

Lemma vim_findings_parsed json_decode sarif_json filter_file findings f :
  Vim.ParseSarif json_decode sarif_json filter_file = Vim.Returns findings ->
  f ∈ findings ->
  exists result, Vim.ParseFinding result filter_file = Some f.
Proof.
  unfold Vim.ParseSarif.
  destruct (json_decode sarif_json) as [| |sarif];
    [by intros [= <-] ?%elem_of_nil|done|].
  destruct (runs sarif) as [rs|]; [|by intros [= <-] ?%elem_of_nil].
  intros [= <-] (run & _ & Hf)%elem_of_flat_map.
  destruct (results run) as [items|]; [|by apply elem_of_nil in Hf].
  apply list_elem_of_omap in Hf as (item & _ & Hf). by exists item.
Qed.

(** A file scan of the Vim plugin leaves the signs, the quickfix list and
    the errors alone when the buffer is not a Solidity file or the exit
    code is neither 0 nor 1.  Otherwise it executes one [sign unplace],
    and when the output gives findings, one [sign place] for each of them
    for as long as Vim accepts these, numbered from 1 in the order of the
    findings, each in the scanned buffer and with one of the three sign
    names that the plugin defines.  When Vim accepts them all, each
    finding has its sign and the quickfix list is replaced, if there is a
    finding.  When Vim refuses one, the scan stops there with error E885:
    no later sign is placed, the quickfix list stays as it was and the
    message of the scan is not shown.  No sign that was placed before is
    removed, and the quickfix window is never opened. *)
Theorem vim_scan_places_defined_signs (atoi : Z -> Z)
    (json_decode : string -> Vim.Decoded) (file extension : string)
    (buffer : nat) (output : string) (exit_code : Z) (st : Vim.State) :
  let after :=
    Vim.ScanCurrentFile atoi json_decode file extension buffer output
      exit_code st in
  let scanned :=
    file <> "" /\ extension = "sol" /\ (exit_code = 0 \/ exit_code = 1) in
  (~ scanned ->
   Vim.executed after = Vim.executed st /\ Vim.signs after = Vim.signs st
   /\ Vim.qflist after = Vim.qflist st /\ Vim.errors after = Vim.errors st)
  /\ (forall findings,
        scanned ->
        Vim.ParseSarif json_decode output file = Vim.Returns findings ->
        ((forall i f, findings !! i = Some f -> ~ refused atoi st buffer i f) ->
         Vim.executed after
         = Vim.executed st
           ++ Vim.SignUnplaceAll "BlockSecOps" :: signsFor buffer findings
         /\ (forall i, (i < length findings)%nat ->
                       (S i, buffer) ∈ Vim.signs after)
         /\ Vim.qflist after
            = match findings with [] => Vim.qflist st | _ => findings end
         /\ Vim.errors after = Vim.errors st)
        /\ (forall i f,
              findings !! i = Some f ->
              refused atoi st buffer i f ->
              (forall j g, (j < i)%nat -> findings !! j = Some g ->
                           ~ refused atoi st buffer j g) ->
              Vim.executed after
              = Vim.executed st
                ++ Vim.SignUnplaceAll "BlockSecOps"
                   :: take (S i) (signsFor buffer findings)
              /\ Vim.qflist after = Vim.qflist st
              /\ Vim.errors after
                 = Vim.errors st
                   ++ ["E885: Not possible to change sign BlockSecOps"
                       +:+ Vim.level f]
              /\ Vim.echoed after
                 = Vim.echoed st ++ [("BlockSecOps: Scanning...", Vim.HlNone)])
        /\ (forall s,
              s ∈ Vim.signs after ->
              s ∈ Vim.signs st
              \/ exists i f, findings !! i = Some f
                             /\ 0 < atoi (Vim.lnum f) /\ s = (S i, buffer))
        /\ (forall id line name b,
              Vim.SignPlace id line name b ∈ signsFor buffer findings ->
              name ∈ Vim.defined_signs /\ b = buffer
              /\ (1 <= id <= length findings)%nat))
  /\ (forall s, s ∈ Vim.signs st -> s ∈ Vim.signs after)
  /\ Vim.copened after = Vim.copened st.
Proof.
  intros after scanned.
  split; [|split; [|split]].
  - intros Hnot. subst after. unfold Vim.ScanCurrentFile.
    destruct (String.eqb_spec file "") as [|Hfile]; [done|].
    destruct (String.eqb_spec extension "sol") as [Hext|]; [|done].
    destruct (Z.eqb_spec exit_code 0) as [H0|H0].
    { exfalso. apply Hnot. repeat split; auto. }
    destruct (Z.eqb_spec exit_code 1) as [H1|H1]; [|done].
    exfalso. apply Hnot. repeat split; auto.
  - intros findings (Hfile & Hext & Hcode) Hparse.
    subst after. unfold Vim.ScanCurrentFile.
    destruct (String.eqb_spec file "") as [|_]; [done|].
    destruct (String.eqb_spec extension "sol") as [_|]; [|done].
    assert ((exit_code =? 0) || (exit_code =? 1) = true) as ->
      by (destruct Hcode as [-> | ->]; done).
    cbn [negb orb]. unfold Vim.ProcessResults. rewrite Hparse.
    set (st1 := Vim.ClearSigns atoi
                  (Vim.echo "BlockSecOps: Scanning..." Vim.HlNone st)).
    destruct (placeSigns_spec atoi buffer findings 1 st1)
      as (Hqf & Hecho & Hopen & Hkeep & Hnew & Hall & Hstop).
    cbn zeta in Hall, Hstop.
    split; [|split; [|split]].
    + intros Hnone.
      destruct Hall as (Hr & Hex & Herr & Hplaced).
      { intros i f Hf [Hline Hout]. apply (Hnone i f Hf). by split. }
      destruct findings as [|f fs]; [by split_and!; try done; simpl; lia|].
      destruct (Vim.placeSigns atoi (f :: fs) 1 buffer st1) as [st2 failed].
      cbn [fst snd] in *. subst failed.
      cbn [Vim.echo Vim.setqflist Vim.executed Vim.qflist Vim.signs
           Vim.errors].
      split_and!; [|exact Hplaced|done|by rewrite Herr].
      rewrite Hex. subst st1.
      cbn [Vim.ClearSigns Vim.execute Vim.echo Vim.executed fst].
      by rewrite <- (assoc_L (++)).
    + intros i f Hf Href Hbefore.
      destruct (Hstop i f Hf) as (Hr & Hex & Herr).
      { destruct Href as [Hline Hout]. by split. }
      { intros j g Hj Hg [Hline Hout]. apply (Hbefore j g Hj Hg). by split. }
      destruct findings as [|f' fs]; [done|].
      destruct (Vim.placeSigns atoi (f' :: fs) 1 buffer st1) as [st2 failed].
      cbn [fst snd] in *. subst failed.
      split_and!; [|done|by rewrite Herr|by rewrite Hecho].
      rewrite Hex. subst st1.
      cbn [Vim.ClearSigns Vim.execute Vim.echo Vim.executed fst].
      by rewrite <- (assoc_L (++)).
    + intros s.
      destruct findings as [|f' fs]; [by left|].
      destruct (Vim.placeSigns atoi (f' :: fs) 1 buffer st1) as [st2 failed].
      cbn [fst snd] in *.
      assert (s ∈ Vim.signs st2 ->
              s ∈ Vim.signs st
              \/ exists i f, (f' :: fs) !! i = Some f
                             /\ 0 < atoi (Vim.lnum f) /\ s = (S i, buffer))
        as Hs by (intros Hs; by apply Hnew in Hs).
      by destruct failed.
    + intros id line name b. unfold signsFor.
      intros (i & f & [= -> -> -> ->] & Hf)%elem_of_lookup_imap.
      assert (f ∈ findings) as Hin by (by eapply list_elem_of_lookup_2).
      destruct (vim_findings_parsed _ _ _ _ _ Hparse Hin) as (result & Hres).
      split; [by eapply vim_level_defined|]. split; [done|].
      apply lookup_lt_Some in Hf. lia.
  - intros s Hs. subst after. unfold Vim.ScanCurrentFile, Vim.ProcessResults.
    destruct (_ || _); [done|]. destruct (_ || _); [|done].
    set (st1 := Vim.ClearSigns atoi
                  (Vim.echo "BlockSecOps: Scanning..." Vim.HlNone st)).
    destruct (Vim.ParseSarif _ _ _) as [[|f fs]|error]; [done| |done].
    destruct (placeSigns_spec atoi buffer (f :: fs) 1 st1)
      as (_ & _ & _ & Hkeep & _).
    specialize (Hkeep s Hs).
    by destruct (Vim.placeSigns atoi (f :: fs) 1 buffer st1) as [st2 []].
  - subst after. unfold Vim.ScanCurrentFile, Vim.ProcessResults.
    destruct (_ || _); [done|]. destruct (_ || _); [|done].
    set (st1 := Vim.ClearSigns atoi
                  (Vim.echo "BlockSecOps: Scanning..." Vim.HlNone st)).
    destruct (Vim.ParseSarif _ _ _) as [[|f fs]|error]; [done| |done].
    destruct (placeSigns_spec atoi buffer (f :: fs) 1 st1)
      as (_ & _ & Hopen & _).
    by destruct (Vim.placeSigns atoi (f :: fs) 1 buffer st1) as [st2 []].
Qed.

(** A finding on line 0, in a buffer without signs: the one [sign place]
    fails, and the scan ends with the error, the quickfix list empty. *)
Example vim_sign_refused :
  let zeroLine :=
    {| ruleId := Some "r"; Sarif.level := Some "error";
       Sarif.message := Some {| Sarif.text := Some "m" |};
       locations :=
         Some [{| physicalLocation :=
                    Some {| artifactLocation :=
                              Some {| uri := Some "/c.sol" |};
                            region :=
                              Some {| startLine := Some 0;
                                      startColumn := None;
                                      endLine := None;
                                      endColumn := None |} |} |}] |} in
  let report :=
    {| runs := Some [{| tool := None; results := Some [zeroLine] |}] |} in
  let after :=
    Vim.ScanCurrentFile (fun n => n) (fun _ => Vim.Dictionary report)
      "/c.sol" "sol" 1 "{}" 1 MoreSamples.freshVim in
  Vim.executed after
  = [Vim.SignUnplaceAll "BlockSecOps";
     Vim.SignPlace 1 0 "BlockSecOpsError" 1]
  /\ Vim.signs after = []
  /\ Vim.qflist after = []
  /\ Vim.errors after
     = ["E885: Not possible to change sign BlockSecOpsError"]
  /\ Vim.echoed after = [("BlockSecOps: Scanning...", Vim.HlNone)].
Proof. by vm_compute. Qed.

(** ** Vim: output that decodes to no dictionary *)

(** When [json_decode] returns a value that is no dictionary, as it does
    for empty output, [ParseSarif] stops at [has_key] with error E715,
    and so do its callers: a file scan has removed the signs of its group
    by then, both scans leave the quickfix list and window as they were,
    and neither shows a message after the one that announces the scan.
    [ParseSarif] stops with an error for no other output. *)
Theorem vim_output_without_dictionary (atoi : Z -> Z)
    (json_decode : string -> Vim.Decoded) (output : string)
    (file : string) (buffer : nat) (exit_code : Z) (st : Vim.State) :
  (forall filter_file error,
     Vim.ParseSarif json_decode output filter_file = Vim.Aborts error
     <-> json_decode output = Vim.NoDictionary
         /\ error = "E715: Dictionary required")
  /\ (json_decode output = Vim.NoDictionary ->
      file <> "" -> exit_code = 0 \/ exit_code = 1 ->
      let f :=
        Vim.ScanCurrentFile atoi json_decode file "sol" buffer output
          exit_code st in
      let w := Vim.ScanWorkspace json_decode output exit_code st in
      Vim.executed f
      = Vim.executed st ++ [Vim.SignUnplaceAll "BlockSecOps"]
      /\ Vim.errors f = Vim.errors st ++ ["E715: Dictionary required"]
      /\ Vim.echoed f
         = Vim.echoed st ++ [("BlockSecOps: Scanning...", Vim.HlNone)]
      /\ Vim.qflist f = Vim.qflist st
      /\ Vim.signs f = Vim.signs st
      /\ Vim.executed w = Vim.executed st
      /\ Vim.errors w = Vim.errors st ++ ["E715: Dictionary required"]
      /\ Vim.echoed w
         = Vim.echoed st
           ++ [("BlockSecOps: Scanning workspace...", Vim.HlNone)]
      /\ Vim.qflist w = Vim.qflist st
      /\ Vim.copened w = Vim.copened st).
Proof.
  split.
  - intros filter_file error. unfold Vim.ParseSarif.
    destruct (json_decode output) as [| |sarif].
    + split; [done|]. by intros [? _].
    + split; [by intros [= <-]|]. by intros [_ ->].
    + destruct (runs sarif); (split; [done|]; by intros [? _]).
  - intros Hnone Hfile Hcode f w. subst f w.
    unfold Vim.ScanCurrentFile, Vim.ScanWorkspace, Vim.ProcessResults,
      Vim.ProcessWorkspaceResults, Vim.ParseSarif.
    rewrite Hnone.
    destruct (String.eqb_spec file "") as [|_]; [done|].
    assert ((exit_code =? 0) || (exit_code =? 1) = true) as ->
      by (destruct Hcode as [-> | ->]; done).
    by split_and!.
Qed.

Lemma vim_output_without_dictionary_witness :
  Json.vimDecodeOnly Samples.scenarioA "" = Vim.NoDictionary
  /\ Vim.errors
       (Vim.ScanCurrentFile (fun n => n)
          (Json.vimDecodeOnly Samples.scenarioA) "/c.sol" "sol" 1 "" 0
          MoreSamples.freshVim)
     = ["E715: Dictionary required"].
Proof.
  split; [reflexivity|].
  exact (proj1 (proj2 (proj2 (vim_output_without_dictionary (fun n => n)
                         (Json.vimDecodeOnly Samples.scenarioA) "" "/c.sol" 1
                         0 MoreSamples.freshVim)
                  eq_refl ltac:(discriminate) (or_introl eq_refl)))).
Defined.

(** ** The pre-commit hook *)

Lemma scanAll_failed (files : list Hook.Staged) : forall scan_failed,
  (Hook.scanAll files scan_failed).2
  = scan_failed
    || existsb (fun f => Hook.is_file f && (Hook.scan_exit f =? 1)) files.
Proof.
  induction files as [|f files IH]; intros scan_failed; simpl.
  - by rewrite orb_false_r.
  - destruct (Hook.is_file f); simpl; [|apply IH].
    destruct (Hook.scan_exit f =? 0) eqn:H0.
    + apply Z.eqb_eq in H0. rewrite H0. simpl.
      specialize (IH scan_failed).
      by destruct (Hook.scanAll files scan_failed).
    + destruct (Hook.scan_exit f =? 1); simpl.
      * specialize (IH true). rewrite orb_true_r.
        by destruct (Hook.scanAll files true).
      * specialize (IH scan_failed).
        by destruct (Hook.scanAll files scan_failed).
Qed.

Lemma scanAll_lines (files : list Hook.Staged) : forall scan_failed,
  length (Hook.scanAll files scan_failed).1
  = length (filter (fun f => Hook.is_file f = true) files).
Proof.
  induction files as [|f files IH]; intros scan_failed; [done|].
  cbn [Hook.scanAll]. rewrite filter_cons.
  destruct (Hook.is_file f).
  - rewrite decide_True by done. cbn [length].
    destruct (Hook.scan_exit f =? 0); [|destruct (Hook.scan_exit f =? 1)].
    + specialize (IH scan_failed).
      destruct (Hook.scanAll files scan_failed). simpl in *. by f_equal.
    + specialize (IH true).
      destruct (Hook.scanAll files true). simpl in *. by f_equal.
    + specialize (IH scan_failed).
      destruct (Hook.scanAll files scan_failed). simpl in *. by f_equal.
  - rewrite decide_False by done. apply IH.
Qed.

(** The hook blocks the commit, with exit status 1, exactly when the
    scanner is not installed or, with the scanner installed and
    authenticated, the scan of some staged file that still exists ends
    with exit code 1; in every other case it ends with status 0.  A scan
    that ends with any other code, a missing login and a staged file that
    has been removed never block a commit.  One line is printed for each
    staged file that exists. *)
Theorem hook_blocks_on_exit_code_one (installed authenticated : bool)
    (files : list Hook.Staged) :
  (Hook.preCommit installed authenticated files = 1
   <-> installed = false
       \/ (authenticated = true
           /\ exists f, f ∈ files /\ Hook.is_file f = true
                        /\ Hook.scan_exit f = 1))
  /\ (Hook.preCommit installed authenticated files = 0
      \/ Hook.preCommit installed authenticated files = 1)
  /\ (forall scan_failed,
        length (Hook.scanAll files scan_failed).1
        = length (filter (fun f => Hook.is_file f = true) files)).
Proof.
  assert ((Hook.scanAll files false).2 = true
          <-> exists f, f ∈ files /\ Hook.is_file f = true
                        /\ Hook.scan_exit f = 1) as Hfailed.
  { rewrite scanAll_failed. cbn [orb]. rewrite existsb_exists. split.
    - intros (f & Hin%list_elem_of_In & [Hfile Hexit%Z.eqb_eq]%andb_prop).
      by exists f.
    - intros (f & Hin & Hfile & Hexit). exists f.
      split; [by apply list_elem_of_In|].
      by rewrite Hfile, Hexit. }
  split; [|split; [|apply scanAll_lines]].
  - unfold Hook.preCommit. destruct installed; simpl.
    + destruct authenticated; simpl.
      * destruct files as [|f files].
        -- split; [done|]. intros [|(_ & ? & ?%elem_of_nil & _)]; done.
        -- destruct (Hook.scanAll (f :: files) false).2 eqn:Hscan.
           ++ split; [|done]. intros _. right. split; [done|].
              by apply Hfailed.
           ++ split; [done|]. intros [|(_ & Hex)]; [done|].
              apply Hfailed in Hex. congruence.
      * split; [done|]. by intros [|[? _]].
    + split; [by left|done].
  - unfold Hook.preCommit. destruct installed; simpl; [|by right].
    destruct authenticated; simpl; [|by left].
    destruct files; [by left|].
    destruct (Hook.scanAll _ _).2; [by right|by left].
Qed.

(** ** Neovim and Vim: the quickfix list of a workspace scan *)

Lemma entry_agrees (result : SarifResultItem) :
  match Neovim.parse_finding result None, Vim.ParseFinding result "" with
  | Some f, Some g => sameEntry (Neovim.to_qf_item f) g
  | None, None => True
  | _, _ => False
  end.
Proof.
  unfold Neovim.parse_finding, Vim.ParseFinding, sameEntry.
  destruct (locations result) as [[|l ls]|]; try done.
  destruct (physicalLocation l) as [phys|]; [|done].
  cbn [String.eqb negb andb].
  by destruct (region phys).
Qed.

Lemma entries_agree (items : list SarifResultItem) :
  Forall2 sameEntry
    (Neovim.to_qf_item
       <$> omap (fun result => Neovim.parse_finding result None) items)
    (omap (fun result => Vim.ParseFinding result "") items).
Proof.
  induction items as [|r items IH]; [constructor|].
  rewrite !omap_cons. pose proof (entry_agrees r) as Hr.
  destruct (Neovim.parse_finding r None), (Vim.ParseFinding r ""); try done.
  rewrite fmap_cons. by constructor.
Qed.

Lemma workspace_entries_agree json_decode vim_json_decode names sarif_json :
  sameDecoding (json_decode sarif_json) (vim_json_decode sarif_json) ->
  match Vim.ParseSarif vim_json_decode sarif_json "" with
  | Vim.Returns findings =>
      Forall2 sameEntry
        (Neovim.to_qf_item
           <$> Neovim.parse_sarif json_decode names sarif_json None)
        findings
  | Vim.Aborts _ =>
      Neovim.parse_sarif json_decode names sarif_json None = []
  end.
Proof.
  unfold Neovim.parse_sarif, Vim.ParseSarif, sameDecoding.
  destruct (json_decode sarif_json) as [a|],
    (vim_json_decode sarif_json) as [| |b]; try done; try constructor.
  intros <-. cbn [mbind option_bind].
  destruct (runs a) as [rs|]; [|constructor].
  induction rs as [|run rs IH]; [constructor|].
  cbn [flat_map]. rewrite fmap_app. apply Forall2_app; [|done].
  destruct (results run) as [items|]; [apply entries_agree|constructor].
Qed.

Lemma workspace_results_in_step
    (json_decode : string -> option SarifResult)
    (vim_json_decode : string -> Vim.Decoded) (sarif_json : string)
    (w : Neovim.Workspace) (st : Vim.State) :
  sameDecoding (json_decode sarif_json) (vim_json_decode sarif_json) ->
  Forall2 sameEntry (Neovim.qflist w) (Vim.qflist st) ->
  Neovim.qf_open w = Vim.copened st ->
  Forall2 sameEntry
    (Neovim.qflist (Neovim.process_workspace_results json_decode sarif_json w))
    (Vim.qflist (Vim.ProcessWorkspaceResults vim_json_decode sarif_json st))
  /\ Neovim.qf_open (Neovim.process_workspace_results json_decode sarif_json w)
     = Vim.copened (Vim.ProcessWorkspaceResults vim_json_decode sarif_json st)
  /\ Neovim.diagnostics
       (Neovim.editor
          (Neovim.process_workspace_results json_decode sarif_json w))
     = Neovim.diagnostics (Neovim.editor w)
  /\ Vim.executed (Vim.ProcessWorkspaceResults vim_json_decode sarif_json st)
     = Vim.executed st
  /\ Vim.signs (Vim.ProcessWorkspaceResults vim_json_decode sarif_json st)
     = Vim.signs st.
Proof.
  intros Hsame Hlists Hopen.
  unfold Neovim.process_workspace_results, Vim.ProcessWorkspaceResults.
  pose proof (workspace_entries_agree json_decode vim_json_decode
                (Neovim.buf_get_name (Neovim.editor w)) sarif_json Hsame)
    as Hnew.
  destruct (Vim.ParseSarif _ _ "") as [[|g gs]|error];
    destruct (Neovim.parse_sarif _ _ _ None) as [|f fs];
    try done; try (by inversion Hnew).
Qed.

(** The Neovim plugin and the Vim plugin stay in step on the results of a
    workspace scan, when their decoders make the same of the output: if
    their quickfix lists showed the same entries before, they do so after
    the same output has been processed, and the quickfix window is open in
    the one exactly when it is open in the other.  Neither touches what a
    file scan shows: the diagnostics in Neovim, the signs in Vim. *)
Theorem workspace_lists_stay_in_step
    (json_decode : string -> option SarifResult)
    (vim_json_decode : string -> Vim.Decoded) (sarif_json : string)
    (w : Neovim.Workspace) (st : Vim.State) :
  sameDecoding (json_decode sarif_json) (vim_json_decode sarif_json) ->
  Forall2 sameEntry (Neovim.qflist w) (Vim.qflist st) ->
  Neovim.qf_open w = Vim.copened st ->
  let w' := Neovim.process_workspace_results json_decode sarif_json w in
  let st' := Vim.ProcessWorkspaceResults vim_json_decode sarif_json st in
  Forall2 sameEntry (Neovim.qflist w') (Vim.qflist st')
  /\ Neovim.qf_open w' = Vim.copened st'
  /\ Neovim.diagnostics (Neovim.editor w')
     = Neovim.diagnostics (Neovim.editor w)
  /\ Vim.executed st' = Vim.executed st
  /\ Vim.signs st' = Vim.signs st.
Proof. apply workspace_results_in_step. Qed.

Lemma workspace_lists_stay_in_step_witness :
  Forall2 sameEntry
    (Neovim.qflist
       (Neovim.process_workspace_results (fun _ => Some Samples.scenarioC)
          "" MoreSamples.freshWorkspace))
    (Vim.qflist
       (Vim.ProcessWorkspaceResults
          (fun _ => Vim.Dictionary Samples.scenarioC)
          "" MoreSamples.freshVim))
  /\ Neovim.qf_open
       (Neovim.process_workspace_results (fun _ => Some Samples.scenarioC)
          "" MoreSamples.freshWorkspace)
     = true.
Proof.
  destruct (workspace_lists_stay_in_step (fun _ => Some Samples.scenarioC)
              (fun _ => Vim.Dictionary Samples.scenarioC) ""
              MoreSamples.freshWorkspace MoreSamples.freshVim
              eq_refl (Forall2_nil_2 _ _ sameEntry) eq_refl)
    as (Hlists & _ & _ & _).
  split; [exact Hlists|reflexivity].
Defined.

(** On a workspace scan that ends with exit code 0 or 1 and has output,
    the two plugins stay in step as well.  On any other exit code they
    part: the Vim plugin does not read the output and keeps its quickfix
    list and window, and its last message is the failure, while the Neovim
    plugin has processed the output as for exit code 0 before it reports
    the failure. *)
Theorem workspace_scans_part_on_failure
    (json_decode : string -> option SarifResult)
    (vim_json_decode : string -> Vim.Decoded) (data : list string)
    (exit_code : Z) (w : Neovim.Workspace) (st : Vim.State) :
  data <> [] ->
  sameDecoding (json_decode (Neovim.concat_lines data))
    (vim_json_decode (Neovim.concat_lines data)) ->
  Forall2 sameEntry (Neovim.qflist w) (Vim.qflist st) ->
  Neovim.qf_open w = Vim.copened st ->
  let w' := Neovim.scan_workspace json_decode data exit_code w in
  let st' :=
    Vim.ScanWorkspace vim_json_decode (Neovim.concat_lines data) exit_code
      st in
  (exit_code = 0 \/ exit_code = 1 ->
   Forall2 sameEntry (Neovim.qflist w') (Vim.qflist st')
   /\ Neovim.qf_open w' = Vim.copened st')
  /\ (exit_code <> 0 -> exit_code <> 1 ->
      Vim.qflist st' = Vim.qflist st
      /\ Vim.copened st' = Vim.copened st
      /\ (exists text, last (Vim.echoed st') = Some (text, Vim.ErrorMsg))
      /\ Neovim.qflist w'
         = Neovim.qflist
             (Neovim.process_workspace_results json_decode
                (Neovim.concat_lines data) w)
      /\ (exists text,
            last (Neovim.notifications (Neovim.editor w'))
            = Some (text, Neovim.LvlError))).
Proof.
  intros Hdata Hsame Hlists Hopen w' st'. subst w' st'.
  unfold Neovim.scan_workspace, Vim.ScanWorkspace.
  assert (Nat.ltb 0 (length data) = true) as ->
    by (destruct data; [done|reflexivity]).
  split.
  - intros Hcode.
    assert ((exit_code =? 0) || (exit_code =? 1) = true) as Hok
      by (destruct Hcode as [-> | ->]; done).
    assert (negb (exit_code =? 0) && negb (exit_code =? 1) = false) as ->
      by (destruct Hcode as [-> | ->]; done).
    rewrite Hok.
    set (w1 := Neovim.Build_Workspace _ _ _).
    set (st1 := Vim.echo _ _ st).
    destruct (workspace_results_in_step json_decode vim_json_decode
                (Neovim.concat_lines data) w1 st1) as (H1 & H2 & _);
      by subst w1 st1.
  - intros H0 H1.
    assert ((exit_code =? 0) = false) as -> by by apply Z.eqb_neq.
    assert ((exit_code =? 1) = false) as -> by by apply Z.eqb_neq.
    cbn [negb andb orb Vim.echo Vim.qflist Vim.copened Vim.echoed
         Neovim.qflist Neovim.editor Neovim.notify Neovim.notifications].
    split; [done|]. split; [done|].
    split; [eexists; by rewrite last_snoc|].
    split.
    + unfold Neovim.process_workspace_results. cbn [Neovim.editor Neovim.notify
        Neovim.buf_get_name Neovim.qflist].
      by destruct (Nat.eqb _ 0).
    + eexists. by rewrite last_snoc.
Qed.

Lemma workspace_scans_part_on_failure_witness :
  Vim.qflist
    (Vim.ScanWorkspace (fun _ => Vim.Dictionary Samples.scenarioC)
       (Neovim.concat_lines ["{}"]) 2 MoreSamples.freshVim)
  = []
  /\ length
       (Neovim.qflist
          (Neovim.scan_workspace (fun _ => Some Samples.scenarioC) ["{}"] 2
             MoreSamples.freshWorkspace))
     = 2%nat.
Proof.
  destruct (proj2 (workspace_scans_part_on_failure
                     (fun _ => Some Samples.scenarioC)
                     (fun _ => Vim.Dictionary Samples.scenarioC) ["{}"] 2
                     MoreSamples.freshWorkspace MoreSamples.freshVim
                     ltac:(discriminate) eq_refl
                     (Forall2_nil_2 _ _ sameEntry) eq_refl)
              ltac:(discriminate) ltac:(discriminate))
    as (Hvim & _ & _ & Hnvim & _).
  split; [exact Hvim|]. rewrite Hnvim. reflexivity.
Defined.
